(** * Chiller:Electric:ReformulatedEIR -- the condenser-temperature solver

    A shallow embedding of the performance core of
    [src/EnergyPlus/ChillerReformulatedEIR.cc]:

    - [ReformEIRChillerHeatRecovery]  (the heat-recovery split),
    - [CalcReformEIRChillerModel]     (the single-point performance evaluator),
    - [CondOutTempResidual] and [ControlReformEIRChillerModel]
                                      (the condenser-temperature solver),
    - [CheckMinMaxCurveBoundaries]    (the boundary validator),
    - [UpdateReformEIRChillerRecords] (the report update),
    - of [GetElecReformEIRChillerInput], the checks of the rated
      performance data, and of [SimReformulatedEIRChiller], the capacities
      handed to the plant and the chilled-water-loop branch.

    Conventions of the embedding.

    - [Real64] values are exact rationals ([Q]); rounding, infinities and NaN
      are not modelled.  A division whose denominator is zero has no rational
      value: it stops the evaluation with [DivideByZero].
    - The C++ record [ReformulatedEIRChillerSpecs] is split in two: the fields
      written at configuration and initialisation time ([ChillerSpec]) and the
      fields written by the simulation routines ([ChillerState]).
    - Everything the module reads from the rest of the program (plant nodes,
      loop data, global flags and constants, curves, fluid properties, the
      flow resolver, the fault models, schedules, the root finder) is a field
      of the record [Env].
    - The error file is a list of [Diag] events; each routine returns the
      events it emitted, oldest first.  The [int] counters are integers
      ([Z]) in the range of a 32-bit [int]; [++] on a counter is
      [int_succ], which wraps from [INT_MAX] to [INT_MIN]. *)

From Stdlib Require Import QArith Qabs Lqa ZArith Lia Bool List.
Import ListNotations.

Open Scope Q_scope.

(** ** Real64 comparisons and the ObjexxFCL numeric helpers *)

Module Real64.

Definition ltb (a b : Q) : bool := negb (Qle_bool b a).
Definition gtb (a b : Q) : bool := ltb b a.
Definition leb (a b : Q) : bool := Qle_bool a b.
Definition geb (a b : Q) : bool := Qle_bool b a.
Definition eqb (a b : Q) : bool := Qeq_bool a b.
Definition neb (a b : Q) : bool := negb (Qeq_bool a b).

(** ObjexxFCL [max(a, b)] is [a < b ? b : a]; [min(a, b)] is [b < a ? b : a]. *)
Definition max (a b : Q) : Q := if ltb a b then b else a.
Definition min (a b : Q) : Q := if ltb b a then b else a.

(** The three-argument overloads used for the bracketing interval. *)
Definition max3 (a b c : Q) : Q :=
  if ltb a b then (if ltb b c then c else b) else (if ltb a c then c else a).
Definition min3 (a b c : Q) : Q :=
  if ltb b a then (if ltb c b then c else b) else (if ltb c a then c else a).

(** ObjexxFCL [sign(x, y)]: the magnitude of [x] with the sign of [y]. *)
Definition sign (x y : Q) : Q := if geb y 0 then Qabs x else - Qabs x.

End Real64.

(** ** [int] counters

    An [int] is a 32-bit integer in two's complement, held as a [Z];
    [int_wrap] brings an integer back into the range of an [int], and
    [int_succ n] is [++n]: [n + 1] below [INT_MAX], [INT_MIN] at
    [INT_MAX]. *)

Definition INT_MAX : Z := 2147483647%Z.
Definition INT_MIN : Z := (-2147483648)%Z.

Definition int_wrap (n : Z) : Z :=
  ((n + 2147483648) mod 4294967296 - 2147483648)%Z.

Definition int_succ (n : Z) : Z := int_wrap (n + 1).

(** ** Results of a routine: a value, or a division by zero *)

Inductive Res (A : Type) : Type :=
  | Ok (a : A)
  | DivideByZero.

Arguments Ok {A} a.
Arguments DivideByZero {A}.

Definition bind {A B : Type} (r : Res A) (k : A -> Res B) : Res B :=
  match r with
  | Ok a => k a
  | DivideByZero => DivideByZero
  end.

Notation "x <- r ;; k" := (bind r (fun x => k))
  (at level 61, r at next level, right associativity).

Notation "' pat <- r ;; k" := (bind r (fun x => match x with pat => k end))
  (at level 61, pat pattern, r at next level, right associativity).

(** [a / b] on [Real64]. *)
Definition div (a b : Q) : Res Q :=
  if Real64.eqb b 0 then DivideByZero else Ok (a / b).

(** ** Module constants (lines 117-130) *)

Definition AirCooled : Z := 1%Z.
Definition WaterCooled : Z := 2%Z.
Definition EvapCooled : Z := 3%Z.

Definition FlowModeNotSet : Z := 200%Z.
Definition ConstantFlow : Z := 201%Z.
Definition NotModulated : Z := 202%Z.
Definition LeavingSetPointModulated : Z := 203%Z.

Definition PLR_LeavingCondenserWaterTemperature : Z := 1%Z.
Definition PLR_Lift : Z := 2%Z.

(** ** Data model *)

(** The fields of a [DataLoopNode::Node] entry that the module reads. *)
Record NodeData : Type := mkNode {
  Temp : Q;
  TempMin : Q;
  TempSetPoint : Q;
  TempSetPointHi : Q;
  MassFlowRate : Q;
  MassFlowRateMaxAvail : Q
}.

(** [DataPlant::PlantLoop(...).LoopDemandCalcScheme]; any other value runs
    into [assert(false)]. *)
Inductive DemandScheme : Type :=
  | SingleSetPoint
  | DualSetPointDeadBand.

(** The plant loops a chiller is connected to: chilled water, condenser
    water and heat recovery. *)
Inductive Loop : Type :=
  | CWLoop
  | CDLoop
  | HRLoop.

(** The configuration part of [ReformulatedEIRChillerSpecs]. *)
Record ChillerSpec : Type := mkSpec {
  CondenserType : Z;
  PartLoadCurveType : Z;
  FlowMode : Z;
  RefCap : Q;
  RefCOP : Q;
  TempRefEvapOut : Q;
  TempRefCondOut : Q;
  MinPartLoadRat : Q;
  MaxPartLoadRat : Q;
  MinUnloadRat : Q;
  CompPowerToCondenserFrac : Q;
  TempLowLimitEvapOut : Q;
  EvapMassFlowRateMax : Q;
  CondMassFlowRateMax : Q;
  ChillerCapFTIndex : Z;
  ChillerEIRFTIndex : Z;
  ChillerEIRFPLRIndex : Z;
  ChillerCAPFTXTempMin : Q;
  ChillerCAPFTXTempMax : Q;
  ChillerCAPFTYTempMin : Q;
  ChillerCAPFTYTempMax : Q;
  ChillerEIRFTXTempMin : Q;
  ChillerEIRFTXTempMax : Q;
  ChillerEIRFTYTempMin : Q;
  ChillerEIRFTYTempMax : Q;
  ChillerEIRFPLRTempMin : Q;
  ChillerEIRFPLRTempMax : Q;
  ChillerEIRFPLRPLRMin : Q;
  ChillerEIRFPLRPLRMax : Q;
  HeatRecActive : bool;
  HeatRecCapacityFraction : Q;
  HeatRecMaxCapacityLimit : Q;
  HeatRecSetPointNodeNum : Z;
  HeatRecInletLimitSchedNum : Z;
  FaultyChillerFoulingFlag : bool;
  FaultyChillerFoulingIndex : Z;
  FaultyChillerSWTFlag : bool;
  FaultyChillerSWTIndex : Z
}.

(** The diagnostics of the module.  A [Check] stands for the text of a
    message and, for a recurring message, for the index field that keys it
    ([CAPFTXIterIndex], [IterLimitErrIndex], ...). *)
Inductive Check : Type :=
  | CkCAPFTX            (* evaporator outlet temp vs CAPFT X range *)
  | CkEIRFTX            (* evaporator outlet temp vs EIRFT X range *)
  | CkCAPFTY            (* condenser outlet temp vs CAPFT Y range *)
  | CkEIRFTY            (* condenser outlet temp vs EIRFT Y range *)
  | CkEIRFPLRT          (* condenser outlet temp vs EIRFPLR range *)
  | CkEIRFPLRPLR        (* part-load ratio vs EIRFPLR range *)
  | CkCapFTNegative     (* CAPFT curve output is negative *)
  | CkEIRFTNegative     (* EIRFT curve output is negative *)
  | CkEIRFPLRNegative   (* EIRFPLR curve output is negative *)
  | CkDeltaT            (* evaporator DeltaTemp = 0 in mass flow calculation *)
  | CkIterLimit         (* iteration limit exceeded *)
  | CkIterFailed        (* no solution found by the root finder *)
  | CkCondFlowZero.     (* condenser flow = 0 *)

(** One call of the error-file interface; the numbers are the values the
    message prints or records. *)
Inductive Diag : Type :=
  | ShowWarningError (c : Check) (vals : list Q)
  | ShowContinueError (c : Check) (vals : list Q)
  | ShowContinueErrorTimeStamp (c : Check) (vals : list Q)
  | ShowSevereError (c : Check)
  | ShowFatalError (c : Check)
  | ShowRecurringWarningErrorAtEnd (c : Check) (lo hi : Q).

Definition is_fatal (d : Diag) : bool :=
  match d with
  | ShowFatalError _ => true
  | _ => false
  end.

(** No [ShowFatalError] among the diagnostics: the run goes on. *)
Definition no_fatal (ds : list Diag) : bool :=
  forallb (fun d => negb (is_fatal d)) ds.

(** What the module uses of the rest of the program. *)
Record Env : Type := mkEnv {
  (* DataLoopNode::Node, at the node numbers of the chiller *)
  EvapInletNode : NodeData;
  EvapOutletNode : NodeData;
  CondInletNode : NodeData;
  HeatRecInletNode : NodeData;
  HeatRecSetPointNode : NodeData;
  LoopTempSetPointNode : NodeData;   (* PlantLoop(CWLoopNum).TempSetPointNodeNum *)
  SensedNodeFlagValue : Q;
  (* DataPlant *)
  LoopDemandCalcScheme : Loop -> DemandScheme;
  FlowLock : Z;                      (* of the chilled-water loop side *)
  CurOpSchemeType : Z;               (* of the chilled-water component *)
  CompSetPtBasedSchemeType : Z;
  CondCompFlowCtrl : Z;              (* FlowCtrl of the condenser component *)
  DeltaTempTol : Q;
  (* DataBranchAirLoopPlant *)
  ControlType_SeriesActive : Z;
  MassFlowTolerance : Q;
  (* DataHVACGlobals, DataGlobals *)
  SmallLoad : Q;
  WarmupFlag : bool;
  DoingSizing : bool;
  KickOffSimulation : bool;
  (* CurveManager::CurveValue with two and with three independent variables *)
  CurveValue : Z -> Q -> Q -> Q;
  CurveValue3 : Z -> Q -> Q -> Q -> Q;
  (* FluidProperties::GetSpecificHeatGlycol of a loop's fluid at a temperature *)
  GetSpecificHeatGlycol : Loop -> Q -> Q;
  (* PlantUtilities::SetComponentFlowRate: the flow granted for a request *)
  SetComponentFlowRate : Loop -> Q -> Q;
  (* FaultsManager *)
  CalFoulingFactor : Z -> Q;
  CalFaultOffsetAct : Z -> Q;
  CalFaultChillerSWT : Z -> bool -> Q -> Q -> Q -> Q -> Q -> Q -> Q * Q * Q;
  (* ScheduleManager *)
  GetCurrentScheduleValue : Z -> Q;
  (* General::SolveRoot Acc MaxIter f X_0 X_1 on a program state [S]:
     the flag, the root and the state the calls of [f] left behind *)
  SolveRoot : forall S : Type,
      Q -> Z -> (Q -> S -> Res (Q * S)) -> Q -> Q -> S -> Res (Z * Q * S)
}.

(** The simulation part of [ReformulatedEIRChillerSpecs]: the fields the
    routines below write. *)
Record ChillerState : Type := mkState {
  ChillerPartLoadRatio : Q;        (* reporting: chiller PLR (Load/Capacity) *)
  ChillerCyclingRatio : Q;         (* reporting: chiller cycling ratio (time on/time step) *)
  ChillerFalseLoadRate : Q;        (* reporting: chiller false load over and above water side load [W] *)
  EvapMassFlowRate : Q;            (* evaporator mass flow rate [kg/s] *)
  CondMassFlowRate : Q;            (* condenser mass flow rate [kg/s] *)
  Power : Q;                       (* chiller power [W] *)
  QCondenser : Q;                  (* condenser heat transfer rate [W] *)
  QEvaporator : Q;                 (* evaporator heat transfer rate [W] *)
  QHeatRecovery : Q;               (* heat recovered from the condenser [W] *)
  ChillerCapFT : Q;                (* capacity as a function of temperature curve output *)
  ChillerEIRFT : Q;                (* EIR as a function of temperature curve output *)
  ChillerEIRFPLR : Q;              (* EIR as a function of part-load ratio curve output *)
  EvapOutletTemp : Q;              (* evaporator outlet temperature [C] *)
  CondOutletTemp : Q;              (* condenser outlet temperature [C] *)
  HeatRecOutletTemp : Q;           (* heat recovery outlet temperature [C] *)
  ChillerCondAvgTemp : Q;          (* effective condenser temperature for curve lookup [C] *)
  PossibleSubcooling : bool;       (* flag: evaporator outlet may fall below the setpoint *)
  FaultyChillerFoulingFactor : Q;  (* fouling fault: factor of the current call *)
  FaultyChillerSWTOffset : Q;      (* sensor fault: supply water temperature offset *)
  DeltaTErrCount : Z;              (* counter: evaporator delta T = 0 warnings *)
  ChillerCapFTError : Z;           (* counter: negative CAPFT curve output *)
  ChillerEIRFTError : Z;           (* counter: negative EIRFT curve output *)
  ChillerEIRFPLRError : Z;         (* counter: negative EIRFPLR curve output *)
  IterLimitExceededNum : Z;        (* counter: root finder iteration limit exceeded *)
  IterFailed : Z;                  (* counter: root finder found no bracketed root *)
  CAPFTXIter : Z;                  (* counter: evaporator outlet temp outside CAPFT X range *)
  EIRFTXIter : Z;                  (* counter: evaporator outlet temp outside EIRFT X range *)
  CAPFTYIter : Z;                  (* counter: condenser outlet temp outside CAPFT Y range *)
  EIRFTYIter : Z;                  (* counter: condenser outlet temp outside EIRFT Y range *)
  EIRFPLRTIter : Z;                (* counter: condenser outlet temp outside EIRFPLR range *)
  EIRFPLRPLRIter : Z               (* counter: part-load ratio outside EIRFPLR range *)
}.

(** Assignment to one field of the chiller record. *)
Definition set_ChillerPartLoadRatio (v : Q) (s : ChillerState) : ChillerState :=
  mkState v (ChillerCyclingRatio s) (ChillerFalseLoadRate s) (EvapMassFlowRate s)
    (CondMassFlowRate s) (Power s) (QCondenser s) (QEvaporator s) (QHeatRecovery s)
    (ChillerCapFT s) (ChillerEIRFT s) (ChillerEIRFPLR s) (EvapOutletTemp s)
    (CondOutletTemp s) (HeatRecOutletTemp s) (ChillerCondAvgTemp s) (PossibleSubcooling s)
    (FaultyChillerFoulingFactor s) (FaultyChillerSWTOffset s) (DeltaTErrCount s)
    (ChillerCapFTError s) (ChillerEIRFTError s) (ChillerEIRFPLRError s)
    (IterLimitExceededNum s) (IterFailed s) (CAPFTXIter s) (EIRFTXIter s) (CAPFTYIter s)
    (EIRFTYIter s) (EIRFPLRTIter s) (EIRFPLRPLRIter s).

Definition set_ChillerCyclingRatio (v : Q) (s : ChillerState) : ChillerState :=
  mkState (ChillerPartLoadRatio s) v (ChillerFalseLoadRate s) (EvapMassFlowRate s)
    (CondMassFlowRate s) (Power s) (QCondenser s) (QEvaporator s) (QHeatRecovery s)
    (ChillerCapFT s) (ChillerEIRFT s) (ChillerEIRFPLR s) (EvapOutletTemp s)
    (CondOutletTemp s) (HeatRecOutletTemp s) (ChillerCondAvgTemp s) (PossibleSubcooling s)
    (FaultyChillerFoulingFactor s) (FaultyChillerSWTOffset s) (DeltaTErrCount s)
    (ChillerCapFTError s) (ChillerEIRFTError s) (ChillerEIRFPLRError s)
    (IterLimitExceededNum s) (IterFailed s) (CAPFTXIter s) (EIRFTXIter s) (CAPFTYIter s)
    (EIRFTYIter s) (EIRFPLRTIter s) (EIRFPLRPLRIter s).

Definition set_ChillerFalseLoadRate (v : Q) (s : ChillerState) : ChillerState :=
  mkState (ChillerPartLoadRatio s) (ChillerCyclingRatio s) v (EvapMassFlowRate s)
    (CondMassFlowRate s) (Power s) (QCondenser s) (QEvaporator s) (QHeatRecovery s)
    (ChillerCapFT s) (ChillerEIRFT s) (ChillerEIRFPLR s) (EvapOutletTemp s)
    (CondOutletTemp s) (HeatRecOutletTemp s) (ChillerCondAvgTemp s) (PossibleSubcooling s)
    (FaultyChillerFoulingFactor s) (FaultyChillerSWTOffset s) (DeltaTErrCount s)
    (ChillerCapFTError s) (ChillerEIRFTError s) (ChillerEIRFPLRError s)
    (IterLimitExceededNum s) (IterFailed s) (CAPFTXIter s) (EIRFTXIter s) (CAPFTYIter s)
    (EIRFTYIter s) (EIRFPLRTIter s) (EIRFPLRPLRIter s).

Definition set_EvapMassFlowRate (v : Q) (s : ChillerState) : ChillerState :=
  mkState (ChillerPartLoadRatio s) (ChillerCyclingRatio s) (ChillerFalseLoadRate s) v
    (CondMassFlowRate s) (Power s) (QCondenser s) (QEvaporator s) (QHeatRecovery s)
    (ChillerCapFT s) (ChillerEIRFT s) (ChillerEIRFPLR s) (EvapOutletTemp s)
    (CondOutletTemp s) (HeatRecOutletTemp s) (ChillerCondAvgTemp s) (PossibleSubcooling s)
    (FaultyChillerFoulingFactor s) (FaultyChillerSWTOffset s) (DeltaTErrCount s)
    (ChillerCapFTError s) (ChillerEIRFTError s) (ChillerEIRFPLRError s)
    (IterLimitExceededNum s) (IterFailed s) (CAPFTXIter s) (EIRFTXIter s) (CAPFTYIter s)
    (EIRFTYIter s) (EIRFPLRTIter s) (EIRFPLRPLRIter s).

Definition set_CondMassFlowRate (v : Q) (s : ChillerState) : ChillerState :=
  mkState (ChillerPartLoadRatio s) (ChillerCyclingRatio s) (ChillerFalseLoadRate s)
    (EvapMassFlowRate s) v (Power s) (QCondenser s) (QEvaporator s) (QHeatRecovery s)
    (ChillerCapFT s) (ChillerEIRFT s) (ChillerEIRFPLR s) (EvapOutletTemp s)
    (CondOutletTemp s) (HeatRecOutletTemp s) (ChillerCondAvgTemp s) (PossibleSubcooling s)
    (FaultyChillerFoulingFactor s) (FaultyChillerSWTOffset s) (DeltaTErrCount s)
    (ChillerCapFTError s) (ChillerEIRFTError s) (ChillerEIRFPLRError s)
    (IterLimitExceededNum s) (IterFailed s) (CAPFTXIter s) (EIRFTXIter s) (CAPFTYIter s)
    (EIRFTYIter s) (EIRFPLRTIter s) (EIRFPLRPLRIter s).

Definition set_Power (v : Q) (s : ChillerState) : ChillerState :=
  mkState (ChillerPartLoadRatio s) (ChillerCyclingRatio s) (ChillerFalseLoadRate s)
    (EvapMassFlowRate s) (CondMassFlowRate s) v (QCondenser s) (QEvaporator s)
    (QHeatRecovery s) (ChillerCapFT s) (ChillerEIRFT s) (ChillerEIRFPLR s)
    (EvapOutletTemp s) (CondOutletTemp s) (HeatRecOutletTemp s) (ChillerCondAvgTemp s)
    (PossibleSubcooling s) (FaultyChillerFoulingFactor s) (FaultyChillerSWTOffset s)
    (DeltaTErrCount s) (ChillerCapFTError s) (ChillerEIRFTError s) (ChillerEIRFPLRError s)
    (IterLimitExceededNum s) (IterFailed s) (CAPFTXIter s) (EIRFTXIter s) (CAPFTYIter s)
    (EIRFTYIter s) (EIRFPLRTIter s) (EIRFPLRPLRIter s).

Definition set_QCondenser (v : Q) (s : ChillerState) : ChillerState :=
  mkState (ChillerPartLoadRatio s) (ChillerCyclingRatio s) (ChillerFalseLoadRate s)
    (EvapMassFlowRate s) (CondMassFlowRate s) (Power s) v (QEvaporator s) (QHeatRecovery s)
    (ChillerCapFT s) (ChillerEIRFT s) (ChillerEIRFPLR s) (EvapOutletTemp s)
    (CondOutletTemp s) (HeatRecOutletTemp s) (ChillerCondAvgTemp s) (PossibleSubcooling s)
    (FaultyChillerFoulingFactor s) (FaultyChillerSWTOffset s) (DeltaTErrCount s)
    (ChillerCapFTError s) (ChillerEIRFTError s) (ChillerEIRFPLRError s)
    (IterLimitExceededNum s) (IterFailed s) (CAPFTXIter s) (EIRFTXIter s) (CAPFTYIter s)
    (EIRFTYIter s) (EIRFPLRTIter s) (EIRFPLRPLRIter s).

Definition set_QEvaporator (v : Q) (s : ChillerState) : ChillerState :=
  mkState (ChillerPartLoadRatio s) (ChillerCyclingRatio s) (ChillerFalseLoadRate s)
    (EvapMassFlowRate s) (CondMassFlowRate s) (Power s) (QCondenser s) v (QHeatRecovery s)
    (ChillerCapFT s) (ChillerEIRFT s) (ChillerEIRFPLR s) (EvapOutletTemp s)
    (CondOutletTemp s) (HeatRecOutletTemp s) (ChillerCondAvgTemp s) (PossibleSubcooling s)
    (FaultyChillerFoulingFactor s) (FaultyChillerSWTOffset s) (DeltaTErrCount s)
    (ChillerCapFTError s) (ChillerEIRFTError s) (ChillerEIRFPLRError s)
    (IterLimitExceededNum s) (IterFailed s) (CAPFTXIter s) (EIRFTXIter s) (CAPFTYIter s)
    (EIRFTYIter s) (EIRFPLRTIter s) (EIRFPLRPLRIter s).

Definition set_QHeatRecovery (v : Q) (s : ChillerState) : ChillerState :=
  mkState (ChillerPartLoadRatio s) (ChillerCyclingRatio s) (ChillerFalseLoadRate s)
    (EvapMassFlowRate s) (CondMassFlowRate s) (Power s) (QCondenser s) (QEvaporator s) v
    (ChillerCapFT s) (ChillerEIRFT s) (ChillerEIRFPLR s) (EvapOutletTemp s)
    (CondOutletTemp s) (HeatRecOutletTemp s) (ChillerCondAvgTemp s) (PossibleSubcooling s)
    (FaultyChillerFoulingFactor s) (FaultyChillerSWTOffset s) (DeltaTErrCount s)
    (ChillerCapFTError s) (ChillerEIRFTError s) (ChillerEIRFPLRError s)
    (IterLimitExceededNum s) (IterFailed s) (CAPFTXIter s) (EIRFTXIter s) (CAPFTYIter s)
    (EIRFTYIter s) (EIRFPLRTIter s) (EIRFPLRPLRIter s).

Definition set_ChillerCapFT (v : Q) (s : ChillerState) : ChillerState :=
  mkState (ChillerPartLoadRatio s) (ChillerCyclingRatio s) (ChillerFalseLoadRate s)
    (EvapMassFlowRate s) (CondMassFlowRate s) (Power s) (QCondenser s) (QEvaporator s)
    (QHeatRecovery s) v (ChillerEIRFT s) (ChillerEIRFPLR s) (EvapOutletTemp s)
    (CondOutletTemp s) (HeatRecOutletTemp s) (ChillerCondAvgTemp s) (PossibleSubcooling s)
    (FaultyChillerFoulingFactor s) (FaultyChillerSWTOffset s) (DeltaTErrCount s)
    (ChillerCapFTError s) (ChillerEIRFTError s) (ChillerEIRFPLRError s)
    (IterLimitExceededNum s) (IterFailed s) (CAPFTXIter s) (EIRFTXIter s) (CAPFTYIter s)
    (EIRFTYIter s) (EIRFPLRTIter s) (EIRFPLRPLRIter s).

Definition set_ChillerEIRFT (v : Q) (s : ChillerState) : ChillerState :=
  mkState (ChillerPartLoadRatio s) (ChillerCyclingRatio s) (ChillerFalseLoadRate s)
    (EvapMassFlowRate s) (CondMassFlowRate s) (Power s) (QCondenser s) (QEvaporator s)
    (QHeatRecovery s) (ChillerCapFT s) v (ChillerEIRFPLR s) (EvapOutletTemp s)
    (CondOutletTemp s) (HeatRecOutletTemp s) (ChillerCondAvgTemp s) (PossibleSubcooling s)
    (FaultyChillerFoulingFactor s) (FaultyChillerSWTOffset s) (DeltaTErrCount s)
    (ChillerCapFTError s) (ChillerEIRFTError s) (ChillerEIRFPLRError s)
    (IterLimitExceededNum s) (IterFailed s) (CAPFTXIter s) (EIRFTXIter s) (CAPFTYIter s)
    (EIRFTYIter s) (EIRFPLRTIter s) (EIRFPLRPLRIter s).

Definition set_ChillerEIRFPLR (v : Q) (s : ChillerState) : ChillerState :=
  mkState (ChillerPartLoadRatio s) (ChillerCyclingRatio s) (ChillerFalseLoadRate s)
    (EvapMassFlowRate s) (CondMassFlowRate s) (Power s) (QCondenser s) (QEvaporator s)
    (QHeatRecovery s) (ChillerCapFT s) (ChillerEIRFT s) v (EvapOutletTemp s)
    (CondOutletTemp s) (HeatRecOutletTemp s) (ChillerCondAvgTemp s) (PossibleSubcooling s)
    (FaultyChillerFoulingFactor s) (FaultyChillerSWTOffset s) (DeltaTErrCount s)
    (ChillerCapFTError s) (ChillerEIRFTError s) (ChillerEIRFPLRError s)
    (IterLimitExceededNum s) (IterFailed s) (CAPFTXIter s) (EIRFTXIter s) (CAPFTYIter s)
    (EIRFTYIter s) (EIRFPLRTIter s) (EIRFPLRPLRIter s).

Definition set_EvapOutletTemp (v : Q) (s : ChillerState) : ChillerState :=
  mkState (ChillerPartLoadRatio s) (ChillerCyclingRatio s) (ChillerFalseLoadRate s)
    (EvapMassFlowRate s) (CondMassFlowRate s) (Power s) (QCondenser s) (QEvaporator s)
    (QHeatRecovery s) (ChillerCapFT s) (ChillerEIRFT s) (ChillerEIRFPLR s) v
    (CondOutletTemp s) (HeatRecOutletTemp s) (ChillerCondAvgTemp s) (PossibleSubcooling s)
    (FaultyChillerFoulingFactor s) (FaultyChillerSWTOffset s) (DeltaTErrCount s)
    (ChillerCapFTError s) (ChillerEIRFTError s) (ChillerEIRFPLRError s)
    (IterLimitExceededNum s) (IterFailed s) (CAPFTXIter s) (EIRFTXIter s) (CAPFTYIter s)
    (EIRFTYIter s) (EIRFPLRTIter s) (EIRFPLRPLRIter s).

Definition set_CondOutletTemp (v : Q) (s : ChillerState) : ChillerState :=
  mkState (ChillerPartLoadRatio s) (ChillerCyclingRatio s) (ChillerFalseLoadRate s)
    (EvapMassFlowRate s) (CondMassFlowRate s) (Power s) (QCondenser s) (QEvaporator s)
    (QHeatRecovery s) (ChillerCapFT s) (ChillerEIRFT s) (ChillerEIRFPLR s)
    (EvapOutletTemp s) v (HeatRecOutletTemp s) (ChillerCondAvgTemp s)
    (PossibleSubcooling s) (FaultyChillerFoulingFactor s) (FaultyChillerSWTOffset s)
    (DeltaTErrCount s) (ChillerCapFTError s) (ChillerEIRFTError s) (ChillerEIRFPLRError s)
    (IterLimitExceededNum s) (IterFailed s) (CAPFTXIter s) (EIRFTXIter s) (CAPFTYIter s)
    (EIRFTYIter s) (EIRFPLRTIter s) (EIRFPLRPLRIter s).

Definition set_HeatRecOutletTemp (v : Q) (s : ChillerState) : ChillerState :=
  mkState (ChillerPartLoadRatio s) (ChillerCyclingRatio s) (ChillerFalseLoadRate s)
    (EvapMassFlowRate s) (CondMassFlowRate s) (Power s) (QCondenser s) (QEvaporator s)
    (QHeatRecovery s) (ChillerCapFT s) (ChillerEIRFT s) (ChillerEIRFPLR s)
    (EvapOutletTemp s) (CondOutletTemp s) v (ChillerCondAvgTemp s) (PossibleSubcooling s)
    (FaultyChillerFoulingFactor s) (FaultyChillerSWTOffset s) (DeltaTErrCount s)
    (ChillerCapFTError s) (ChillerEIRFTError s) (ChillerEIRFPLRError s)
    (IterLimitExceededNum s) (IterFailed s) (CAPFTXIter s) (EIRFTXIter s) (CAPFTYIter s)
    (EIRFTYIter s) (EIRFPLRTIter s) (EIRFPLRPLRIter s).

Definition set_ChillerCondAvgTemp (v : Q) (s : ChillerState) : ChillerState :=
  mkState (ChillerPartLoadRatio s) (ChillerCyclingRatio s) (ChillerFalseLoadRate s)
    (EvapMassFlowRate s) (CondMassFlowRate s) (Power s) (QCondenser s) (QEvaporator s)
    (QHeatRecovery s) (ChillerCapFT s) (ChillerEIRFT s) (ChillerEIRFPLR s)
    (EvapOutletTemp s) (CondOutletTemp s) (HeatRecOutletTemp s) v (PossibleSubcooling s)
    (FaultyChillerFoulingFactor s) (FaultyChillerSWTOffset s) (DeltaTErrCount s)
    (ChillerCapFTError s) (ChillerEIRFTError s) (ChillerEIRFPLRError s)
    (IterLimitExceededNum s) (IterFailed s) (CAPFTXIter s) (EIRFTXIter s) (CAPFTYIter s)
    (EIRFTYIter s) (EIRFPLRTIter s) (EIRFPLRPLRIter s).

Definition set_PossibleSubcooling (v : bool) (s : ChillerState) : ChillerState :=
  mkState (ChillerPartLoadRatio s) (ChillerCyclingRatio s) (ChillerFalseLoadRate s)
    (EvapMassFlowRate s) (CondMassFlowRate s) (Power s) (QCondenser s) (QEvaporator s)
    (QHeatRecovery s) (ChillerCapFT s) (ChillerEIRFT s) (ChillerEIRFPLR s)
    (EvapOutletTemp s) (CondOutletTemp s) (HeatRecOutletTemp s) (ChillerCondAvgTemp s) v
    (FaultyChillerFoulingFactor s) (FaultyChillerSWTOffset s) (DeltaTErrCount s)
    (ChillerCapFTError s) (ChillerEIRFTError s) (ChillerEIRFPLRError s)
    (IterLimitExceededNum s) (IterFailed s) (CAPFTXIter s) (EIRFTXIter s) (CAPFTYIter s)
    (EIRFTYIter s) (EIRFPLRTIter s) (EIRFPLRPLRIter s).

Definition set_FaultyChillerFoulingFactor (v : Q) (s : ChillerState) : ChillerState :=
  mkState (ChillerPartLoadRatio s) (ChillerCyclingRatio s) (ChillerFalseLoadRate s)
    (EvapMassFlowRate s) (CondMassFlowRate s) (Power s) (QCondenser s) (QEvaporator s)
    (QHeatRecovery s) (ChillerCapFT s) (ChillerEIRFT s) (ChillerEIRFPLR s)
    (EvapOutletTemp s) (CondOutletTemp s) (HeatRecOutletTemp s) (ChillerCondAvgTemp s)
    (PossibleSubcooling s) v (FaultyChillerSWTOffset s) (DeltaTErrCount s)
    (ChillerCapFTError s) (ChillerEIRFTError s) (ChillerEIRFPLRError s)
    (IterLimitExceededNum s) (IterFailed s) (CAPFTXIter s) (EIRFTXIter s) (CAPFTYIter s)
    (EIRFTYIter s) (EIRFPLRTIter s) (EIRFPLRPLRIter s).

Definition set_FaultyChillerSWTOffset (v : Q) (s : ChillerState) : ChillerState :=
  mkState (ChillerPartLoadRatio s) (ChillerCyclingRatio s) (ChillerFalseLoadRate s)
    (EvapMassFlowRate s) (CondMassFlowRate s) (Power s) (QCondenser s) (QEvaporator s)
    (QHeatRecovery s) (ChillerCapFT s) (ChillerEIRFT s) (ChillerEIRFPLR s)
    (EvapOutletTemp s) (CondOutletTemp s) (HeatRecOutletTemp s) (ChillerCondAvgTemp s)
    (PossibleSubcooling s) (FaultyChillerFoulingFactor s) v (DeltaTErrCount s)
    (ChillerCapFTError s) (ChillerEIRFTError s) (ChillerEIRFPLRError s)
    (IterLimitExceededNum s) (IterFailed s) (CAPFTXIter s) (EIRFTXIter s) (CAPFTYIter s)
    (EIRFTYIter s) (EIRFPLRTIter s) (EIRFPLRPLRIter s).

Definition set_DeltaTErrCount (v : Z) (s : ChillerState) : ChillerState :=
  mkState (ChillerPartLoadRatio s) (ChillerCyclingRatio s) (ChillerFalseLoadRate s)
    (EvapMassFlowRate s) (CondMassFlowRate s) (Power s) (QCondenser s) (QEvaporator s)
    (QHeatRecovery s) (ChillerCapFT s) (ChillerEIRFT s) (ChillerEIRFPLR s)
    (EvapOutletTemp s) (CondOutletTemp s) (HeatRecOutletTemp s) (ChillerCondAvgTemp s)
    (PossibleSubcooling s) (FaultyChillerFoulingFactor s) (FaultyChillerSWTOffset s) v
    (ChillerCapFTError s) (ChillerEIRFTError s) (ChillerEIRFPLRError s)
    (IterLimitExceededNum s) (IterFailed s) (CAPFTXIter s) (EIRFTXIter s) (CAPFTYIter s)
    (EIRFTYIter s) (EIRFPLRTIter s) (EIRFPLRPLRIter s).

Definition set_ChillerCapFTError (v : Z) (s : ChillerState) : ChillerState :=
  mkState (ChillerPartLoadRatio s) (ChillerCyclingRatio s) (ChillerFalseLoadRate s)
    (EvapMassFlowRate s) (CondMassFlowRate s) (Power s) (QCondenser s) (QEvaporator s)
    (QHeatRecovery s) (ChillerCapFT s) (ChillerEIRFT s) (ChillerEIRFPLR s)
    (EvapOutletTemp s) (CondOutletTemp s) (HeatRecOutletTemp s) (ChillerCondAvgTemp s)
    (PossibleSubcooling s) (FaultyChillerFoulingFactor s) (FaultyChillerSWTOffset s)
    (DeltaTErrCount s) v (ChillerEIRFTError s) (ChillerEIRFPLRError s)
    (IterLimitExceededNum s) (IterFailed s) (CAPFTXIter s) (EIRFTXIter s) (CAPFTYIter s)
    (EIRFTYIter s) (EIRFPLRTIter s) (EIRFPLRPLRIter s).

Definition set_ChillerEIRFTError (v : Z) (s : ChillerState) : ChillerState :=
  mkState (ChillerPartLoadRatio s) (ChillerCyclingRatio s) (ChillerFalseLoadRate s)
    (EvapMassFlowRate s) (CondMassFlowRate s) (Power s) (QCondenser s) (QEvaporator s)
    (QHeatRecovery s) (ChillerCapFT s) (ChillerEIRFT s) (ChillerEIRFPLR s)
    (EvapOutletTemp s) (CondOutletTemp s) (HeatRecOutletTemp s) (ChillerCondAvgTemp s)
    (PossibleSubcooling s) (FaultyChillerFoulingFactor s) (FaultyChillerSWTOffset s)
    (DeltaTErrCount s) (ChillerCapFTError s) v (ChillerEIRFPLRError s)
    (IterLimitExceededNum s) (IterFailed s) (CAPFTXIter s) (EIRFTXIter s) (CAPFTYIter s)
    (EIRFTYIter s) (EIRFPLRTIter s) (EIRFPLRPLRIter s).

Definition set_ChillerEIRFPLRError (v : Z) (s : ChillerState) : ChillerState :=
  mkState (ChillerPartLoadRatio s) (ChillerCyclingRatio s) (ChillerFalseLoadRate s)
    (EvapMassFlowRate s) (CondMassFlowRate s) (Power s) (QCondenser s) (QEvaporator s)
    (QHeatRecovery s) (ChillerCapFT s) (ChillerEIRFT s) (ChillerEIRFPLR s)
    (EvapOutletTemp s) (CondOutletTemp s) (HeatRecOutletTemp s) (ChillerCondAvgTemp s)
    (PossibleSubcooling s) (FaultyChillerFoulingFactor s) (FaultyChillerSWTOffset s)
    (DeltaTErrCount s) (ChillerCapFTError s) (ChillerEIRFTError s) v
    (IterLimitExceededNum s) (IterFailed s) (CAPFTXIter s) (EIRFTXIter s) (CAPFTYIter s)
    (EIRFTYIter s) (EIRFPLRTIter s) (EIRFPLRPLRIter s).

Definition set_IterLimitExceededNum (v : Z) (s : ChillerState) : ChillerState :=
  mkState (ChillerPartLoadRatio s) (ChillerCyclingRatio s) (ChillerFalseLoadRate s)
    (EvapMassFlowRate s) (CondMassFlowRate s) (Power s) (QCondenser s) (QEvaporator s)
    (QHeatRecovery s) (ChillerCapFT s) (ChillerEIRFT s) (ChillerEIRFPLR s)
    (EvapOutletTemp s) (CondOutletTemp s) (HeatRecOutletTemp s) (ChillerCondAvgTemp s)
    (PossibleSubcooling s) (FaultyChillerFoulingFactor s) (FaultyChillerSWTOffset s)
    (DeltaTErrCount s) (ChillerCapFTError s) (ChillerEIRFTError s) (ChillerEIRFPLRError s)
    v (IterFailed s) (CAPFTXIter s) (EIRFTXIter s) (CAPFTYIter s) (EIRFTYIter s)
    (EIRFPLRTIter s) (EIRFPLRPLRIter s).

Definition set_IterFailed (v : Z) (s : ChillerState) : ChillerState :=
  mkState (ChillerPartLoadRatio s) (ChillerCyclingRatio s) (ChillerFalseLoadRate s)
    (EvapMassFlowRate s) (CondMassFlowRate s) (Power s) (QCondenser s) (QEvaporator s)
    (QHeatRecovery s) (ChillerCapFT s) (ChillerEIRFT s) (ChillerEIRFPLR s)
    (EvapOutletTemp s) (CondOutletTemp s) (HeatRecOutletTemp s) (ChillerCondAvgTemp s)
    (PossibleSubcooling s) (FaultyChillerFoulingFactor s) (FaultyChillerSWTOffset s)
    (DeltaTErrCount s) (ChillerCapFTError s) (ChillerEIRFTError s) (ChillerEIRFPLRError s)
    (IterLimitExceededNum s) v (CAPFTXIter s) (EIRFTXIter s) (CAPFTYIter s) (EIRFTYIter s)
    (EIRFPLRTIter s) (EIRFPLRPLRIter s).

Definition set_CAPFTXIter (v : Z) (s : ChillerState) : ChillerState :=
  mkState (ChillerPartLoadRatio s) (ChillerCyclingRatio s) (ChillerFalseLoadRate s)
    (EvapMassFlowRate s) (CondMassFlowRate s) (Power s) (QCondenser s) (QEvaporator s)
    (QHeatRecovery s) (ChillerCapFT s) (ChillerEIRFT s) (ChillerEIRFPLR s)
    (EvapOutletTemp s) (CondOutletTemp s) (HeatRecOutletTemp s) (ChillerCondAvgTemp s)
    (PossibleSubcooling s) (FaultyChillerFoulingFactor s) (FaultyChillerSWTOffset s)
    (DeltaTErrCount s) (ChillerCapFTError s) (ChillerEIRFTError s) (ChillerEIRFPLRError s)
    (IterLimitExceededNum s) (IterFailed s) v (EIRFTXIter s) (CAPFTYIter s) (EIRFTYIter s)
    (EIRFPLRTIter s) (EIRFPLRPLRIter s).

Definition set_EIRFTXIter (v : Z) (s : ChillerState) : ChillerState :=
  mkState (ChillerPartLoadRatio s) (ChillerCyclingRatio s) (ChillerFalseLoadRate s)
    (EvapMassFlowRate s) (CondMassFlowRate s) (Power s) (QCondenser s) (QEvaporator s)
    (QHeatRecovery s) (ChillerCapFT s) (ChillerEIRFT s) (ChillerEIRFPLR s)
    (EvapOutletTemp s) (CondOutletTemp s) (HeatRecOutletTemp s) (ChillerCondAvgTemp s)
    (PossibleSubcooling s) (FaultyChillerFoulingFactor s) (FaultyChillerSWTOffset s)
    (DeltaTErrCount s) (ChillerCapFTError s) (ChillerEIRFTError s) (ChillerEIRFPLRError s)
    (IterLimitExceededNum s) (IterFailed s) (CAPFTXIter s) v (CAPFTYIter s) (EIRFTYIter s)
    (EIRFPLRTIter s) (EIRFPLRPLRIter s).

Definition set_CAPFTYIter (v : Z) (s : ChillerState) : ChillerState :=
  mkState (ChillerPartLoadRatio s) (ChillerCyclingRatio s) (ChillerFalseLoadRate s)
    (EvapMassFlowRate s) (CondMassFlowRate s) (Power s) (QCondenser s) (QEvaporator s)
    (QHeatRecovery s) (ChillerCapFT s) (ChillerEIRFT s) (ChillerEIRFPLR s)
    (EvapOutletTemp s) (CondOutletTemp s) (HeatRecOutletTemp s) (ChillerCondAvgTemp s)
    (PossibleSubcooling s) (FaultyChillerFoulingFactor s) (FaultyChillerSWTOffset s)
    (DeltaTErrCount s) (ChillerCapFTError s) (ChillerEIRFTError s) (ChillerEIRFPLRError s)
    (IterLimitExceededNum s) (IterFailed s) (CAPFTXIter s) (EIRFTXIter s) v (EIRFTYIter s)
    (EIRFPLRTIter s) (EIRFPLRPLRIter s).

Definition set_EIRFTYIter (v : Z) (s : ChillerState) : ChillerState :=
  mkState (ChillerPartLoadRatio s) (ChillerCyclingRatio s) (ChillerFalseLoadRate s)
    (EvapMassFlowRate s) (CondMassFlowRate s) (Power s) (QCondenser s) (QEvaporator s)
    (QHeatRecovery s) (ChillerCapFT s) (ChillerEIRFT s) (ChillerEIRFPLR s)
    (EvapOutletTemp s) (CondOutletTemp s) (HeatRecOutletTemp s) (ChillerCondAvgTemp s)
    (PossibleSubcooling s) (FaultyChillerFoulingFactor s) (FaultyChillerSWTOffset s)
    (DeltaTErrCount s) (ChillerCapFTError s) (ChillerEIRFTError s) (ChillerEIRFPLRError s)
    (IterLimitExceededNum s) (IterFailed s) (CAPFTXIter s) (EIRFTXIter s) (CAPFTYIter s) v
    (EIRFPLRTIter s) (EIRFPLRPLRIter s).

Definition set_EIRFPLRTIter (v : Z) (s : ChillerState) : ChillerState :=
  mkState (ChillerPartLoadRatio s) (ChillerCyclingRatio s) (ChillerFalseLoadRate s)
    (EvapMassFlowRate s) (CondMassFlowRate s) (Power s) (QCondenser s) (QEvaporator s)
    (QHeatRecovery s) (ChillerCapFT s) (ChillerEIRFT s) (ChillerEIRFPLR s)
    (EvapOutletTemp s) (CondOutletTemp s) (HeatRecOutletTemp s) (ChillerCondAvgTemp s)
    (PossibleSubcooling s) (FaultyChillerFoulingFactor s) (FaultyChillerSWTOffset s)
    (DeltaTErrCount s) (ChillerCapFTError s) (ChillerEIRFTError s) (ChillerEIRFPLRError s)
    (IterLimitExceededNum s) (IterFailed s) (CAPFTXIter s) (EIRFTXIter s) (CAPFTYIter s)
    (EIRFTYIter s) v (EIRFPLRPLRIter s).

Definition set_EIRFPLRPLRIter (v : Z) (s : ChillerState) : ChillerState :=
  mkState (ChillerPartLoadRatio s) (ChillerCyclingRatio s) (ChillerFalseLoadRate s)
    (EvapMassFlowRate s) (CondMassFlowRate s) (Power s) (QCondenser s) (QEvaporator s)
    (QHeatRecovery s) (ChillerCapFT s) (ChillerEIRFT s) (ChillerEIRFPLR s)
    (EvapOutletTemp s) (CondOutletTemp s) (HeatRecOutletTemp s) (ChillerCondAvgTemp s)
    (PossibleSubcooling s) (FaultyChillerFoulingFactor s) (FaultyChillerSWTOffset s)
    (DeltaTErrCount s) (ChillerCapFTError s) (ChillerEIRFTError s) (ChillerEIRFPLRError s)
    (IterLimitExceededNum s) (IterFailed s) (CAPFTXIter s) (EIRFTXIter s) (CAPFTYIter s)
    (EIRFTYIter s) (EIRFPLRTIter s) v.

Definition set_HeatRecMaxCapacityLimit (v : Q) (sp : ChillerSpec) : ChillerSpec :=
  mkSpec (CondenserType sp) (PartLoadCurveType sp) (FlowMode sp) (RefCap sp) (RefCOP sp)
    (TempRefEvapOut sp) (TempRefCondOut sp) (MinPartLoadRat sp) (MaxPartLoadRat sp)
    (MinUnloadRat sp) (CompPowerToCondenserFrac sp) (TempLowLimitEvapOut sp)
    (EvapMassFlowRateMax sp) (CondMassFlowRateMax sp) (ChillerCapFTIndex sp)
    (ChillerEIRFTIndex sp) (ChillerEIRFPLRIndex sp) (ChillerCAPFTXTempMin sp)
    (ChillerCAPFTXTempMax sp) (ChillerCAPFTYTempMin sp) (ChillerCAPFTYTempMax sp)
    (ChillerEIRFTXTempMin sp) (ChillerEIRFTXTempMax sp) (ChillerEIRFTYTempMin sp)
    (ChillerEIRFTYTempMax sp) (ChillerEIRFPLRTempMin sp) (ChillerEIRFPLRTempMax sp)
    (ChillerEIRFPLRPLRMin sp) (ChillerEIRFPLRPLRMax sp) (HeatRecActive sp)
    (HeatRecCapacityFraction sp) v (HeatRecSetPointNodeNum sp)
    (HeatRecInletLimitSchedNum sp) (FaultyChillerFoulingFlag sp)
    (FaultyChillerFoulingIndex sp) (FaultyChillerSWTFlag sp) (FaultyChillerSWTIndex sp).

(** ** InitElecReformEIRChiller: the overall capacity limit (lines 984-987) *)

Definition InitHeatRecMaxCapacityLimit (sp : ChillerSpec) : Res ChillerSpec :=
  q <- div (RefCap sp) (RefCOP sp) ;;
  Ok (set_HeatRecMaxCapacityLimit (HeatRecCapacityFraction sp * (RefCap sp + q)) sp).

(** ** ReformEIRChillerHeatRecovery (lines 1732-1812)

    [QCond] is read and written through a reference, [QHeatRec] is only
    written: the result carries the chiller record (with its new
    [HeatRecOutletTemp]), the new [QCond] and [QHeatRec]. *)

Definition ReformEIRChillerHeatRecovery (env : Env) (sp : ChillerSpec) (st : ChillerState)
    (QCond CondMassFlow CondInletTemp : Q) : Res (ChillerState * Q * Q) :=
  let HeatRecInletTemp := Temp (HeatRecInletNode env) in
  let HeatRecMassFlowRate := MassFlowRate (HeatRecInletNode env) in
  let CpHeatRec := GetSpecificHeatGlycol env HRLoop HeatRecInletTemp in
  let CpCond := GetSpecificHeatGlycol env CDLoop CondInletTemp in
  (* Before we modify the QCondenser, the total or original value is transferred to QTot *)
  let QTotal := QCond in
  QHeatRec <-
    (if (HeatRecSetPointNodeNum sp =? 0)%Z then
       (* use original algorithm that blends temps *)
       TAvgIn <- div (HeatRecMassFlowRate * CpHeatRec * HeatRecInletTemp
                      + CondMassFlow * CpCond * CondInletTemp)
                     (HeatRecMassFlowRate * CpHeatRec + CondMassFlow * CpCond) ;;
       q <- div QTotal (HeatRecMassFlowRate * CpHeatRec + CondMassFlow * CpCond) ;;
       let TAvgOut := q + TAvgIn in
       let QHeatRec := HeatRecMassFlowRate * CpHeatRec * (TAvgOut - HeatRecInletTemp) in
       let QHeatRec := Real64.max QHeatRec 0 in
       (* check if heat flow too large for physical size of bundle *)
       Ok (Real64.min QHeatRec (HeatRecMaxCapacityLimit sp))
     else
       (* use new algorithm to meet setpoint *)
       let THeatRecSetPoint :=
         match LoopDemandCalcScheme env HRLoop with
         | SingleSetPoint => TempSetPoint (HeatRecSetPointNode env)
         | DualSetPointDeadBand => TempSetPointHi (HeatRecSetPointNode env)
         end in
       let QHeatRecToSetPoint :=
         HeatRecMassFlowRate * CpHeatRec * (THeatRecSetPoint - HeatRecInletTemp) in
       let QHeatRecToSetPoint := Real64.max QHeatRecToSetPoint 0 in
       let QHeatRec := Real64.min QTotal QHeatRecToSetPoint in
       Ok (Real64.min QHeatRec (HeatRecMaxCapacityLimit sp))) ;;
  (* check if limit on inlet is present and exceeded. *)
  let QHeatRec :=
    if (HeatRecInletLimitSchedNum sp >? 0)%Z then
      let HeatRecHighInletLimit :=
        GetCurrentScheduleValue env (HeatRecInletLimitSchedNum sp) in
      if Real64.gtb HeatRecInletTemp HeatRecHighInletLimit then 0 else QHeatRec
    else QHeatRec in
  let QCond := QTotal - QHeatRec in
  (* Calculate a new Heat Recovery Coil Outlet Temp *)
  st <- (if Real64.gtb HeatRecMassFlowRate 0 then
           q <- div QHeatRec (HeatRecMassFlowRate * CpHeatRec) ;;
           Ok (set_HeatRecOutletTemp (q + HeatRecInletTemp) st)
         else Ok (set_HeatRecOutletTemp HeatRecInletTemp st)) ;;
  Ok (st, QCond, QHeatRec).

(** ** CalcReformEIRChillerModel (lines 1917-2435) *)

(** The [return] statement, or the end of the body, that a call leaves by. *)
Inductive Exit : Type :=
  | ExitIdle               (* line 1990: no loop demand or chiller off *)
  | ExitNoCondFlow         (* line 2047: condenser flow below the tolerance *)
  | ExitNoEvapFlow         (* line 2115: evaporator inlet flow is zero *)
  | ExitNoEvapFlowLocked   (* line 2281: resolved evaporator flow is zero *)
  | ExitEnd.               (* line 2435 *)

(** What a call leaves behind: the chiller record, the diagnostics it
    emitted and the caller's [MyLoad], passed by reference. *)
Record CalcOut : Type := mkCalcOut {
  exit : Exit;
  state : ChillerState;
  diags : list Diag;
  load : Q
}.

(** The fault models are active outside warm-up, sizing and kick-off. *)
Definition faults_active (env : Env) : bool :=
  negb (WarmupFlag env) && negb (DoingSizing env) && negb (KickOffSimulation env).

(** Lines 1950-1967: outputs and curve outputs are set to zero. *)
Definition calc_reset (st : ChillerState) : ChillerState :=
  let st := set_ChillerPartLoadRatio 0 st in
  let st := set_ChillerCyclingRatio 0 st in
  let st := set_ChillerFalseLoadRate 0 st in
  let st := set_EvapMassFlowRate 0 st in
  let st := set_CondMassFlowRate 0 st in
  let st := set_Power 0 st in
  let st := set_QCondenser 0 st in
  let st := set_QEvaporator 0 st in
  let st := set_QHeatRecovery 0 st in
  let st := set_ChillerCapFT 0 st in
  let st := set_ChillerEIRFT 0 st in
  set_ChillerEIRFPLR 0 st.

(** Lines 1977-1988: the idle path passes the inlet flows through for
    series-active branches. *)
Definition calc_idle (env : Env) (sp : ChillerSpec) (EquipFlowCtrl : Z)
    (st : ChillerState) : ChillerState :=
  let st :=
    if (EquipFlowCtrl =? ControlType_SeriesActive env)%Z || (FlowLock env =? 1)%Z
    then set_EvapMassFlowRate (MassFlowRate (EvapInletNode env)) st
    else st in
  if (CondenserType sp =? WaterCooled)%Z then
    if (CondCompFlowCtrl env =? ControlType_SeriesActive env)%Z
    then set_CondMassFlowRate (MassFlowRate (CondInletNode env)) st
    else st
  else st.

(** Lines 1998-2024: reference capacity and COP, scaled by the fouling
    factor when the fouling fault is active.  The result is the record,
    [ChillerRefCap] and [ReferenceCOP]. *)
Definition calc_fouling (env : Env) (sp : ChillerSpec) (st : ChillerState)
    : ChillerState * Q * Q :=
  let ChillerRefCap := RefCap sp in
  let ReferenceCOP := RefCOP sp in
  if FaultyChillerFoulingFlag sp && faults_active env then
    let NomCap_ff := ChillerRefCap in
    let ReferenceCOP_ff := ReferenceCOP in
    let st := set_FaultyChillerFoulingFactor
                (CalFoulingFactor env (FaultyChillerFoulingIndex sp)) st in
    (st, NomCap_ff * FaultyChillerFoulingFactor st,
         ReferenceCOP_ff * FaultyChillerFoulingFactor st)
  else (st, ChillerRefCap, ReferenceCOP).

(** Lines 2050-2074 (and again 2652-2677): the evaporator outlet setpoint. *)
Definition outlet_setpoint (env : Env) (sp : ChillerSpec) : Q :=
  match LoopDemandCalcScheme env CWLoop with
  | SingleSetPoint =>
      if (FlowMode sp =? LeavingSetPointModulated)%Z
         || (CurOpSchemeType env =? CompSetPtBasedSchemeType env)%Z
         || Real64.neb (TempSetPoint (EvapOutletNode env)) (SensedNodeFlagValue env)
      then TempSetPoint (EvapOutletNode env)
      else TempSetPoint (LoopTempSetPointNode env)
  | DualSetPointDeadBand =>
      if (FlowMode sp =? LeavingSetPointModulated)%Z
         || (CurOpSchemeType env =? CompSetPtBasedSchemeType env)%Z
         || Real64.neb (TempSetPointHi (EvapOutletNode env)) (SensedNodeFlagValue env)
      then TempSetPointHi (EvapOutletNode env)
      else TempSetPointHi (LoopTempSetPointNode env)
  end.

(** Lines 2076-2088: the supply-water-temperature sensor fault moves the
    setpoint.  The result is the record and [EvapOutletTempSetPoint]. *)
Definition calc_setpoint (env : Env) (sp : ChillerSpec) (st : ChillerState)
    : ChillerState * Q :=
  let EvapOutletTempSetPoint := outlet_setpoint env sp in
  if FaultyChillerSWTFlag sp && faults_active env then
    let EvapOutletTempSetPoint_ff := EvapOutletTempSetPoint in
    let st := set_FaultyChillerSWTOffset
                (CalFaultOffsetAct env (FaultyChillerSWTIndex sp)) st in
    let EvapOutletTempSetPoint :=
      Real64.max (TempLowLimitEvapOut sp)
        (Real64.min (Temp (EvapInletNode env))
                    (EvapOutletTempSetPoint_ff - FaultyChillerSWTOffset st)) in
    (set_FaultyChillerSWTOffset (EvapOutletTempSetPoint_ff - EvapOutletTempSetPoint) st,
     EvapOutletTempSetPoint)
  else (st, EvapOutletTempSetPoint).

(** Lines 2090-2103: the condenser temperature used for the curve lookups. *)
Definition calc_cond_avg_temp (sp : ChillerSpec) (st : ChillerState)
    (FalsiCondOutTemp : Q) : Res ChillerState :=
  if HeatRecActive sp then
    if Real64.gtb (QHeatRecovery st + QCondenser st) 0 then (* protect div by zero *)
      t <- div (QHeatRecovery st * HeatRecOutletTemp st
                + QCondenser st * CondOutletTemp st)
               (QHeatRecovery st + QCondenser st) ;;
      Ok (set_ChillerCondAvgTemp t st)
    else Ok (set_ChillerCondAvgTemp FalsiCondOutTemp st)
  else Ok (set_ChillerCondAvgTemp FalsiCondOutTemp st).

(** Lines 2120-2138: the load is capped at the water-side load. *)
Definition water_side_load (env : Env) (Cp EvapOutletTempSetPoint MyLoad : Q) : Q :=
  let TempLoad :=
    MassFlowRateMaxAvail (EvapInletNode env) * Cp
    * (Temp (EvapInletNode env) - EvapOutletTempSetPoint) in
  let TempLoad := Real64.max 0 TempLoad in
  if Real64.gtb (Qabs MyLoad) TempLoad then Real64.sign TempLoad MyLoad else MyLoad.

(** Lines 2140-2146: part-load ratio from load and available capacity. *)
Definition part_load_ratio (sp : ChillerSpec) (AvailChillerCap Q_ : Q) : Res Q :=
  if Real64.gtb AvailChillerCap 0 then
    q <- div Q_ AvailChillerCap ;;
    Ok (Real64.max 0 (Real64.min q (MaxPartLoadRat sp)))
  else Ok 0.

(** Lines 2249-2267 and 2329-2344: the sensor fault model overrides
    [EvapOutletTemp], [EvapMassFlowRate] and [QEvaporator]. *)
Definition apply_swt_fault (env : Env) (sp : ChillerSpec) (VarFlowFlag : bool)
    (Cp : Q) (st : ChillerState) : ChillerState :=
  let '(t, m, q) :=
    CalFaultChillerSWT env (FaultyChillerSWTIndex sp) VarFlowFlag
      (FaultyChillerSWTOffset st) Cp (Temp (EvapInletNode env))
      (EvapOutletTemp st) (EvapMassFlowRate st) (QEvaporator st) in
  set_QEvaporator q (set_EvapMassFlowRate m (set_EvapOutletTemp t st)).

(** Lines 2153-2267, [FlowLock == 0]: the chiller sets the plant loop flow.
    The result is the record, [PartLoadRat] and the diagnostics. *)
Definition calc_flow_unlocked (env : Env) (sp : ChillerSpec) (st : ChillerState)
    (AvailChillerCap Cp PartLoadRat : Q) : Res (ChillerState * Q * list Diag) :=
  let st :=
    if (CurOpSchemeType env =? CompSetPtBasedSchemeType env)%Z
    then set_PossibleSubcooling false st
    else set_PossibleSubcooling true st in
  '(st, PartLoadRat, ds) <-
    (* Either set the flow to the Constant value or calculate the flow for
       the variable volume case *)
    (if (FlowMode sp =? ConstantFlow)%Z || (FlowMode sp =? NotModulated)%Z then
       (* Start by assuming max (design) flow *)
       let st := set_EvapMassFlowRate (EvapMassFlowRateMax sp) st in
       let st := set_EvapMassFlowRate
                   (SetComponentFlowRate env CWLoop (EvapMassFlowRate st)) st in
       EvapDeltaTemp <-
         (if Real64.neb (EvapMassFlowRate st) 0 then
            q <- div (QEvaporator st) (EvapMassFlowRate st) ;;
            div q Cp
          else Ok 0) ;;
       Ok (set_EvapOutletTemp (Temp (EvapInletNode env) - EvapDeltaTemp) st,
           PartLoadRat, [])
     else if (FlowMode sp =? LeavingSetPointModulated)%Z then
       (* Calculate the Delta Temp from the inlet temp to the chiller outlet setpoint *)
       let EvapDeltaTemp :=
         match LoopDemandCalcScheme env CWLoop with
         | SingleSetPoint =>
             Temp (EvapInletNode env) - TempSetPoint (EvapOutletNode env)
         | DualSetPointDeadBand =>
             Temp (EvapInletNode env) - TempSetPointHi (EvapOutletNode env)
         end in
       if Real64.neb EvapDeltaTemp 0 then
         q <- div (QEvaporator st) Cp ;;
         q <- div q EvapDeltaTemp ;;
         let st := set_EvapMassFlowRate (Real64.max 0 q) st in
         let st :=
           if Real64.gtb (EvapMassFlowRate st - EvapMassFlowRateMax sp)
                         (MassFlowTolerance env)
           then set_PossibleSubcooling true st else st in
         (* Check to see if the Maximum is exceeded, if so set to maximum *)
         let st := set_EvapMassFlowRate
                     (Real64.min (EvapMassFlowRateMax sp) (EvapMassFlowRate st)) st in
         let st := set_EvapMassFlowRate
                     (SetComponentFlowRate env CWLoop (EvapMassFlowRate st)) st in
         let st :=
           match LoopDemandCalcScheme env CWLoop with
           | SingleSetPoint =>
               set_EvapOutletTemp (TempSetPoint (EvapOutletNode env)) st
           | DualSetPointDeadBand =>
               set_EvapOutletTemp (TempSetPointHi (EvapOutletNode env)) st
           end in
         let st := set_QEvaporator
                     (Real64.max 0 (EvapMassFlowRate st * Cp * EvapDeltaTemp)) st in
         Ok (st, PartLoadRat, [])
       else
         (* Try to request zero flow *)
         let st := set_EvapMassFlowRate 0 st in
         let st := set_EvapMassFlowRate
                     (SetComponentFlowRate env CWLoop (EvapMassFlowRate st)) st in
         (* No deltaT since component is not running *)
         let st := set_EvapOutletTemp (Temp (EvapInletNode env)) st in
         let st := set_QEvaporator 0 st in
         let PartLoadRat := 0 in
         let st := set_ChillerPartLoadRatio PartLoadRat st in
         if (DeltaTErrCount st <? 1)%Z && negb (WarmupFlag env) then
           let st := set_DeltaTErrCount (int_succ (DeltaTErrCount st)) st in
           Ok (st, PartLoadRat,
               [ShowWarningError CkDeltaT []; ShowContinueErrorTimeStamp CkDeltaT []])
         else if negb (WarmupFlag env) then
           let st := set_ChillerCapFTError (int_succ (ChillerCapFTError st)) st in
           Ok (st, PartLoadRat,
               [ShowRecurringWarningErrorAtEnd CkDeltaT EvapDeltaTemp EvapDeltaTemp])
         else Ok (st, PartLoadRat, [])
     else Ok (st, PartLoadRat, [])) ;;
  (* If there is a fault of Chiller SWT Sensor *)
  if FaultyChillerSWTFlag sp && faults_active env
     && Real64.gtb (EvapMassFlowRate st) 0 then
    let VarFlowFlag := (FlowMode sp =? LeavingSetPointModulated)%Z in
    let st := apply_swt_fault env sp VarFlowFlag Cp st in
    (* update corresponding variables at faulty case *)
    PartLoadRat <-
      (if Real64.gtb AvailChillerCap 0
       then div (QEvaporator st) AvailChillerCap else Ok 0) ;;
    let PartLoadRat := Real64.max 0 (Real64.min PartLoadRat (MaxPartLoadRat sp)) in
    Ok (set_ChillerPartLoadRatio PartLoadRat st, PartLoadRat, ds)
  else Ok (st, PartLoadRat, ds).

(** Lines 2295-2305 and 2306-2316: an outlet temperature below [limit] is
    raised to the limit, or to the inlet temperature when the limit is not
    below the inlet by more than [DeltaTempTol]; the heat flow follows. *)
Definition clamp_outlet_low (env : Env) (Cp limit : Q) (st : ChillerState)
    : ChillerState :=
  if Real64.ltb (EvapOutletTemp st) limit then
    if Real64.gtb (Temp (EvapInletNode env) - limit) (DeltaTempTol env) then
      let st := set_EvapOutletTemp limit st in
      let EvapDeltaTemp := Temp (EvapInletNode env) - EvapOutletTemp st in
      set_QEvaporator (EvapMassFlowRate st * Cp * EvapDeltaTemp) st
    else
      let st := set_EvapOutletTemp (Temp (EvapInletNode env)) st in
      let EvapDeltaTemp := Temp (EvapInletNode env) - EvapOutletTemp st in
      set_QEvaporator (EvapMassFlowRate st * Cp * EvapDeltaTemp) st
  else st.

(** Lines 2318-2327 and 2347-2357: a heat flow above [cap] is cut to [cap],
    and the outlet temperature follows; with no flow to speak of both are
    reset. *)
Definition clamp_load (env : Env) (Cp cap : Q) (st : ChillerState)
    : Res ChillerState :=
  if Real64.gtb (QEvaporator st) cap then
    if Real64.gtb (EvapMassFlowRate st) (MassFlowTolerance env) then
      let st := set_QEvaporator cap st in
      q <- div (QEvaporator st) (EvapMassFlowRate st) ;;
      EvapDeltaTemp <- div q Cp ;;
      Ok (set_EvapOutletTemp (Temp (EvapInletNode env) - EvapDeltaTemp) st)
    else
      let st := set_QEvaporator 0 st in
      Ok (set_EvapOutletTemp (Temp (EvapInletNode env)) st)
  else Ok st.

(** Lines 2284-2327, [FlowLock != 0]: heat flow and outlet temperature for
    the flow the plant has resolved. *)
Definition locked_evaporator (env : Env) (sp : ChillerSpec) (st : ChillerState)
    (EvapOutletTempSetPoint Cp MyLoad : Q) : Res ChillerState :=
  let TempLowLimitEout := TempLowLimitEvapOut sp in
  st <-
    (if PossibleSubcooling st then
       let st := set_QEvaporator (Qabs MyLoad) st in
       q <- div (QEvaporator st) (EvapMassFlowRate st) ;;
       EvapDeltaTemp <- div q Cp ;;
       Ok (set_EvapOutletTemp (Temp (EvapInletNode env) - EvapDeltaTemp) st)
     else
       let EvapDeltaTemp := Temp (EvapInletNode env) - EvapOutletTempSetPoint in
       let st := set_QEvaporator
                   (Real64.max 0 (EvapMassFlowRate st * Cp * EvapDeltaTemp)) st in
       Ok (set_EvapOutletTemp EvapOutletTempSetPoint st)) ;;
  let st := clamp_outlet_low env Cp TempLowLimitEout st in
  let st := clamp_outlet_low env Cp (TempMin (EvapOutletNode env)) st in
  (* If load exceeds the distributed load set to the distributed load *)
  clamp_load env Cp (Qabs MyLoad) st.

(** Lines 2359-2385: part-load ratio, cycling ratio and false loading.
    The result is the record, [PartLoadRat] and [FRAC]. *)
Definition locked_part_load (env : Env) (sp : ChillerSpec) (st : ChillerState)
    (AvailChillerCap FRAC : Q) : Res (ChillerState * Q * Q) :=
  PartLoadRat <- part_load_ratio sp AvailChillerCap (QEvaporator st) ;;
  (* Chiller cycles below minimum part load ratio, FRAC = amount of time
     chiller is ON during this time step *)
  FRAC <-
    (if Real64.ltb PartLoadRat (MinPartLoadRat sp) then
       q <- div PartLoadRat (MinPartLoadRat sp) ;;
       Ok (Real64.min 1 q)
     else Ok FRAC) ;;
  let st := set_ChillerCyclingRatio FRAC st in
  (* Chiller is false loading below PLR = minimum unloading ratio, find PLR
     used for energy calculation *)
  let PartLoadRat :=
    if Real64.gtb AvailChillerCap 0
    then Real64.max PartLoadRat (MinUnloadRat sp) else 0 in
  let st := set_ChillerPartLoadRatio PartLoadRat st in
  (* calculate the load due to false loading on chiller over and above
     water side load *)
  let st := set_ChillerFalseLoadRate
              (AvailChillerCap * PartLoadRat * FRAC - QEvaporator st) st in
  let st :=
    if Real64.ltb (ChillerFalseLoadRate st) (SmallLoad env)
    then set_ChillerFalseLoadRate 0 st else st in
  Ok (st, PartLoadRat, FRAC).

(** Lines 2284-2385: the flow-locked block after its flow test. *)
Definition calc_flow_locked (env : Env) (sp : ChillerSpec) (st : ChillerState)
    (EvapOutletTempSetPoint AvailChillerCap Cp MyLoad FRAC : Q)
    : Res (ChillerState * Q * Q) :=
  st <- locked_evaporator env sp st EvapOutletTempSetPoint Cp MyLoad ;;
  (* If there is a fault of Chiller SWT Sensor *)
  let st :=
    if FaultyChillerSWTFlag sp && faults_active env
       && Real64.gtb (EvapMassFlowRate st) 0
    then apply_swt_fault env sp false Cp st else st in
  (* Checks QEvaporator on the basis of the machine limits. *)
  st <- clamp_load env Cp (AvailChillerCap * MaxPartLoadRat sp) st ;;
  locked_part_load env sp st AvailChillerCap FRAC.

(** Lines 2397-2411: lift and evaporator-outlet deviation, normalised by
    the reference lift. *)
Definition lift_variables (sp : ChillerSpec) (CondTemp EvapTemp : Q) : Res (Q * Q) :=
  let ChillerLift := CondTemp - EvapTemp in
  let ChillerTdev := Qabs (EvapTemp - TempRefEvapOut sp) in
  let ChillerLiftRef := TempRefCondOut sp - TempRefEvapOut sp in
  let ChillerLiftRef := if Real64.leb ChillerLiftRef 0 then 35 - 6.67 else ChillerLiftRef in
  ChillerLiftNom <- div ChillerLift ChillerLiftRef ;;
  ChillerTdevNom <- div ChillerTdev ChillerLiftRef ;;
  Ok (ChillerLiftNom, ChillerTdevNom).

(** Lines 2389-2434: curve outputs, power, condenser heat, heat recovery
    and condenser outlet temperature. *)
Definition calc_power_condenser (env : Env) (sp : ChillerSpec) (st : ChillerState)
    (AvailChillerCap ReferenceCOP PartLoadRat FRAC CondInletTemp : Q)
    : Res (ChillerState * list Diag) :=
  let st := set_ChillerEIRFT
              (Real64.max 0 (CurveValue env (ChillerEIRFTIndex sp)
                               (EvapOutletTemp st) (ChillerCondAvgTemp st))) st in
  st <-
    (if (PartLoadCurveType sp =? PLR_LeavingCondenserWaterTemperature)%Z then
       Ok (set_ChillerEIRFPLR
             (Real64.max 0 (CurveValue env (ChillerEIRFPLRIndex sp)
                              (ChillerCondAvgTemp st) PartLoadRat)) st)
     else if (PartLoadCurveType sp =? PLR_Lift)%Z then
       '(ChillerLiftNom, ChillerTdevNom) <-
         lift_variables sp (ChillerCondAvgTemp st) (EvapOutletTemp st) ;;
       Ok (set_ChillerEIRFPLR
             (Real64.max 0 (CurveValue3 env (ChillerEIRFPLRIndex sp)
                              ChillerLiftNom PartLoadRat ChillerTdevNom)) st)
     else Ok st) ;;
  let ReferenceCOP := if Real64.leb ReferenceCOP 0 then 5.5 else ReferenceCOP in
  q <- div AvailChillerCap ReferenceCOP ;;
  let st := set_Power (q * ChillerEIRFPLR st * ChillerEIRFT st * FRAC) st in
  let st := set_QCondenser
              (Power st * CompPowerToCondenserFrac sp + QEvaporator st
               + ChillerFalseLoadRate st) st in
  if Real64.gtb (CondMassFlowRate st) (MassFlowTolerance env) then
    (* If Heat Recovery specified for this vapor compression chiller, then
       Qcondenser will be adjusted by this subroutine *)
    st <-
      (if HeatRecActive sp then
         '(st, QCond, QHeatRec) <-
           ReformEIRChillerHeatRecovery env sp st (QCondenser st)
             (CondMassFlowRate st) CondInletTemp ;;
         Ok (set_QHeatRecovery QHeatRec (set_QCondenser QCond st))
       else Ok st) ;;
    let Cp := GetSpecificHeatGlycol env CDLoop CondInletTemp in
    q <- div (QCondenser st) (CondMassFlowRate st) ;;
    q <- div q Cp ;;
    Ok (set_CondOutletTemp (q + CondInletTemp) st, [])
  else
    Ok (st, [ShowSevereError CkCondFlowZero; ShowContinueErrorTimeStamp CkCondFlowZero []]).

Definition CalcReformEIRChillerModel (env : Env) (sp : ChillerSpec) (st : ChillerState)
    (MyLoad : Q) (RunFlag FirstIteration : bool) (EquipFlowCtrl : Z)
    (FalsiCondOutTemp : Q) : Res CalcOut :=
  let st := calc_reset st in
  (* Set module-level chiller evap and condenser inlet temperature variables *)
  let CondInletTemp := Temp (CondInletNode env) in
  (* If no loop demand or chiller OFF, return *)
  if Real64.geb MyLoad 0 || negb RunFlag then
    Ok (mkCalcOut ExitIdle (calc_idle env sp EquipFlowCtrl st) [] MyLoad)
  else
    let st := set_EvapOutletTemp (Temp (EvapOutletNode env)) st in
    let '(st, ChillerRefCap, ReferenceCOP) := calc_fouling env sp st in
    (* Set mass flow rates *)
    let st :=
      if (CondenserType sp =? WaterCooled)%Z
      then set_CondMassFlowRate
             (SetComponentFlowRate env CDLoop (CondMassFlowRateMax sp)) st
      else st in
    if (CondenserType sp =? WaterCooled)%Z
       && Real64.ltb (CondMassFlowRate st) (MassFlowTolerance env) then
      Ok (mkCalcOut ExitNoCondFlow st [] MyLoad)
    else
      let FRAC := 1 in
      let '(st, EvapOutletTempSetPoint) := calc_setpoint env sp st in
      (* correct temperature if using heat recovery *)
      st <- calc_cond_avg_temp sp st FalsiCondOutTemp ;;
      (* Get capacity curve info with respect to CW setpoint and leaving
         condenser water temps *)
      let st := set_ChillerCapFT
                  (Real64.max 0 (CurveValue env (ChillerCapFTIndex sp)
                                   EvapOutletTempSetPoint (ChillerCondAvgTemp st))) st in
      (* Available chiller capacity as a function of temperature *)
      let AvailChillerCap := ChillerRefCap * ChillerCapFT st in
      let st := set_EvapMassFlowRate (MassFlowRate (EvapInletNode env)) st in
      (* Some other component set the flow to 0. No reason to continue with
         calculations. *)
      if Real64.eqb (EvapMassFlowRate st) 0 then
        Ok (mkCalcOut ExitNoEvapFlow st [] 0)
      else
        let Cp := GetSpecificHeatGlycol env CWLoop (Temp (EvapInletNode env)) in
        let MyLoad := water_side_load env Cp EvapOutletTempSetPoint MyLoad in
        PartLoadRat <- part_load_ratio sp AvailChillerCap (Qabs MyLoad) ;;
        (* Set evaporator heat transfer rate *)
        let st := set_QEvaporator (AvailChillerCap * PartLoadRat) st in
        let st := set_ChillerPartLoadRatio PartLoadRat st in
        if (FlowLock env =? 0)%Z then
          '(st, PartLoadRat, ds) <-
            calc_flow_unlocked env sp st AvailChillerCap Cp PartLoadRat ;;
          '(st, ds') <-
            calc_power_condenser env sp st AvailChillerCap ReferenceCOP
              PartLoadRat FRAC CondInletTemp ;;
          Ok (mkCalcOut ExitEnd st (ds ++ ds') MyLoad)
        else
          let st := set_EvapMassFlowRate (MassFlowRate (EvapInletNode env)) st in
          let st := set_EvapMassFlowRate
                      (SetComponentFlowRate env CWLoop (EvapMassFlowRate st)) st in
          if Real64.eqb (EvapMassFlowRate st) 0 then
            Ok (mkCalcOut ExitNoEvapFlowLocked st [] 0)
          else
            '(st, PartLoadRat, FRAC) <-
              calc_flow_locked env sp st EvapOutletTempSetPoint AvailChillerCap
                Cp MyLoad FRAC ;;
            '(st, ds') <-
              calc_power_condenser env sp st AvailChillerCap ReferenceCOP
                PartLoadRat FRAC CondInletTemp ;;
            Ok (mkCalcOut ExitEnd st ds' MyLoad).

(** ** CheckMinMaxCurveBoundaries (lines 2437-2766) *)

(** Lines 2471-2492 and the five blocks of the same shape that follow:
    a value outside [lo, hi] increments the counter of its check; the first
    violation is reported in full, later ones by the recurring message. *)
Definition range_check (c : Check) (value lo hi : Q) (count : Z) : Z * list Diag :=
  if Real64.ltb value lo || Real64.gtb value hi then
    let count := int_succ count in
    if (count =? 1)%Z then
      (count, [ShowWarningError c [value];
               ShowContinueErrorTimeStamp c [lo; hi];
               ShowRecurringWarningErrorAtEnd c value value])
    else (count, [ShowRecurringWarningErrorAtEnd c value value])
  else (count, []).

(** Lines 2681-2699, 2703-2721 and 2747-2765: a negative curve output is
    counted and reported; [x] and [y] are the curve inputs the message
    prints. *)
Definition negative_check (env : Env) (c : Check) (value x y : Q) (count : Z)
    : Z * list Diag :=
  if Real64.ltb value 0 then
    if (count <? 1)%Z && negb (FlowLock env =? 0)%Z && negb (WarmupFlag env) then
      (int_succ count,
       [ShowWarningError c []; ShowContinueError c [value];
        ShowContinueError c [x; y]; ShowContinueErrorTimeStamp c []])
    else if negb (FlowLock env =? 0)%Z && negb (WarmupFlag env) then
      (int_succ count, [ShowRecurringWarningErrorAtEnd c value value])
    else (count, [])
  else (count, []).

Definition CheckMinMaxCurveBoundaries (env : Env) (sp : ChillerSpec) (st : ChillerState)
    (FirstIteration : bool) : Res (ChillerState * list Diag) :=
  (* Do not print out warnings if chiller not operating or
     FirstIteration/WarmupFlag/FlowLock *)
  if FirstIteration || WarmupFlag env || (FlowLock env =? 0)%Z then Ok (st, [])
  else
    let CAPFTXTmin := ChillerCAPFTXTempMin sp in
    let CAPFTXTmax := ChillerCAPFTXTempMax sp in
    let EIRFTXTmin := ChillerEIRFTXTempMin sp in
    let EIRFTXTmax := ChillerEIRFTXTempMax sp in
    let '(n, d1) := range_check CkCAPFTX (EvapOutletTemp st) CAPFTXTmin CAPFTXTmax
                      (CAPFTXIter st) in
    let st := set_CAPFTXIter n st in
    let '(n, d2) := range_check CkEIRFTX (EvapOutletTemp st) EIRFTXTmin EIRFTXTmax
                      (EIRFTXIter st) in
    let st := set_EIRFTXIter n st in
    let CAPFTYTmin := ChillerCAPFTYTempMin sp in
    let CAPFTYTmax := ChillerCAPFTYTempMax sp in
    let EIRFTYTmin := ChillerEIRFTYTempMin sp in
    let EIRFTYTmax := ChillerEIRFTYTempMax sp in
    let '(EIRFPLRTmin, EIRFPLRTmax) :=
      if (PartLoadCurveType sp =? PLR_LeavingCondenserWaterTemperature)%Z
      then (ChillerEIRFPLRTempMin sp, ChillerEIRFPLRTempMax sp)
      else (0, 0) in
    let EIRFPLRPLRmin := ChillerEIRFPLRPLRMin sp in
    let EIRFPLRPLRmax := ChillerEIRFPLRPLRMax sp in
    let '(n, d3) := range_check CkCAPFTY (CondOutletTemp st) CAPFTYTmin CAPFTYTmax
                      (CAPFTYIter st) in
    let st := set_CAPFTYIter n st in
    let '(n, d4) := range_check CkEIRFTY (CondOutletTemp st) EIRFTYTmin EIRFTYTmax
                      (EIRFTYIter st) in
    let st := set_EIRFTYIter n st in
    let '(st, d5) :=
      if (PartLoadCurveType sp =? PLR_LeavingCondenserWaterTemperature)%Z then
        let '(n, d) := range_check CkEIRFPLRT (CondOutletTemp st)
                         EIRFPLRTmin EIRFPLRTmax (EIRFPLRTIter st) in
        (set_EIRFPLRTIter n st, d)
      else (st, []) in
    let '(n, d6) := range_check CkEIRFPLRPLR (ChillerPartLoadRatio st)
                      EIRFPLRPLRmin EIRFPLRPLRmax (EIRFPLRPLRIter st) in
    let st := set_EIRFPLRPLRIter n st in
    let EvapOutletTempSetPoint := outlet_setpoint env sp in
    let st := set_ChillerCapFT
                (CurveValue env (ChillerCapFTIndex sp) EvapOutletTempSetPoint
                   (CondOutletTemp st)) st in
    let '(n, d7) := negative_check env CkCapFTNegative (ChillerCapFT st)
                      EvapOutletTempSetPoint (CondOutletTemp st)
                      (ChillerCapFTError st) in
    let st := set_ChillerCapFTError n st in
    let st := set_ChillerEIRFT
                (CurveValue env (ChillerEIRFTIndex sp) (EvapOutletTemp st)
                   (CondOutletTemp st)) st in
    let '(n, d8) := negative_check env CkEIRFTNegative (ChillerEIRFT st)
                      (EvapOutletTemp st) (CondOutletTemp st)
                      (ChillerEIRFTError st) in
    let st := set_ChillerEIRFTError n st in
    st <-
      (if (PartLoadCurveType sp =? PLR_LeavingCondenserWaterTemperature)%Z then
         Ok (set_ChillerEIRFPLR
               (CurveValue env (ChillerEIRFPLRIndex sp) (CondOutletTemp st)
                  (ChillerPartLoadRatio st)) st)
       else if (PartLoadCurveType sp =? PLR_Lift)%Z then
         '(ChillerLiftNom, ChillerTdevNom) <-
           lift_variables sp (CondOutletTemp st) (EvapOutletTemp st) ;;
         Ok (set_ChillerEIRFPLR
               (CurveValue3 env (ChillerEIRFPLRIndex sp) ChillerLiftNom
                  (ChillerPartLoadRatio st) ChillerTdevNom) st)
       else Ok st) ;;
    let '(n, d9) := negative_check env CkEIRFPLRNegative (ChillerEIRFPLR st)
                      (ChillerPartLoadRatio st) (CondOutletTemp st)
                      (ChillerEIRFPLRError st) in
    let st := set_ChillerEIRFPLRError n st in
    Ok (st, d1 ++ d2 ++ d3 ++ d4 ++ d5 ++ d6 ++ d7 ++ d8 ++ d9).

(** ** CondOutTempResidual (lines 1887-1915) *)

(** [int(x)] of a [Real64]: truncation toward zero. *)
Definition Real64_to_int (x : Q) : Z := Z.quot (Qnum x) (Zpos (Qden x)).

(** [Par(i)] of the parameter array, indexed from 1. *)
Definition Par_at (Par : list Q) (i : nat) : Q := nth (i - 1) Par 0.

(** The program state the root finder threads through the calls of the
    residual: the chiller record and the error file. *)
Definition Prog : Type := (ChillerState * list Diag)%type.

Definition CondOutTempResidual (env : Env) (sp : ChillerSpec) (FalsiCondOutTemp : Q)
    (Par : list Q) (s : Prog) : Res (Q * Prog) :=
  let MyLoad := Par_at Par 2 in
  let RunFlag := (Real64_to_int (Par_at Par 3) =? 1)%Z in
  let FirstIteration := (Real64_to_int (Par_at Par 4) =? 1)%Z in
  (* bool EquipFlowCtrl = int(Par(6)), then passed on as an int *)
  let EquipFlowCtrl := if (Real64_to_int (Par_at Par 6) =? 0)%Z then 0%Z else 1%Z in
  o <- CalcReformEIRChillerModel env sp (fst s) MyLoad RunFlag FirstIteration
         EquipFlowCtrl FalsiCondOutTemp ;;
  let CondOutTempResidual := FalsiCondOutTemp - CondOutletTemp (state o) in
  Ok (CondOutTempResidual, (state o, snd s ++ diags o)).

(** ** ControlReformEIRChillerModel (lines 1585-1730) *)

(** The calls the solver makes, in order. *)
Inductive SolverStep : Type :=
  | StepCalc (FalsiCondOutTemp : Q)     (* CalcReformEIRChillerModel at a temperature *)
  | StepSolveRoot (Acc : Q) (MaxIter : Z) (X_0 X_1 : Q)   (* General::SolveRoot *)
  | StepCheckBoundaries.                (* CheckMinMaxCurveBoundaries *)

Definition is_solve_root (s : SolverStep) : bool :=
  match s with
  | StepSolveRoot _ _ _ _ => true
  | _ => false
  end.

Record SolverOut : Type := mkSolverOut {
  steps : list SolverStep;
  final_state : ChillerState;
  final_diags : list Diag;
  final_load : Q
}.

(** Lines 1622-1635: minimum condenser leaving temperature allowed by the
    curve objects. *)
Definition bracket_Tmin (sp : ChillerSpec) : Q :=
  let CAPFTYTmin := ChillerCAPFTYTempMin sp in
  let Tmin := - (99) in
  let EIRFTYTmin := ChillerEIRFTYTempMin sp in
  if (PartLoadCurveType sp =? PLR_LeavingCondenserWaterTemperature)%Z then
    let EIRFPLRTmin := ChillerEIRFPLRTempMin sp in
    Real64.min3 CAPFTYTmin EIRFTYTmin EIRFPLRTmin
  else if (PartLoadCurveType sp =? PLR_Lift)%Z then
    Real64.min CAPFTYTmin EIRFTYTmin
  else Tmin.

(** Lines 1637-1650: maximum condenser leaving temperature allowed by the
    curve objects. *)
Definition bracket_Tmax (sp : ChillerSpec) : Q :=
  let CAPFTYTmax := ChillerCAPFTYTempMax sp in
  let Tmax := - (99) in
  let EIRFTYTmax := ChillerEIRFTYTempMax sp in
  if (PartLoadCurveType sp =? PLR_LeavingCondenserWaterTemperature)%Z then
    let EIRFPLRTmax := ChillerEIRFPLRTempMax sp in
    Real64.max3 CAPFTYTmax EIRFTYTmax EIRFPLRTmax
  else if (PartLoadCurveType sp =? PLR_Lift)%Z then
    Real64.max CAPFTYTmax EIRFTYTmax
  else Tmax.

(** Lines 1664-1720: the root finder and the treatment of its flag.  The
    result is the calls made, the record, the diagnostics and [MyLoad]. *)
Definition solve_branch (env : Env) (sp : ChillerSpec) (EIRChillNum : Z)
    (st : ChillerState) (ds : list Diag) (MyLoad : Q)
    (RunFlag FirstIteration : bool) (EquipFlowCtrl : Z) (Tmin Tmax : Q)
    : Res (list SolverStep * ChillerState * list Diag * Q) :=
  let Acc := 0.0001 in
  let MaxIter := 500%Z in
  (* Initialize iteration parameters for RegulaFalsi function *)
  let Par := [ inject_Z EIRChillNum; MyLoad;
               (if RunFlag then 1 else 0);
               (if FirstIteration then 1 else 0);
               0;
               inject_Z EquipFlowCtrl ] in
  '(SolFla, FalsiCondOutTemp, (st, ds)) <-
    SolveRoot env Prog Acc MaxIter
      (fun x s => CondOutTempResidual env sp x Par s) Tmin Tmax (st, ds) ;;
  let called := [StepSolveRoot Acc MaxIter Tmin Tmax] in
  if (SolFla =? -1)%Z then
    if negb (WarmupFlag env) then
      let st := set_IterLimitExceededNum (int_succ (IterLimitExceededNum st)) st in
      if (IterLimitExceededNum st =? 1)%Z then
        Ok (called, st, ds ++ [ShowWarningError CkIterLimit []], MyLoad)
      else
        Ok (called, st,
            ds ++ [ShowRecurringWarningErrorAtEnd CkIterLimit
                     (CondOutletTemp st) (CondOutletTemp st)], MyLoad)
    else Ok (called, st, ds, MyLoad)
  else if (SolFla =? -2)%Z then
    let '(st, ds) :=
      if negb (WarmupFlag env) then
        let st := set_IterFailed (int_succ (IterFailed st)) st in
        if (IterFailed st =? 1)%Z then
          (st, ds ++ [ShowWarningError CkIterFailed [];
                      ShowContinueError CkIterFailed []])
        else
          (st, ds ++ [ShowRecurringWarningErrorAtEnd CkIterFailed
                        (CondOutletTemp st) (CondOutletTemp st)])
      else (st, ds) in
    o <- CalcReformEIRChillerModel env sp st MyLoad RunFlag FirstIteration
           EquipFlowCtrl (Temp (CondInletNode env)) ;;
    Ok (called ++ [StepCalc (Temp (CondInletNode env))],
        state o, ds ++ diags o, load o)
  else Ok (called, st, ds, MyLoad).

Definition ControlReformEIRChillerModel (env : Env) (sp : ChillerSpec)
    (EIRChillNum : Z) (st : ChillerState) (MyLoad : Q)
    (RunFlag FirstIteration : bool) (EquipFlowCtrl : Z) : Res SolverOut :=
  if Real64.geb MyLoad 0 || negb RunFlag then
    let T := Temp (CondInletNode env) in
    o <- CalcReformEIRChillerModel env sp st MyLoad RunFlag FirstIteration
           EquipFlowCtrl T ;;
    Ok (mkSolverOut [StepCalc T] (state o) (diags o) (load o))
  else
    (* Find min/max condenser outlet temperature used by curve objects *)
    let Tmin := bracket_Tmin sp in
    let Tmax := bracket_Tmax sp in
    (* Check that condenser outlet temperature is within curve object limits
       prior to calling RegulaFalsi *)
    o1 <- CalcReformEIRChillerModel env sp st MyLoad RunFlag FirstIteration
            EquipFlowCtrl Tmin ;;
    let CondTempMin := CondOutletTemp (state o1) in
    o2 <- CalcReformEIRChillerModel env sp (state o1) (load o1) RunFlag
            FirstIteration EquipFlowCtrl Tmax ;;
    let CondTempMax := CondOutletTemp (state o2) in
    let probes := [StepCalc Tmin; StepCalc Tmax] in
    '(called, st, ds, MyLoad) <-
      (if Real64.gtb CondTempMin Tmin && Real64.ltb CondTempMax Tmax then
         solve_branch env sp EIRChillNum (state o2) (diags o1 ++ diags o2)
           (load o2) RunFlag FirstIteration EquipFlowCtrl Tmin Tmax
       else
         (* If iteration is not possible, average the min/max condenser
            outlet temperature and manually determine solution *)
         let T3 := (CondTempMin + CondTempMax) / 2 in
         o3 <- CalcReformEIRChillerModel env sp (state o2) (load o2) RunFlag
                 FirstIteration EquipFlowCtrl T3 ;;
         let T4 := CondOutletTemp (state o3) in
         o4 <- CalcReformEIRChillerModel env sp (state o3) (load o3) RunFlag
                 FirstIteration EquipFlowCtrl T4 ;;
         Ok ([StepCalc T3; StepCalc T4], state o4,
             diags o1 ++ diags o2 ++ diags o3 ++ diags o4, load o4)) ;;
    (* Call subroutine to evaluate all performance curve min/max values
       against evaporator/condenser outlet temps and PLR *)
    '(st, dv) <- CheckMinMaxCurveBoundaries env sp st FirstIteration ;;
    Ok (mkSolverOut (probes ++ called ++ [StepCheckBoundaries]) st (ds ++ dv) MyLoad).

(** ** A test bench

    The scenario of the solver-correctness property: capacity curve and
    EIR-temperature curve constant, part-load curve equal to the part-load
    ratio, reference capacity 500 000 W, reference COP 5.5, setpoint 6.67 C,
    condenser inlet at 29.4 C.  The parameters select the variations the
    examples need. *)

Module Bench.

(** A false-position root finder with the interface of [General::SolveRoot]:
    flag -2 when the end points do not bracket a root, -1 when [MaxIter]
    is used up, the number of iterations otherwise. *)
Fixpoint falsi (S : Type) (fuel : nat) (n : Z) (Acc : Q)
    (f : Q -> S -> Res (Q * S)) (X0 Y0 X1 Y1 : Q) (s : S) : Res (Z * Q * S) :=
  match fuel with
  | O => Ok ((-1)%Z, X1, s)
  | Datatypes.S fuel' =>
      if Real64.eqb (Y0 - Y1) 0 then Ok ((-1)%Z, X1, s)
      else
        let XTemp := (Y0 * X1 - Y1 * X0) / (Y0 - Y1) in
        '(YTemp, s) <- f XTemp s ;;
        if Real64.ltb (Qabs YTemp) Acc then Ok (n, XTemp, s)
        else if Real64.ltb (Y0 * YTemp) 0
             then falsi S fuel' (n + 1)%Z Acc f X0 Y0 XTemp YTemp s
             else falsi S fuel' (n + 1)%Z Acc f XTemp YTemp X1 Y1 s
  end.

Definition regula_falsi (S : Type) (Acc : Q) (MaxIter : Z)
    (f : Q -> S -> Res (Q * S)) (X_0 X_1 : Q) (s : S) : Res (Z * Q * S) :=
  '(Y0, s) <- f X_0 s ;;
  '(Y1, s) <- f X_1 s ;;
  if Real64.gtb (Y0 * Y1) 0 then Ok ((-2)%Z, X_0, s)
  else falsi S (Z.to_nat MaxIter) 1%Z Acc f X_0 Y0 X_1 Y1 s.

(** Curve 1 is the capacity curve, with the constant output [capft];
    curve 2 is the EIR-temperature curve; curve 3 is the part-load curve. *)
Definition curve (capft : Q) (i : Z) (x y : Q) : Q :=
  if (i =? 1)%Z then capft else if (i =? 2)%Z then 1 else y.

(** The flow resolver grants what is asked for, except on the condenser
    loop, where it grants [cond_flow]. *)
Definition grant (cond_flow : Q) (l : Loop) (requested : Q) : Q :=
  match l with
  | CDLoop => cond_flow
  | _ => requested
  end.

Definition env (lock : Z) (capft cond_flow hr_flow : Q) : Env :=
  {| EvapInletNode := mkNode 12 0 (-(999)) (-(999)) 20 20;
     EvapOutletNode := mkNode 6.67 0 6.67 6.67 20 20;
     CondInletNode := mkNode 29.4 0 (-(999)) (-(999)) 25 25;
     HeatRecInletNode := mkNode 20 0 (-(999)) (-(999)) hr_flow hr_flow;
     HeatRecSetPointNode := mkNode 60 0 60 60 hr_flow hr_flow;
     LoopTempSetPointNode := mkNode 6.67 0 6.67 6.67 20 20;
     SensedNodeFlagValue := -(999);
     LoopDemandCalcScheme := fun _ => SingleSetPoint;
     FlowLock := lock;
     CurOpSchemeType := 1%Z;
     CompSetPtBasedSchemeType := 2%Z;
     CondCompFlowCtrl := 1%Z;
     DeltaTempTol := 0.0001;
     ControlType_SeriesActive := 3%Z;
     MassFlowTolerance := 0.000000001;
     SmallLoad := 1;
     WarmupFlag := false;
     DoingSizing := false;
     KickOffSimulation := false;
     CurveValue := curve capft;
     CurveValue3 := fun i x y z => curve capft i x y;
     GetSpecificHeatGlycol := fun _ _ => 4180;
     SetComponentFlowRate := grant cond_flow;
     CalFoulingFactor := fun _ => 1;
     CalFaultOffsetAct := fun _ => 0;
     CalFaultChillerSWT := fun _ _ _ _ _ t m q => (t, m, q);
     GetCurrentScheduleValue := fun _ => 100;
     SolveRoot := regula_falsi |}.

(** The chiller: the curves are valid for condenser temperatures from 15 C
    to [ytmax]; heat recovery is [hr], with set-point node [hr_node] (0 for
    none) and inlet-limit schedule [hr_sched] (0 for none). *)
Definition spec (flow_mode : Z) (ytmax : Q) (hr : bool) (hr_node hr_sched : Z)
    : ChillerSpec :=
  {| CondenserType := WaterCooled;
     PartLoadCurveType := PLR_LeavingCondenserWaterTemperature;
     FlowMode := flow_mode;
     RefCap := 500000;
     RefCOP := 5.5;
     TempRefEvapOut := 6.67;
     TempRefCondOut := 35;
     MinPartLoadRat := 0.1;
     MaxPartLoadRat := 1;
     MinUnloadRat := 0.2;
     CompPowerToCondenserFrac := 1;
     TempLowLimitEvapOut := 2;
     EvapMassFlowRateMax := 20;
     CondMassFlowRateMax := 25;
     ChillerCapFTIndex := 1;
     ChillerEIRFTIndex := 2;
     ChillerEIRFPLRIndex := 3;
     ChillerCAPFTXTempMin := 5;
     ChillerCAPFTXTempMax := 10;
     ChillerCAPFTYTempMin := 15;
     ChillerCAPFTYTempMax := ytmax;
     ChillerEIRFTXTempMin := 5;
     ChillerEIRFTXTempMax := 10;
     ChillerEIRFTYTempMin := 15;
     ChillerEIRFTYTempMax := ytmax;
     ChillerEIRFPLRTempMin := 15;
     ChillerEIRFPLRTempMax := ytmax;
     ChillerEIRFPLRPLRMin := 0.1;
     ChillerEIRFPLRPLRMax := 1;
     HeatRecActive := hr;
     HeatRecCapacityFraction := 1;
     HeatRecMaxCapacityLimit := 500000 + 500000 / 5.5;
     HeatRecSetPointNodeNum := hr_node;
     HeatRecInletLimitSchedNum := hr_sched;
     FaultyChillerFoulingFlag := false;
     FaultyChillerFoulingIndex := 0;
     FaultyChillerSWTFlag := false;
     FaultyChillerSWTIndex := 0 |}.

(** A chiller record with every field at zero. *)
Definition st0 : ChillerState :=
  mkState 0 0 0 0 0 0 0 0 0 0 0 0 0 0 0 0 false 0 0 0 0 0 0 0 0 0 0 0 0 0 0.

(** A chiller record as a previous call with heat recovery left it:
    100 kW recovered at 45 C, 250 kW rejected at 35 C. *)
Definition st_prev : ChillerState :=
  set_QHeatRecovery 100000
    (set_QCondenser 250000 (set_HeatRecOutletTemp 45 (set_CondOutletTemp 35 st0))).

(** The main outputs of a call, in lowest terms. *)
Definition lowest (r : Res CalcOut) : option (Exit * list Q * Q) :=
  match r with
  | Ok o =>
      Some (exit o,
            map Qred [ChillerPartLoadRatio (state o); ChillerCyclingRatio (state o);
                      Power (state o); QEvaporator (state o); QCondenser (state o);
                      QHeatRecovery (state o); CondOutletTemp (state o);
                      EvapMassFlowRate (state o); CondMassFlowRate (state o)],
            Qred (load o))
  | DivideByZero => None
  end.

End Bench.

(** ** Frame conditions

    [frame_evap st st']: the fields that the evaporator-side blocks
    (flow unlocked, flow locked) leave alone have the same value in both
    records.  [frame_cond st st']: likewise for the power and condenser
    block. *)

Definition frame_evap (st st' : ChillerState) : Prop :=
  ChillerCondAvgTemp st' = ChillerCondAvgTemp st
  /\ CondMassFlowRate st' = CondMassFlowRate st
  /\ CondOutletTemp st' = CondOutletTemp st
  /\ ChillerCapFT st' = ChillerCapFT st
  /\ ChillerEIRFT st' = ChillerEIRFT st
  /\ ChillerEIRFPLR st' = ChillerEIRFPLR st
  /\ Power st' = Power st
  /\ QCondenser st' = QCondenser st
  /\ QHeatRecovery st' = QHeatRecovery st.

Definition frame_cond (st st' : ChillerState) : Prop :=
  ChillerCondAvgTemp st' = ChillerCondAvgTemp st
  /\ ChillerCyclingRatio st' = ChillerCyclingRatio st
  /\ ChillerPartLoadRatio st' = ChillerPartLoadRatio st
  /\ ChillerFalseLoadRate st' = ChillerFalseLoadRate st
  /\ QEvaporator st' = QEvaporator st
  /\ EvapMassFlowRate st' = EvapMassFlowRate st
  /\ CondMassFlowRate st' = CondMassFlowRate st
  /\ EvapOutletTemp st' = EvapOutletTemp st
  /\ ChillerCapFT st' = ChillerCapFT st.

(** The reference capacity a call works with (lines 1999 and 2022). *)
Definition fouled_RefCap (env : Env) (sp : ChillerSpec) : Q :=
  if FaultyChillerFoulingFlag sp && faults_active env
  then RefCap sp * CalFoulingFactor env (FaultyChillerFoulingIndex sp)
  else RefCap sp.

(** The reference COP a call works with (lines 2002 and 2023), before the
    guard of line 2416. *)
Definition fouled_RefCOP (env : Env) (sp : ChillerSpec) : Q :=
  if FaultyChillerFoulingFlag sp && faults_active env
  then RefCOP sp * CalFoulingFactor env (FaultyChillerFoulingIndex sp)
  else RefCOP sp.

(** The condenser flow a running call works with (lines 2028-2036); the
    reset value 0 for a condenser that is not water cooled. *)
Definition cond_flow_granted (env : Env) (sp : ChillerSpec) : Q :=
  if (CondenserType sp =? WaterCooled)%Z
  then SetComponentFlowRate env CDLoop (CondMassFlowRateMax sp)
  else 0.

(** ** The paths of a running call

    [zero_outputs st]: the outputs that line 1950-1967 reset are still 0. *)
Definition zero_outputs (st : ChillerState) : Prop :=
  ChillerPartLoadRatio st = 0 /\ ChillerCyclingRatio st = 0
  /\ ChillerFalseLoadRate st = 0 /\ Power st = 0 /\ QCondenser st = 0
  /\ QEvaporator st = 0 /\ QHeatRecovery st = 0
  /\ ChillerEIRFT st = 0 /\ ChillerEIRFPLR st = 0.

(** [pre_state env sp T st]: [st] is the chiller record of a running call
    at line 2111, where the evaporator inlet flow has just been read. *)
Definition pre_state (env : Env) (sp : ChillerSpec) (T : Q) (st : ChillerState)
    : Prop :=
  zero_outputs st
  /\ ChillerCondAvgTemp st = T
  /\ CondMassFlowRate st = cond_flow_granted env sp
  /\ ((CondenserType sp =? WaterCooled)%Z = true ->
      MassFlowTolerance env <= cond_flow_granted env sp)
  /\ EvapMassFlowRate st = MassFlowRate (EvapInletNode env)
  /\ 0 <= ChillerCapFT st.

(** The ways a call with negative load and the run flag on can return
    [Ok], one constructor per exit (two for the end of the body, by flow
    lock). *)
Inductive CalcRun (env : Env) (sp : ChillerSpec) (T MyLoad : Q) : CalcOut -> Prop :=
  | RunNoCondFlow st1 :
      zero_outputs st1 ->
      EvapMassFlowRate st1 = 0 ->
      CondMassFlowRate st1 = cond_flow_granted env sp ->
      (CondenserType sp =? WaterCooled)%Z = true ->
      cond_flow_granted env sp < MassFlowTolerance env ->
      CalcRun env sp T MyLoad (mkCalcOut ExitNoCondFlow st1 [] MyLoad)
  | RunNoEvapFlow st1 :
      pre_state env sp T st1 ->
      MassFlowRate (EvapInletNode env) == 0 ->
      CalcRun env sp T MyLoad (mkCalcOut ExitNoEvapFlow st1 [] 0)
  | RunUnlocked st1 SetPoint PartLoadRat0 st2 PartLoadRat ds st3 ds' :
      let Cp := GetSpecificHeatGlycol env CWLoop (Temp (EvapInletNode env)) in
      let AvailChillerCap := fouled_RefCap env sp * ChillerCapFT st1 in
      let MyLoad' := water_side_load env Cp SetPoint MyLoad in
      pre_state env sp T st1 ->
      ~ MassFlowRate (EvapInletNode env) == 0 ->
      part_load_ratio sp AvailChillerCap (Qabs MyLoad') = Ok PartLoadRat0 ->
      FlowLock env = 0%Z ->
      calc_flow_unlocked env sp
        (set_ChillerPartLoadRatio PartLoadRat0
           (set_QEvaporator (AvailChillerCap * PartLoadRat0) st1))
        AvailChillerCap Cp PartLoadRat0 = Ok (st2, PartLoadRat, ds) ->
      calc_power_condenser env sp st2 AvailChillerCap (fouled_RefCOP env sp)
        PartLoadRat 1 (Temp (CondInletNode env)) = Ok (st3, ds') ->
      CalcRun env sp T MyLoad (mkCalcOut ExitEnd st3 (ds ++ ds') MyLoad')
  | RunLockedNoFlow st1 SetPoint PartLoadRat0 :
      let Cp := GetSpecificHeatGlycol env CWLoop (Temp (EvapInletNode env)) in
      let AvailChillerCap := fouled_RefCap env sp * ChillerCapFT st1 in
      let MyLoad' := water_side_load env Cp SetPoint MyLoad in
      let granted := SetComponentFlowRate env CWLoop (MassFlowRate (EvapInletNode env)) in
      pre_state env sp T st1 ->
      ~ MassFlowRate (EvapInletNode env) == 0 ->
      part_load_ratio sp AvailChillerCap (Qabs MyLoad') = Ok PartLoadRat0 ->
      FlowLock env <> 0%Z ->
      granted == 0 ->
      CalcRun env sp T MyLoad
        (mkCalcOut ExitNoEvapFlowLocked
           (set_EvapMassFlowRate granted
              (set_EvapMassFlowRate (MassFlowRate (EvapInletNode env))
                 (set_ChillerPartLoadRatio PartLoadRat0
                    (set_QEvaporator (AvailChillerCap * PartLoadRat0) st1))))
           [] 0)
  | RunLocked st1 SetPoint PartLoadRat0 st2 PartLoadRat FRAC st3 ds' :
      let Cp := GetSpecificHeatGlycol env CWLoop (Temp (EvapInletNode env)) in
      let AvailChillerCap := fouled_RefCap env sp * ChillerCapFT st1 in
      let MyLoad' := water_side_load env Cp SetPoint MyLoad in
      let granted := SetComponentFlowRate env CWLoop (MassFlowRate (EvapInletNode env)) in
      pre_state env sp T st1 ->
      ~ MassFlowRate (EvapInletNode env) == 0 ->
      part_load_ratio sp AvailChillerCap (Qabs MyLoad') = Ok PartLoadRat0 ->
      FlowLock env <> 0%Z ->
      ~ granted == 0 ->
      calc_flow_locked env sp
        (set_EvapMassFlowRate granted
           (set_EvapMassFlowRate (MassFlowRate (EvapInletNode env))
              (set_ChillerPartLoadRatio PartLoadRat0
                 (set_QEvaporator (AvailChillerCap * PartLoadRat0) st1))))
        SetPoint AvailChillerCap Cp MyLoad' 1 = Ok (st2, PartLoadRat, FRAC) ->
      calc_power_condenser env sp st2 AvailChillerCap (fouled_RefCOP env sp)
        PartLoadRat FRAC (Temp (CondInletNode env)) = Ok (st3, ds') ->
      CalcRun env sp T MyLoad (mkCalcOut ExitEnd st3 ds' MyLoad').

(** [validator_frame st st']: the two records agree on every field other
    than the three curve outputs and the nine counters that
    [CheckMinMaxCurveBoundaries] writes. *)
Definition validator_frame (st st' : ChillerState) : Prop :=
  ChillerPartLoadRatio st' = ChillerPartLoadRatio st
  /\ ChillerCyclingRatio st' = ChillerCyclingRatio st
  /\ ChillerFalseLoadRate st' = ChillerFalseLoadRate st
  /\ EvapMassFlowRate st' = EvapMassFlowRate st
  /\ CondMassFlowRate st' = CondMassFlowRate st
  /\ Power st' = Power st
  /\ QCondenser st' = QCondenser st
  /\ QEvaporator st' = QEvaporator st
  /\ QHeatRecovery st' = QHeatRecovery st
  /\ EvapOutletTemp st' = EvapOutletTemp st
  /\ CondOutletTemp st' = CondOutletTemp st
  /\ HeatRecOutletTemp st' = HeatRecOutletTemp st
  /\ ChillerCondAvgTemp st' = ChillerCondAvgTemp st
  /\ PossibleSubcooling st' = PossibleSubcooling st
  /\ FaultyChillerFoulingFactor st' = FaultyChillerFoulingFactor st
  /\ FaultyChillerSWTOffset st' = FaultyChillerSWTOffset st
  /\ DeltaTErrCount st' = DeltaTErrCount st
  /\ IterLimitExceededNum st' = IterLimitExceededNum st
  /\ IterFailed st' = IterFailed st.

(** [evap_balance env Cp st]: the evaporator heat flow in the record is the
    heat that the evaporator flow gives up between the inlet temperature
    and the outlet temperature of the record. *)
Definition evap_balance (env : Env) (Cp : Q) (st : ChillerState) : Prop :=
  QEvaporator st
  == EvapMassFlowRate st * Cp * (Temp (EvapInletNode env) - EvapOutletTemp st).

(** ** GetElecReformEIRChillerInput: the rated performance data
    (lines 396-474) *)

Module Input.

(** The fields of the chiller record that lines 396-474 write. *)
Record Rated : Type := mkRated {
  RefCap : Q;
  RefCapWasAutoSized : bool;
  RefCOP : Q;
  TempRefEvapOut : Q;
  TempRefCondOut : Q;
  EvapVolFlowRate : Q;
  EvapVolFlowRateWasAutoSized : bool;
  CondVolFlowRate : Q;
  CondVolFlowRateWasAutoSized : bool;
  MinPartLoadRat : Q;
  MaxPartLoadRat : Q;
  OptPartLoadRat : Q;
  MinUnloadRat : Q;
  SizFac : Q;
  CompPowerToCondenserFrac : Q
}.

(** The input errors of lines 396-474: each stands for one
    [ShowSevereError] and the [ShowContinueError] lines that follow it. *)
Inductive Error : Type :=
  | InvalidRefCap            (* line 402 *)
  | InvalidRefCOP            (* line 409 *)
  | RefTempsOutOfOrder       (* line 417 *)
  | PartLoadRatsOutOfOrder   (* line 440 *)
  | MinUnloadRatOutOfRange   (* line 449 *)
  | OptPartLoadRatOutOfRange (* line 458 *)
  | CondenserFracOutOfRange. (* line 469 *)

End Input.

(** [rNumericArgs(i)], indexed from 1; a field left blank reads 0. *)
Definition rNumericArgs_at (rNumericArgs : list Q) (i : nat) : Q :=
  nth (i - 1) rNumericArgs 0.

(** Lines 396-474.  [AutoSize] is [DataSizing::AutoSize]; [r] is the chiller
    record before, [ErrorsFound] the flag before.  The result is the
    record, the flag and the errors reported. *)
Definition GetRatedPerformanceData (AutoSize : Q) (rNumericArgs : list Q)
    (r : Input.Rated) (ErrorsFound : bool)
    : Input.Rated * bool * list Input.Error :=
  let arg := rNumericArgs_at rNumericArgs in
  (* Chiller rated performance data *)
  let RefCap := arg 1%nat in
  let RefCapWasAutoSized :=
    if Real64.eqb RefCap AutoSize then true else Input.RefCapWasAutoSized r in
  let '(ErrorsFound, e1) :=
    if Real64.eqb (arg 1%nat) 0 then (true, [Input.InvalidRefCap])
    else (ErrorsFound, []) in
  let RefCOP := arg 2%nat in
  let '(ErrorsFound, e2) :=
    if Real64.eqb (arg 2%nat) 0 then (true, [Input.InvalidRefCOP])
    else (ErrorsFound, []) in
  let TempRefEvapOut := arg 3%nat in
  let TempRefCondOut := arg 4%nat in
  let '(ErrorsFound, e3) :=
    if Real64.geb TempRefEvapOut TempRefCondOut
    then (true, [Input.RefTempsOutOfOrder])
    else (ErrorsFound, []) in
  let EvapVolFlowRate := arg 5%nat in
  let EvapVolFlowRateWasAutoSized :=
    if Real64.eqb EvapVolFlowRate AutoSize then true
    else Input.EvapVolFlowRateWasAutoSized r in
  let CondVolFlowRate := arg 6%nat in
  let CondVolFlowRateWasAutoSized :=
    if Real64.eqb CondVolFlowRate AutoSize then true
    else Input.CondVolFlowRateWasAutoSized r in
  let MinPartLoadRat := arg 7%nat in
  let MaxPartLoadRat := arg 8%nat in
  let OptPartLoadRat := arg 9%nat in
  let MinUnloadRat := arg 10%nat in
  let SizFac := arg 14%nat in
  let SizFac := if Real64.leb SizFac 0 then 1 else SizFac in
  let '(ErrorsFound, e4) :=
    if Real64.gtb MinPartLoadRat MaxPartLoadRat
    then (true, [Input.PartLoadRatsOutOfOrder])
    else (ErrorsFound, []) in
  let '(ErrorsFound, e5) :=
    if Real64.ltb MinUnloadRat MinPartLoadRat
       || Real64.gtb MinUnloadRat MaxPartLoadRat
    then (true, [Input.MinUnloadRatOutOfRange])
    else (ErrorsFound, []) in
  let '(ErrorsFound, e6) :=
    if Real64.ltb OptPartLoadRat MinPartLoadRat
       || Real64.gtb OptPartLoadRat MaxPartLoadRat
    then (true, [Input.OptPartLoadRatOutOfRange])
    else (ErrorsFound, []) in
  let CompPowerToCondenserFrac := arg 11%nat in
  let '(ErrorsFound, e7) :=
    if Real64.ltb CompPowerToCondenserFrac 0
       || Real64.gtb CompPowerToCondenserFrac 1
    then (true, [Input.CondenserFracOutOfRange])
    else (ErrorsFound, []) in
  (Input.mkRated RefCap RefCapWasAutoSized RefCOP TempRefEvapOut TempRefCondOut
     EvapVolFlowRate EvapVolFlowRateWasAutoSized CondVolFlowRate
     CondVolFlowRateWasAutoSized MinPartLoadRat MaxPartLoadRat OptPartLoadRat
     MinUnloadRat SizFac CompPowerToCondenserFrac,
   ErrorsFound, e1 ++ e2 ++ e3 ++ e4 ++ e5 ++ e6 ++ e7).

(** ** SimReformulatedEIRChiller: the capacities handed to the plant
    (lines 199-208)

    The result is [MinCap], [MaxCap] and [OptCap]; [r] is the chiller
    record after sizing. *)
Definition InitLoopEquipCapacities (LoopNum CWLoopNum : Z) (r : Input.Rated)
    : Q * Q * Q :=
  if (LoopNum =? CWLoopNum)%Z then
    (Input.RefCap r * Input.MinPartLoadRat r,
     Input.RefCap r * Input.MaxPartLoadRat r,
     Input.RefCap r * Input.OptPartLoadRat r)
  else (0, 0, 0).

(** ** UpdateReformEIRChillerRecords (lines 1814-1885) *)

(** The plant nodes by node number; an assignment to the temperature of
    one node. *)
Definition Nodes : Type := Z -> NodeData.

Definition set_NodeTemp (k : Z) (t : Q) (Node : Nodes) : Nodes :=
  fun j =>
    if (j =? k)%Z then
      mkNode t (TempMin (Node k)) (TempSetPoint (Node k)) (TempSetPointHi (Node k))
        (MassFlowRate (Node k)) (MassFlowRateMaxAvail (Node k))
    else Node j.

(** The node numbers of the chiller record. *)
Record ChillerNodes : Type := mkChillerNodes {
  EvapInletNodeNum : Z;
  EvapOutletNodeNum : Z;
  CondInletNodeNum : Z;
  CondOutletNodeNum : Z;
  HeatRecInletNodeNum : Z;
  HeatRecOutletNodeNum : Z
}.

(** The report variables of the chiller record that only this routine
    writes. *)
Record ReportVars : Type := mkReport {
  ChillerFalseLoad : Q;
  Energy : Q;
  EvapEnergy : Q;
  CondEnergy : Q;
  EvapInletTemp : Q;
  CondInletTemp : Q;
  ActualCOP : Q;
  EnergyHeatRecovery : Q;
  HeatRecInletTemp : Q;
  HeatRecMassFlow : Q
}.

Definition set_ChillerFalseLoad (v : Q) (r : ReportVars) : ReportVars :=
  mkReport v (Energy r) (EvapEnergy r) (CondEnergy r) (EvapInletTemp r) (CondInletTemp r) (ActualCOP r) (EnergyHeatRecovery r) (HeatRecInletTemp r) (HeatRecMassFlow r).

Definition set_Energy (v : Q) (r : ReportVars) : ReportVars :=
  mkReport (ChillerFalseLoad r) v (EvapEnergy r) (CondEnergy r) (EvapInletTemp r) (CondInletTemp r) (ActualCOP r) (EnergyHeatRecovery r) (HeatRecInletTemp r) (HeatRecMassFlow r).

Definition set_EvapEnergy (v : Q) (r : ReportVars) : ReportVars :=
  mkReport (ChillerFalseLoad r) (Energy r) v (CondEnergy r) (EvapInletTemp r) (CondInletTemp r) (ActualCOP r) (EnergyHeatRecovery r) (HeatRecInletTemp r) (HeatRecMassFlow r).

Definition set_CondEnergy (v : Q) (r : ReportVars) : ReportVars :=
  mkReport (ChillerFalseLoad r) (Energy r) (EvapEnergy r) v (EvapInletTemp r) (CondInletTemp r) (ActualCOP r) (EnergyHeatRecovery r) (HeatRecInletTemp r) (HeatRecMassFlow r).

Definition set_EvapInletTemp (v : Q) (r : ReportVars) : ReportVars :=
  mkReport (ChillerFalseLoad r) (Energy r) (EvapEnergy r) (CondEnergy r) v (CondInletTemp r) (ActualCOP r) (EnergyHeatRecovery r) (HeatRecInletTemp r) (HeatRecMassFlow r).

Definition set_CondInletTemp (v : Q) (r : ReportVars) : ReportVars :=
  mkReport (ChillerFalseLoad r) (Energy r) (EvapEnergy r) (CondEnergy r) (EvapInletTemp r) v (ActualCOP r) (EnergyHeatRecovery r) (HeatRecInletTemp r) (HeatRecMassFlow r).

Definition set_ActualCOP (v : Q) (r : ReportVars) : ReportVars :=
  mkReport (ChillerFalseLoad r) (Energy r) (EvapEnergy r) (CondEnergy r) (EvapInletTemp r) (CondInletTemp r) v (EnergyHeatRecovery r) (HeatRecInletTemp r) (HeatRecMassFlow r).

Definition set_EnergyHeatRecovery (v : Q) (r : ReportVars) : ReportVars :=
  mkReport (ChillerFalseLoad r) (Energy r) (EvapEnergy r) (CondEnergy r) (EvapInletTemp r) (CondInletTemp r) (ActualCOP r) v (HeatRecInletTemp r) (HeatRecMassFlow r).

Definition set_HeatRecInletTemp (v : Q) (r : ReportVars) : ReportVars :=
  mkReport (ChillerFalseLoad r) (Energy r) (EvapEnergy r) (CondEnergy r) (EvapInletTemp r) (CondInletTemp r) (ActualCOP r) (EnergyHeatRecovery r) v (HeatRecMassFlow r).

Definition set_HeatRecMassFlow (v : Q) (r : ReportVars) : ReportVars :=
  mkReport (ChillerFalseLoad r) (Energy r) (EvapEnergy r) (CondEnergy r) (EvapInletTemp r) (CondInletTemp r) (ActualCOP r) (EnergyHeatRecovery r) (HeatRecInletTemp r) v.

(** What the routine reads from the rest of the program: the length of the
    system time step in hours, the seconds in an hour, and the plant
    utility that copies the state of an inlet node to an outlet node. *)
Record UpdateEnv : Type := mkUpdateEnv {
  TimeStepSys : Q;
  SecInHour : Q;
  SafeCopyPlantNode : Z -> Z -> Nodes -> Nodes
}.

(** The result is the chiller record, its report variables and the plant
    nodes. *)
Definition UpdateReformEIRChillerRecords (u : UpdateEnv) (nn : ChillerNodes)
    (sp : ChillerSpec) (Node : Nodes) (st : ChillerState) (rp : ReportVars)
    (MyLoad : Q) (RunFlag : bool) : Res (ChillerState * ReportVars * Nodes) :=
  if Real64.geb MyLoad 0 || negb RunFlag then
    (* Chiller not running so pass inlet states to outlet states *)
    (* Set node temperatures *)
    let Node := set_NodeTemp (EvapOutletNodeNum nn)
                  (Temp (Node (EvapInletNodeNum nn))) Node in
    let Node := set_NodeTemp (CondOutletNodeNum nn)
                  (Temp (Node (CondInletNodeNum nn))) Node in
    let st := set_ChillerPartLoadRatio 0 st in
    let st := set_ChillerCyclingRatio 0 st in
    let st := set_ChillerFalseLoadRate 0 st in
    let rp := set_ChillerFalseLoad 0 rp in
    let st := set_Power 0 st in
    let st := set_QEvaporator 0 st in
    let st := set_QCondenser 0 st in
    let rp := set_Energy 0 rp in
    let rp := set_EvapEnergy 0 rp in
    let rp := set_CondEnergy 0 rp in
    let rp := set_EvapInletTemp (Temp (Node (EvapInletNodeNum nn))) rp in
    let rp := set_CondInletTemp (Temp (Node (CondInletNodeNum nn))) rp in
    let st := set_CondOutletTemp (Temp (Node (CondOutletNodeNum nn))) st in
    let st := set_EvapOutletTemp (Temp (Node (EvapOutletNodeNum nn))) st in
    let rp := set_ActualCOP 0 rp in
    if HeatRecActive sp then
      let Node := SafeCopyPlantNode u (HeatRecInletNodeNum nn)
                    (HeatRecOutletNodeNum nn) Node in
      let st := set_QHeatRecovery 0 st in
      let rp := set_EnergyHeatRecovery 0 rp in
      let rp := set_HeatRecInletTemp (Temp (Node (HeatRecInletNodeNum nn))) rp in
      let st := set_HeatRecOutletTemp (Temp (Node (HeatRecOutletNodeNum nn))) st in
      let rp := set_HeatRecMassFlow
                  (MassFlowRate (Node (HeatRecInletNodeNum nn))) rp in
      Ok (st, rp, Node)
    else Ok (st, rp, Node)
  else
    (* Chiller is running, so pass calculated values *)
    (* Set node temperatures *)
    let Node := set_NodeTemp (EvapOutletNodeNum nn) (EvapOutletTemp st) Node in
    let Node := set_NodeTemp (CondOutletNodeNum nn) (CondOutletTemp st) Node in
    (* Set node flow rates;  for these load based models
       assume that sufficient evaporator flow rate is available *)
    let rp := set_ChillerFalseLoad
                (ChillerFalseLoadRate st * TimeStepSys u * SecInHour u) rp in
    let rp := set_Energy (Power st * TimeStepSys u * SecInHour u) rp in
    let rp := set_EvapEnergy (QEvaporator st * TimeStepSys u * SecInHour u) rp in
    let rp := set_CondEnergy (QCondenser st * TimeStepSys u * SecInHour u) rp in
    let rp := set_EvapInletTemp (Temp (Node (EvapInletNodeNum nn))) rp in
    let rp := set_CondInletTemp (Temp (Node (CondInletNodeNum nn))) rp in
    rp <-
      (if Real64.neb (Power st) 0 then
         q <- div (QEvaporator st + ChillerFalseLoadRate st) (Power st) ;;
         Ok (set_ActualCOP q rp)
       else Ok (set_ActualCOP 0 rp)) ;;
    if HeatRecActive sp then
      let Node := SafeCopyPlantNode u (HeatRecInletNodeNum nn)
                    (HeatRecOutletNodeNum nn) Node in
      let rp := set_EnergyHeatRecovery
                  (QHeatRecovery st * TimeStepSys u * SecInHour u) rp in
      let Node := set_NodeTemp (HeatRecOutletNodeNum nn) (HeatRecOutletTemp st) Node in
      let rp := set_HeatRecInletTemp (Temp (Node (HeatRecInletNodeNum nn))) rp in
      let st := set_HeatRecOutletTemp (Temp (Node (HeatRecOutletNodeNum nn))) st in
      let rp := set_HeatRecMassFlow
                  (MassFlowRate (Node (HeatRecInletNodeNum nn))) rp in
      Ok (st, rp, Node)
    else Ok (st, rp, Node).

(** ** SimReformulatedEIRChiller: the chilled-water-loop branch
    (lines 217-218)

    The solver, then the report update with the load and the record that
    the solver left.  [InitElecReformEIRChiller] (line 216) has run: [env],
    [sp] and [st] are the plant data and the chiller record as it left
    them. *)
Definition SimChilledWaterLoop (env : Env) (u : UpdateEnv) (nn : ChillerNodes)
    (sp : ChillerSpec) (EIRChillNum : Z) (Node : Nodes) (st : ChillerState)
    (rp : ReportVars) (MyLoad : Q) (RunFlag FirstIteration : bool)
    (EquipFlowCtrl : Z) : Res (SolverOut * (ChillerState * ReportVars * Nodes)) :=
  r <- ControlReformEIRChillerModel env sp EIRChillNum st MyLoad RunFlag
         FirstIteration EquipFlowCtrl ;;
  x <- UpdateReformEIRChillerRecords u nn sp Node (final_state r) rp
         (final_load r) RunFlag ;;
  Ok (r, x).

(** ** A test bench for the report update

    Node 1 and 2 are the evaporator inlet and outlet, 3 and 4 the condenser
    inlet and outlet, 5 and 6 the heat-recovery inlet and outlet; the time
    step is a quarter of an hour. *)

Module UpdateBench.

Definition nn : ChillerNodes := mkChillerNodes 1 2 3 4 5 6.

Definition Node : Nodes :=
  fun k =>
    if (k =? 1)%Z then mkNode 12 0 (-(999)) (-(999)) 20 20
    else if (k =? 2)%Z then mkNode 6.67 0 6.67 6.67 20 20
    else if (k =? 3)%Z then mkNode 29.4 0 (-(999)) (-(999)) 25 25
    else if (k =? 4)%Z then mkNode 35 0 (-(999)) (-(999)) 25 25
    else mkNode 20 0 (-(999)) (-(999)) 0 0.

Definition copy_node (i o : Z) (N : Nodes) : Nodes :=
  fun j => if (j =? o)%Z then N i else N j.

Definition u : UpdateEnv := mkUpdateEnv 0.25 3600 copy_node.

Definition rp0 : ReportVars := mkReport 0 0 0 0 0 0 0 0 0 0.

(** A chiller record as a running call may leave it: 300 kW of cooling for
    60 kW of power. *)
Definition st_run : ChillerState :=
  set_Power 60000
    (set_QEvaporator 300000
       (set_QCondenser 360000
          (set_EvapOutletTemp 6.67 (set_CondOutletTemp 33 Bench.st0)))).

(** The plant of [Bench.env] with the evaporator inlet flow at zero. *)
Definition env_no_evap_flow : Env :=
  let e := Bench.env 1 1 25 0 in
  mkEnv (mkNode 12 0 (-(999)) (-(999)) 0 0) (EvapOutletNode e) (CondInletNode e)
    (HeatRecInletNode e) (HeatRecSetPointNode e) (LoopTempSetPointNode e)
    (SensedNodeFlagValue e) (LoopDemandCalcScheme e) (FlowLock e)
    (CurOpSchemeType e) (CompSetPtBasedSchemeType e) (CondCompFlowCtrl e)
    (DeltaTempTol e) (ControlType_SeriesActive e) (MassFlowTolerance e)
    (SmallLoad e) (WarmupFlag e) (DoingSizing e) (KickOffSimulation e)
    (CurveValue e) (CurveValue3 e) (GetSpecificHeatGlycol e)
    (SetComponentFlowRate e) (CalFoulingFactor e) (CalFaultOffsetAct e)
    (CalFaultChillerSWT e) (GetCurrentScheduleValue e) (SolveRoot e).

End UpdateBench.

(** ** A test bench for the input checks: the numeric fields of the chiller
    of [Bench.spec], and a chiller record with nothing set. *)

Module InputBench.

Definition AutoSize : Q := -(99999).

Definition rNumericArgs : list Q :=
  [500000; 5.5; 6.67; 35; 0.02; 0.03; 0.1; 1; 1; 0.2; 1; 2; 0; 1].

Definition r0 : Input.Rated :=
  Input.mkRated 0 false 0 0 0 0 false 0 false 0 0 0 0 0 0.

End InputBench.

(** [frame_counters st st']: the two records agree on the counters of the
    solver and on the counters of the boundary validator other than
    [ChillerCapFTError]. *)
Definition frame_counters (st st' : ChillerState) : Prop :=
  IterLimitExceededNum st' = IterLimitExceededNum st
  /\ IterFailed st' = IterFailed st
  /\ CAPFTXIter st' = CAPFTXIter st
  /\ EIRFTXIter st' = EIRFTXIter st
  /\ CAPFTYIter st' = CAPFTYIter st
  /\ EIRFTYIter st' = EIRFTYIter st
  /\ EIRFPLRTIter st' = EIRFPLRTIter st
  /\ EIRFPLRPLRIter st' = EIRFPLRPLRIter st
  /\ ChillerEIRFTError st' = ChillerEIRFTError st
  /\ ChillerEIRFPLRError st' = ChillerEIRFPLRError st.

(** The set point of the evaporator outlet node that the
    LeavingSetpointModulated flow mode works with (lines 2195-2203). *)
Definition outlet_node_setpoint (env : Env) : Q :=
  match LoopDemandCalcScheme env CWLoop with
  | SingleSetPoint => TempSetPoint (EvapOutletNode env)
  | DualSetPointDeadBand => TempSetPointHi (EvapOutletNode env)
  end.

(** ** A test bench for the delta-T edge: the plant of [Bench.env] with the
    flow not locked and the evaporator inlet at the set point, 6.67 C. *)

Module EdgeBench.

Definition env_no_delta : Env :=
  let e := Bench.env 0 1 25 0 in
  mkEnv (mkNode 6.67 0 (-(999)) (-(999)) 20 20) (EvapOutletNode e) (CondInletNode e)
    (HeatRecInletNode e) (HeatRecSetPointNode e) (LoopTempSetPointNode e)
    (SensedNodeFlagValue e) (LoopDemandCalcScheme e) (FlowLock e)
    (CurOpSchemeType e) (CompSetPtBasedSchemeType e) (CondCompFlowCtrl e)
    (DeltaTempTol e) (ControlType_SeriesActive e) (MassFlowTolerance e)
    (SmallLoad e) (WarmupFlag e) (DoingSizing e) (KickOffSimulation e)
    (CurveValue e) (CurveValue3 e) (GetSpecificHeatGlycol e)
    (SetComponentFlowRate e) (CalFoulingFactor e) (CalFaultOffsetAct e)
    (CalFaultChillerSWT e) (GetCurrentScheduleValue e) (SolveRoot e).

End EdgeBench.

(** [same_counters st st']: the two records agree on every counter. *)
Definition same_counters (st st' : ChillerState) : Prop :=
  frame_counters st st'
  /\ DeltaTErrCount st' = DeltaTErrCount st
  /\ ChillerCapFTError st' = ChillerCapFTError st.

(** The evaporator outlet set point that a running call works with: the
    set point of lines 2050-2074, moved by the sensor fault model of lines
    2076-2088 when that is active. *)
Definition working_setpoint (env : Env) (sp : ChillerSpec) : Q :=
  if FaultyChillerSWTFlag sp && faults_active env then
    Real64.max (TempLowLimitEvapOut sp)
      (Real64.min (Temp (EvapInletNode env))
         (outlet_setpoint env sp - CalFaultOffsetAct env (FaultyChillerSWTIndex sp)))
  else outlet_setpoint env sp.

(** [counted violation n n']: the counter of a check goes from [n] to
    [++n] when the check is violated and keeps its value when it is not. *)
Definition counted (violation : Prop) (n n' : Z) : Prop :=
  (violation -> n' = int_succ n) /\ (~ violation -> n' = n).

(** [counter_step n n']: a counter keeps its value or is incremented
    once. *)
Definition counter_step (n n' : Z) : Prop := n' = n \/ n' = int_succ n.

(** The counters of the boundary validator. *)
Definition validator_counter_fields : list (ChillerState -> Z) :=
  [CAPFTXIter; EIRFTXIter; CAPFTYIter; EIRFTYIter; EIRFPLRTIter; EIRFPLRPLRIter;
   ChillerCapFTError; ChillerEIRFTError; ChillerEIRFPLRError].

(** [out_of_range v lo hi]: the test of lines 2471, 2494, 2538, 2560, 2583
    and 2628, [v < lo || v > hi]. *)
Definition out_of_range (v lo hi : Q) : Prop := v < lo \/ hi < v.

(** A bench for the flags of the root finder.  [General::SolveRoot] lives
    outside ChillerReformulatedEIR.cc and is a field of [Env]; [stop_with
    flag] stands for a run of it that evaluates the residual at the two end
    points and ends with [flag]. *)
Module SolverBench.

Definition stop_with (flag : Z) (S : Type) (Acc : Q) (MaxIter : Z)
    (f : Q -> S -> Res (Q * S)) (X_0 X_1 : Q) (s : S) : Res (Z * Q * S) :=
  '(Y0, s) <- f X_0 s ;;
  '(Y1, s) <- f X_1 s ;;
  Ok (flag, X_0, s).

(** The flow-locked bench with that root finder. *)
Definition env (flag : Z) : Env :=
  let e := Bench.env 1 1 25 0 in
  mkEnv (EvapInletNode e) (EvapOutletNode e) (CondInletNode e)
    (HeatRecInletNode e) (HeatRecSetPointNode e) (LoopTempSetPointNode e)
    (SensedNodeFlagValue e) (LoopDemandCalcScheme e) (FlowLock e)
    (CurOpSchemeType e) (CompSetPtBasedSchemeType e) (CondCompFlowCtrl e)
    (DeltaTempTol e) (ControlType_SeriesActive e) (MassFlowTolerance e)
    (SmallLoad e) (WarmupFlag e) (DoingSizing e) (KickOffSimulation e)
    (CurveValue e) (CurveValue3 e) (GetSpecificHeatGlycol e)
    (SetComponentFlowRate e) (CalFoulingFactor e) (CalFaultOffsetAct e)
    (CalFaultChillerSWT e) (GetCurrentScheduleValue e) (stop_with flag).

End SolverBench.

(** * Properties *)

(** ** Reflection of the Real64 tests *)

Module Real64Facts.

Import Real64.

Lemma ltb_true a b : ltb a b = true <-> a < b.
Proof.
  unfold ltb. rewrite negb_true_iff, <- not_true_iff_false, Qle_bool_iff.
  split; [apply Qnot_le_lt | apply Qlt_not_le].
Qed.

Lemma ltb_false a b : ltb a b = false <-> b <= a.
Proof. unfold ltb. rewrite negb_false_iff. apply Qle_bool_iff. Qed.

Lemma gtb_true a b : gtb a b = true <-> b < a.
Proof. apply ltb_true. Qed.

Lemma gtb_false a b : gtb a b = false <-> a <= b.
Proof. apply ltb_false. Qed.

Lemma leb_true a b : leb a b = true <-> a <= b.
Proof. apply Qle_bool_iff. Qed.

Lemma leb_false a b : leb a b = false <-> b < a.
Proof.
  unfold leb. rewrite <- not_true_iff_false, Qle_bool_iff.
  split; [apply Qnot_le_lt | apply Qlt_not_le].
Qed.

Lemma geb_true a b : geb a b = true <-> b <= a.
Proof. apply Qle_bool_iff. Qed.

Lemma geb_false a b : geb a b = false <-> a < b.
Proof. apply leb_false. Qed.

Lemma eqb_true a b : eqb a b = true <-> a == b.
Proof. apply Qeq_bool_iff. Qed.

Lemma eqb_false a b : eqb a b = false <-> ~ a == b.
Proof.
  unfold eqb. rewrite <- not_true_iff_false, Qeq_bool_iff. tauto.
Qed.

Lemma neb_true a b : neb a b = true <-> ~ a == b.
Proof. unfold neb. rewrite negb_true_iff. apply eqb_false. Qed.

Lemma neb_false a b : neb a b = false <-> a == b.
Proof. unfold neb. rewrite negb_false_iff. apply eqb_true. Qed.

Lemma max_lb_l a b : a <= max a b.
Proof.
  unfold max. destruct (ltb a b) eqn:E; [apply ltb_true in E | ]; lra.
Qed.

Lemma max_lb_r a b : b <= max a b.
Proof.
  unfold max. destruct (ltb a b) eqn:E; [ | apply ltb_false in E ]; lra.
Qed.

Lemma min_ub_l a b : min a b <= a.
Proof.
  unfold min. destruct (ltb b a) eqn:E; [apply ltb_true in E | ]; lra.
Qed.

Lemma min_ub_r a b : min a b <= b.
Proof.
  unfold min. destruct (ltb b a) eqn:E; [ | apply ltb_false in E ]; lra.
Qed.

Lemma min_glb a b c : c <= a -> c <= b -> c <= min a b.
Proof. unfold min. destruct (ltb b a); auto. Qed.

End Real64Facts.

(** Turns the boolean tests of the embedding found in the context into
    order facts on [Q]. *)
Ltac reflect_tests :=
  repeat match goal with
    | H : Real64.ltb _ _ = true |- _ => apply Real64Facts.ltb_true in H
    | H : Real64.ltb _ _ = false |- _ => apply Real64Facts.ltb_false in H
    | H : Real64.gtb _ _ = true |- _ => apply Real64Facts.gtb_true in H
    | H : Real64.gtb _ _ = false |- _ => apply Real64Facts.gtb_false in H
    | H : Real64.leb _ _ = true |- _ => apply Real64Facts.leb_true in H
    | H : Real64.leb _ _ = false |- _ => apply Real64Facts.leb_false in H
    | H : Real64.geb _ _ = true |- _ => apply Real64Facts.geb_true in H
    | H : Real64.geb _ _ = false |- _ => apply Real64Facts.geb_false in H
    | H : Real64.eqb _ _ = true |- _ => apply Real64Facts.eqb_true in H
    | H : Real64.eqb _ _ = false |- _ => apply Real64Facts.eqb_false in H
    | H : Real64.neb _ _ = true |- _ => apply Real64Facts.neb_true in H
    | H : Real64.neb _ _ = false |- _ => apply Real64Facts.neb_false in H
    end.

(** ** The result monad *)

Lemma div_ok (a b : Q) : ~ b == 0 -> div a b = Ok (a / b).
Proof.
  intros Hb. unfold div. destruct (Real64.eqb b 0) eqn:E; [ | reflexivity].
  apply Real64Facts.eqb_true in E. contradiction.
Qed.

Lemma div_inv (a b q : Q) : div a b = Ok q -> ~ b == 0 /\ q = a / b.
Proof.
  unfold div. destruct (Real64.eqb b 0) eqn:E; [discriminate | ].
  apply Real64Facts.eqb_false in E. intros H. injection H as <-. auto.
Qed.

Lemma bind_inv {A B : Type} (r : Res A) (k : A -> Res B) (b : B) :
  bind r k = Ok b -> exists a, r = Ok a /\ k a = Ok b.
Proof. destruct r as [a | ]; simpl; [eauto | discriminate]. Qed.

(** Turns an equation [bind r k = Ok b] into its two halves. *)
Ltac bind_split H x Hx :=
  apply bind_inv in H; destruct H as (x & Hx & H).

(** Takes apart every hypothesis that says a routine returned [Ok]: binds
    are split, tests and pairs are destructed, failed branches closed. *)
Ltac run_all :=
  repeat match goal with
    | H : DivideByZero = Ok _ |- _ => discriminate H
    | H : Ok _ = Ok _ |- _ => injection H; clear H; intros; subst
    | H : bind _ _ = Ok _ |- _ =>
        let x := fresh "r" in let Hx := fresh "Hr" in
        apply bind_inv in H; destruct H as (x & Hx & H)
    | H : context [match ?x with (_, _) => _ end] |- _ => destruct x eqn:?
    | H : (_, _) = (_, _) |- _ => injection H; clear H; intros; subst
    | H : (if ?b then _ else _) = _ |- _ => destruct b eqn:?
    | H : match ?x with SingleSetPoint => _ | DualSetPointDeadBand => _ end = Ok _
      |- _ => destruct x eqn:?
    end.

(** Reduces the field reads of a record built by assignments. *)
Ltac fields :=
  cbn [ChillerPartLoadRatio ChillerCyclingRatio ChillerFalseLoadRate EvapMassFlowRate CondMassFlowRate
       Power QCondenser QEvaporator QHeatRecovery ChillerCapFT
       ChillerEIRFT ChillerEIRFPLR EvapOutletTemp CondOutletTemp HeatRecOutletTemp
       ChillerCondAvgTemp PossibleSubcooling FaultyChillerFoulingFactor FaultyChillerSWTOffset DeltaTErrCount
       ChillerCapFTError ChillerEIRFTError ChillerEIRFPLRError IterLimitExceededNum IterFailed
       CAPFTXIter EIRFTXIter CAPFTYIter EIRFTYIter EIRFPLRTIter
       EIRFPLRPLRIter
       set_ChillerPartLoadRatio set_ChillerCyclingRatio set_ChillerFalseLoadRate
       set_EvapMassFlowRate set_CondMassFlowRate set_Power
       set_QCondenser set_QEvaporator set_QHeatRecovery
       set_ChillerCapFT set_ChillerEIRFT set_ChillerEIRFPLR
       set_EvapOutletTemp set_CondOutletTemp set_HeatRecOutletTemp
       set_ChillerCondAvgTemp set_PossibleSubcooling set_FaultyChillerFoulingFactor
       set_FaultyChillerSWTOffset set_DeltaTErrCount set_ChillerCapFTError
       set_ChillerEIRFTError set_ChillerEIRFPLRError set_IterLimitExceededNum
       set_IterFailed set_CAPFTXIter set_EIRFTXIter
       set_CAPFTYIter set_EIRFTYIter set_EIRFPLRTIter
       set_EIRFPLRPLRIter
       exit state diags load fst snd] in *.

(** ** The idle path (claim C5) *)

Lemma calc_idle_outputs env sp ctrl st :
  Power (calc_idle env sp ctrl st) = Power st
  /\ QEvaporator (calc_idle env sp ctrl st) = QEvaporator st
  /\ QCondenser (calc_idle env sp ctrl st) = QCondenser st
  /\ ChillerPartLoadRatio (calc_idle env sp ctrl st) = ChillerPartLoadRatio st.
Proof.
  unfold calc_idle.
  destruct (_ || _); destruct (_ =? _)%Z; try destruct (_ =? _)%Z;
    repeat split; reflexivity.
Qed.

Lemma idle_test_true MyLoad RunFlag :
  0 <= MyLoad \/ RunFlag = false ->
  Real64.geb MyLoad 0 || negb RunFlag = true.
Proof.
  intros [H | ->].
  - apply Real64Facts.geb_true in H. rewrite H. reflexivity.
  - apply orb_true_r.
Qed.

Lemma calc_idle_path env sp st MyLoad RunFlag FirstIteration EquipFlowCtrl T :
  0 <= MyLoad \/ RunFlag = false ->
  CalcReformEIRChillerModel env sp st MyLoad RunFlag FirstIteration EquipFlowCtrl T
  = Ok (mkCalcOut ExitIdle (calc_idle env sp EquipFlowCtrl (calc_reset st)) [] MyLoad).
Proof.
  intros H. unfold CalcReformEIRChillerModel.
  rewrite (idle_test_true _ _ H). reflexivity.
Qed.

(** C5. A call with load >= 0 or with the run flag off leaves power,
    evaporator heat flow, condenser heat flow and part-load ratio at
    exactly 0 in the chiller record: for the single-point evaluator, which
    leaves by its idle return, and for the solver, which makes that one
    call and nothing else. *)
Theorem idle_call_outputs_zero env sp num st MyLoad RunFlag FirstIteration EquipFlowCtrl T :
  0 <= MyLoad \/ RunFlag = false ->
  (exists o,
      CalcReformEIRChillerModel env sp st MyLoad RunFlag FirstIteration EquipFlowCtrl T
      = Ok o
      /\ exit o = ExitIdle
      /\ Power (state o) = 0 /\ QEvaporator (state o) = 0
      /\ QCondenser (state o) = 0 /\ ChillerPartLoadRatio (state o) = 0)
  /\ (exists r,
      ControlReformEIRChillerModel env sp num st MyLoad RunFlag FirstIteration
        EquipFlowCtrl = Ok r
      /\ steps r = [StepCalc (Temp (CondInletNode env))]
      /\ Power (final_state r) = 0 /\ QEvaporator (final_state r) = 0
      /\ QCondenser (final_state r) = 0 /\ ChillerPartLoadRatio (final_state r) = 0).
Proof.
  intros H.
  destruct (calc_idle_outputs env sp EquipFlowCtrl (calc_reset st))
    as (HP & HE & HC & HR).
  split.
  - eexists. split; [apply calc_idle_path, H | ].
    cbn [exit state]. rewrite HP, HE, HC, HR. repeat split; reflexivity.
  - unfold ControlReformEIRChillerModel.
    rewrite (idle_test_true _ _ H), (calc_idle_path _ _ _ _ _ _ _ _ H).
    cbn [bind state diags load]. eexists. split; [reflexivity | ].
    cbn [steps final_state]. rewrite HP, HE, HC, HR. repeat split; reflexivity.
Qed.

(** ** The heat-recovery split (claim C8) *)


Lemma init_limit_value sp0 sp :
  InitHeatRecMaxCapacityLimit sp0 = Ok sp ->
  HeatRecMaxCapacityLimit sp
  = HeatRecCapacityFraction sp0 * (RefCap sp0 + RefCap sp0 / RefCOP sp0).
Proof.
  unfold InitHeatRecMaxCapacityLimit. intros H.
  bind_split H q Hq. apply div_inv in Hq. destruct Hq as (_ & ->).
  injection H as <-. reflexivity.
Qed.

(** The recovered heat is the capped policy value, or 0 when the inlet
    limit is exceeded; the policy value of the set-point policy is at most
    the total. *)
Lemma heat_recovery_inv env sp st QCond CondMassFlow CondInletTemp st' QCond' QHeatRec :
  ReformEIRChillerHeatRecovery env sp st QCond CondMassFlow CondInletTemp
  = Ok (st', QCond', QHeatRec) ->
  exists q0,
    QHeatRec =
      (if (HeatRecInletLimitSchedNum sp >? 0)%Z then
         if Real64.gtb (Temp (HeatRecInletNode env))
              (GetCurrentScheduleValue env (HeatRecInletLimitSchedNum sp))
         then 0 else Real64.min q0 (HeatRecMaxCapacityLimit sp)
       else Real64.min q0 (HeatRecMaxCapacityLimit sp))
    /\ ((HeatRecSetPointNodeNum sp =? 0)%Z = false -> q0 <= QCond)
    /\ QCond' = QCond - QHeatRec.
Proof.
  unfold ReformEIRChillerHeatRecovery. intros H.
  bind_split H q Hq. bind_split H s Hs. clear Hs.
  injection H as _ HC HR.
  destruct (HeatRecSetPointNodeNum sp =? 0)%Z.
  - bind_split Hq a Ha. bind_split Hq b Hb.
    injection Hq as Hq. eexists. rewrite <- HR, <- HC, <- Hq.
    repeat split. discriminate.
  - injection Hq as Hq. eexists. rewrite <- HR, <- HC, <- Hq.
    repeat split. intros _. apply Real64Facts.min_ub_l.
Qed.

(** C8, as the code has it.  With the capacity limit set by the
    initialisation, and for a non-negative limit and a non-negative total
    condenser heat: the recovered heat is at most the limit
    HeatRecCapacityFraction * (RefCap + RefCap / RefCOP) under both
    policies; under the set-point policy it is also at most the total
    condenser heat; and when an inlet-limit schedule is configured and its
    current value is below the heat-recovery inlet temperature, the
    recovered heat is exactly 0 under both policies. *)
Theorem heat_recovery_bounds env sp0 sp st QCond CondMassFlow CondInletTemp
    st' QCond' QHeatRec :
  InitHeatRecMaxCapacityLimit sp0 = Ok sp ->
  ReformEIRChillerHeatRecovery env sp st QCond CondMassFlow CondInletTemp
  = Ok (st', QCond', QHeatRec) ->
  0 <= HeatRecCapacityFraction sp0 * (RefCap sp0 + RefCap sp0 / RefCOP sp0) ->
  0 <= QCond ->
  QHeatRec <= HeatRecCapacityFraction sp0 * (RefCap sp0 + RefCap sp0 / RefCOP sp0)
  /\ (HeatRecSetPointNodeNum sp <> 0%Z -> QHeatRec <= QCond)
  /\ ((HeatRecInletLimitSchedNum sp > 0)%Z ->
      GetCurrentScheduleValue env (HeatRecInletLimitSchedNum sp)
      < Temp (HeatRecInletNode env) ->
      QHeatRec = 0).
Proof.
  intros Hinit Hrun Hlim Htot.
  rewrite <- (init_limit_value _ _ Hinit) in *.
  destruct (heat_recovery_inv _ _ _ _ _ _ _ _ _ Hrun) as (q0 & HQ & Hpol & _).
  assert (Hcap : Real64.min q0 (HeatRecMaxCapacityLimit sp) <= HeatRecMaxCapacityLimit sp)
    by apply Real64Facts.min_ub_r.
  assert (Hq0 : Real64.min q0 (HeatRecMaxCapacityLimit sp) <= q0)
    by apply Real64Facts.min_ub_l.
  split; [ | split].
  - rewrite HQ. destruct (_ >? _)%Z; [destruct (Real64.gtb _ _) | ]; assumption.
  - intros Hnode. apply Z.eqb_neq in Hnode. specialize (Hpol Hnode).
    rewrite HQ. destruct (_ >? _)%Z; [destruct (Real64.gtb _ _) | ];
      first [assumption | lra].
  - intros Hs Hex. rewrite HQ.
    apply Z.gt_lt, Z.gtb_lt in Hs. rewrite Hs.
    apply Real64Facts.gtb_true in Hex. rewrite Hex. reflexivity.
Qed.

(** The set-point policy on the bench, with the inlet limit (100 C) not
    exceeded: the recovered heat is within both bounds. *)
Lemma heat_recovery_bounds_witness :
  exists sp st' QCond' QHeatRec,
    InitHeatRecMaxCapacityLimit (Bench.spec ConstantFlow 30 true 1 1) = Ok sp
    /\ ReformEIRChillerHeatRecovery (Bench.env 1 1 25 10) sp Bench.st0 350000 25 29.4
       = Ok (st', QCond', QHeatRec)
    /\ QHeatRec <= 1 * (500000 + 500000 / 5.5)
    /\ QHeatRec <= 350000.
Proof.
  destruct (InitHeatRecMaxCapacityLimit (Bench.spec ConstantFlow 30 true 1 1))
    as [sp | ] eqn:Hinit; [ | vm_compute in Hinit; discriminate].
  destruct (ReformEIRChillerHeatRecovery (Bench.env 1 1 25 10) sp Bench.st0 350000 25 29.4)
    as [[[st' qc] qh] | ] eqn:Hrun.
  - exists sp, st', qc, qh.
    assert (Hlim : 0 <= 1 * (500000 + 500000 / 5.5)) by (vm_compute; discriminate).
    assert (Htot : 0 <= 350000) by (vm_compute; discriminate).
    destruct (heat_recovery_bounds _ _ _ _ _ _ _ _ _ _ Hinit Hrun Hlim Htot)
      as (H1 & H2 & _).
    split; [first [exact Hinit | reflexivity] | ].
    split; [exact Hrun | ].
    split; [exact H1 | apply H2].
    injection Hinit as <-. vm_compute. discriminate.
  - injection Hinit as <-. vm_compute in Hrun. discriminate.
Defined.

(** C8 as stated fails for the blending policy: with a condenser inlet
    (30 C) warmer than the heat-recovery inlet (20 C), equal flows of
    1 kg/s and a total condenser heat of 10 kW, the recovered heat is
    25.9 kW, more than the total. *)
Lemma heat_recovery_exceeds_total :
  exists sp st' QCond' QHeatRec,
    InitHeatRecMaxCapacityLimit (Bench.spec ConstantFlow 30 true 0 0) = Ok sp
    /\ ReformEIRChillerHeatRecovery (Bench.env 1 1 25 1) sp Bench.st0 10000 1 30
       = Ok (st', QCond', QHeatRec)
    /\ QHeatRec == 25900
    /\ ~ QHeatRec
         <= Real64.min 10000
              (HeatRecCapacityFraction sp * (RefCap sp + RefCap sp / RefCOP sp)).
Proof.
  do 4 eexists. split; [vm_compute; reflexivity | ].
  split; [vm_compute; reflexivity | ].
  split; [vm_compute; reflexivity | ].
  vm_compute. intros H. apply H. reflexivity.
Qed.

(** ** What each block leaves alone *)

Lemma frame_evap_refl st : frame_evap st st.
Proof. unfold frame_evap. repeat split; reflexivity. Qed.

Lemma frame_evap_trans st1 st2 st3 :
  frame_evap st1 st2 -> frame_evap st2 st3 -> frame_evap st1 st3.
Proof.
  unfold frame_evap. intros H1 H2.
  repeat match goal with H : _ /\ _ |- _ => destruct H end.
  repeat split; congruence.
Qed.

(** Case analysis on the tests left in the goal. *)
Ltac goal_tests :=
  repeat match goal with
    | |- context [if ?b then _ else _] => destruct b eqn:?
    end.

(** Closes a frame goal once the final record is a chain of assignments. *)
Ltac frame_done :=
  unfold frame_evap, frame_cond; goal_tests; fields; repeat split; reflexivity.

Lemma heat_recovery_state env sp st QCond CondMassFlow CondInletTemp st' QCond' QHeatRec :
  ReformEIRChillerHeatRecovery env sp st QCond CondMassFlow CondInletTemp
  = Ok (st', QCond', QHeatRec) ->
  exists t, st' = set_HeatRecOutletTemp t st.
Proof.
  unfold ReformEIRChillerHeatRecovery. intros H.
  bind_split H q Hq. bind_split H s Hs. injection H as <- _ _.
  destruct (Real64.gtb _ _).
  - bind_split Hs x Hx. injection Hs as <-. eauto.
  - injection Hs as <-. eauto.
Qed.

Ltac frame_heat_recovery :=
  repeat match goal with
    | H : ReformEIRChillerHeatRecovery _ _ _ _ _ _ = Ok _ |- _ =>
        apply heat_recovery_state in H; destruct H as (? & ->)
    end.

Lemma calc_power_condenser_frame env sp st A C P F T st' ds :
  calc_power_condenser env sp st A C P F T = Ok (st', ds) ->
  frame_cond st st'.
Proof.
  unfold calc_power_condenser. intros H.
  run_all; frame_heat_recovery; frame_done.
Qed.

Lemma apply_swt_fault_frame env sp v Cp st :
  frame_evap st (apply_swt_fault env sp v Cp st)
  /\ ChillerCyclingRatio (apply_swt_fault env sp v Cp st) = ChillerCyclingRatio st
  /\ ChillerFalseLoadRate (apply_swt_fault env sp v Cp st) = ChillerFalseLoadRate st.
Proof.
  unfold apply_swt_fault. destruct (CalFaultChillerSWT _ _ _ _ _ _ _ _ _) as [[t m] q].
  split; [frame_done | split; reflexivity].
Qed.

Lemma calc_flow_unlocked_frame env sp st A Cp P st' P' ds :
  calc_flow_unlocked env sp st A Cp P = Ok (st', P', ds) ->
  frame_evap st st'
  /\ ChillerCyclingRatio st' = ChillerCyclingRatio st
  /\ ChillerFalseLoadRate st' = ChillerFalseLoadRate st.
Proof.
  unfold calc_flow_unlocked, apply_swt_fault. intros H.
  destruct (CurOpSchemeType env =? CompSetPtBasedSchemeType env)%Z;
    destruct (LoopDemandCalcScheme env CWLoop);
    run_all; goal_tests; (split; [frame_done | split; reflexivity]).
Qed.

Lemma clamp_outlet_low_frame env Cp limit st :
  frame_evap st (clamp_outlet_low env Cp limit st).
Proof.
  unfold clamp_outlet_low.
  destruct (Real64.ltb _ _); [destruct (Real64.gtb _ _) | ]; frame_done.
Qed.

Lemma clamp_load_frame env Cp cap st st' :
  clamp_load env Cp cap st = Ok st' -> frame_evap st st'.
Proof. unfold clamp_load. intros H. run_all; frame_done. Qed.

Lemma locked_evaporator_frame env sp st T Cp L st' :
  locked_evaporator env sp st T Cp L = Ok st' -> frame_evap st st'.
Proof.
  unfold locked_evaporator. intros H. bind_split H s Hs.
  apply clamp_load_frame in H.
  refine (frame_evap_trans _ _ _ _ H).
  refine (frame_evap_trans _ _ _ _ (clamp_outlet_low_frame _ _ _ _)).
  refine (frame_evap_trans _ _ _ _ (clamp_outlet_low_frame _ _ _ _)).
  run_all; frame_done.
Qed.

Lemma locked_part_load_frame env sp st A F st' P' F' :
  locked_part_load env sp st A F = Ok (st', P', F') -> frame_evap st st'.
Proof. unfold locked_part_load. intros H. run_all; frame_done. Qed.

Lemma calc_flow_locked_frame env sp st T A Cp L F st' P' F' :
  calc_flow_locked env sp st T A Cp L F = Ok (st', P', F') -> frame_evap st st'.
Proof.
  unfold calc_flow_locked. intros H.
  bind_split H s1 H1. bind_split H s2 H2.
  apply locked_evaporator_frame in H1. apply clamp_load_frame in H2.
  apply locked_part_load_frame in H.
  refine (frame_evap_trans _ _ _ H1 _).
  refine (frame_evap_trans _ _ _ _ (frame_evap_trans _ _ _ H2 H)).
  destruct (_ && _); [apply apply_swt_fault_frame | apply frame_evap_refl].
Qed.

(** ** The paths of a running call *)

Ltac show_pre_state HW :=
  unfold pre_state, zero_outputs, cond_flow_granted; rewrite ?HW; fields;
  repeat split; try reflexivity;
  try apply Real64Facts.max_lb_l;
  try (intros HH; first [discriminate HH | reflect_tests; assumption]).

Ltac side_conditions HW :=
  lazymatch goal with
  | |- pre_state _ _ _ _ => show_pre_state HW
  | |- _ = 0%Z => apply Z.eqb_eq; assumption
  | |- _ <> 0%Z => apply Z.eqb_neq; assumption
  | |- _ => reflect_tests; assumption
  end.

Lemma calc_running env sp st MyLoad RunFlag FirstIteration EquipFlowCtrl T o :
  CalcReformEIRChillerModel env sp st MyLoad RunFlag FirstIteration EquipFlowCtrl T = Ok o ->
  Real64.geb MyLoad 0 || negb RunFlag = false ->
  CalcRun env sp T MyLoad o.
Proof.
  intros H Hidle. unfold CalcReformEIRChillerModel in H. rewrite Hidle in H.
  unfold calc_fouling, calc_setpoint, calc_cond_avg_temp, calc_reset in H.
  assert (ERC : fouled_RefCap env sp =
       if FaultyChillerFoulingFlag sp && faults_active env
       then RefCap sp * CalFoulingFactor env (FaultyChillerFoulingIndex sp)
       else RefCap sp) by reflexivity.
  assert (ECOP : fouled_RefCOP env sp =
       if FaultyChillerFoulingFlag sp && faults_active env
       then RefCOP sp * CalFoulingFactor env (FaultyChillerFoulingIndex sp)
       else RefCOP sp) by reflexivity.
  destruct (FaultyChillerFoulingFlag sp && faults_active env) eqn:HF;
  destruct (CondenserType sp =? WaterCooled)%Z eqn:HW;
  destruct (FaultyChillerSWTFlag sp && faults_active env) eqn:HS;
  destruct (HeatRecActive sp) eqn:HR;
  cbn [andb] in H; run_all.
  all: try match goal with H : Real64.gtb (0 + 0) 0 = true |- _ => discriminate H end.
  all: try match goal with H : Real64.gtb (_ + _) 0 = true |- _ => fields; discriminate H end.
  all: fields; rewrite <- ?ERC, <- ?ECOP in *.
  all: try match goal with
    | |- CalcRun _ _ _ _ (mkCalcOut ExitNoCondFlow _ _ _) =>
        apply RunNoCondFlow;
        [ unfold zero_outputs; fields; repeat split; reflexivity
        | reflexivity
        | unfold cond_flow_granted; rewrite HW; reflexivity
        | exact HW
        | unfold cond_flow_granted; rewrite HW; reflect_tests; assumption ]
    | |- CalcRun _ _ _ _ (mkCalcOut ExitNoEvapFlow _ _ _) =>
        apply RunNoEvapFlow; [show_pre_state HW | reflect_tests; assumption]
    end.
  all: try match goal with
    | H : calc_flow_unlocked _ _ (set_ChillerPartLoadRatio _ (set_QEvaporator _ ?s)) _ _ _ = Ok _ |- _ =>
        eapply (RunUnlocked env sp T MyLoad s); try eassumption; side_conditions HW
    | H : calc_flow_locked _ _ (set_EvapMassFlowRate _ (set_EvapMassFlowRate _ (set_ChillerPartLoadRatio _ (set_QEvaporator _ ?s)))) _ _ _ _ _ = Ok _ |- _ =>
        eapply (RunLocked env sp T MyLoad s); try eassumption; side_conditions HW
    | H : part_load_ratio _ _ (Qabs (water_side_load _ _ ?SP _)) = Ok ?r
      |- CalcRun _ _ _ _ (mkCalcOut ExitNoEvapFlowLocked
            (set_EvapMassFlowRate _ (set_EvapMassFlowRate _ (set_ChillerPartLoadRatio _ (set_QEvaporator _ ?s)))) _ _) =>
        eapply (RunLockedNoFlow env sp T MyLoad s SP r); try eassumption; side_conditions HW
    end.
Qed.

Lemma running_test MyLoad RunFlag :
  MyLoad < 0 -> RunFlag = true -> Real64.geb MyLoad 0 || negb RunFlag = false.
Proof.
  intros H ->. apply Real64Facts.geb_false in H. rewrite H. reflexivity.
Qed.

(** Uses the frame of each block that a hypothesis says returned [Ok]. *)
Ltac use_frames :=
  repeat match goal with
    | H : calc_power_condenser _ _ _ _ _ _ _ _ = Ok _ |- _ =>
        let F := fresh "Fc" in
        pose proof (calc_power_condenser_frame _ _ _ _ _ _ _ _ _ _ H) as F;
        unfold frame_cond in F; revert H
    | H : calc_flow_unlocked _ _ _ _ _ _ = Ok _ |- _ =>
        let F := fresh "Fu" in
        pose proof (calc_flow_unlocked_frame _ _ _ _ _ _ _ _ _ H) as F;
        unfold frame_evap in F; revert H
    | H : calc_flow_locked _ _ _ _ _ _ _ _ = Ok _ |- _ =>
        let F := fresh "Fl" in
        pose proof (calc_flow_locked_frame _ _ _ _ _ _ _ _ _ _ _ H) as F;
        unfold frame_evap in F; revert H
    end;
  intros;
  repeat match goal with H : _ /\ _ |- _ => destruct H end.

Lemma cond_avg_temp_is_assumed env sp st MyLoad RunFlag FirstIteration EquipFlowCtrl T o :
  CalcReformEIRChillerModel env sp st MyLoad RunFlag FirstIteration EquipFlowCtrl T = Ok o ->
  Real64.geb MyLoad 0 || negb RunFlag = false ->
  exit o <> ExitNoCondFlow ->
  ChillerCondAvgTemp (state o) = T.
Proof.
  intros H Hrun Hx. apply calc_running in H; [ | exact Hrun].
  destruct H; cbn [exit state] in *; try congruence;
    unfold pre_state in *; use_frames; fields; congruence.
Qed.

(** ** The effective condenser temperature (claim C3) *)

(** C3, at a failing input.  Heat recovery is active and the previous call
    left 100 kW recovered at 45 C and 250 kW rejected at 35 C in the
    record; the evaluation at an assumed condenser outlet temperature of
    30 C looks its curves up at 30 C, not at the flow-weighted blend of
    the previous outlet temperatures: lines 1956-1958 have set both heat
    flows to zero before line 2093 tests their sum. *)
Theorem cond_avg_temp_lag_is_dead :
  exists o,
    CalcReformEIRChillerModel (Bench.env 1 1 25 10)
      (Bench.spec ConstantFlow 40 true 1 0) Bench.st_prev (-(300000)) true false 1 30
    = Ok o
    /\ exit o = ExitEnd
    /\ ChillerCondAvgTemp (state o) == 30
    /\ ~ ChillerCondAvgTemp (state o)
         == (100000 * 45 + 250000 * 35) / (100000 + 250000).
Proof.
  eexists. split; [vm_compute; reflexivity | ].
  split; [reflexivity | ]. split; [reflexivity | ].
  vm_compute. discriminate.
Qed.

(** ** Condenser flow at or below the tolerance (claim C7) *)

Lemma calc_power_condenser_diags env sp st A C P F T st' ds :
  calc_power_condenser env sp st A C P F T = Ok (st', ds) ->
  (MassFlowTolerance env < CondMassFlowRate st /\ ds = [])
  \/ (CondMassFlowRate st <= MassFlowTolerance env
      /\ ds = [ShowSevereError CkCondFlowZero;
               ShowContinueErrorTimeStamp CkCondFlowZero []]).
Proof.
  unfold calc_power_condenser. intros H.
  run_all; fields; reflect_tests; auto.
Qed.

Lemma calc_flow_unlocked_diags env sp st A Cp P st' P' ds :
  calc_flow_unlocked env sp st A Cp P = Ok (st', P', ds) -> no_fatal ds = true.
Proof.
  unfold calc_flow_unlocked. intros H.
  destruct (CurOpSchemeType env =? CompSetPtBasedSchemeType env)%Z;
    destruct (LoopDemandCalcScheme env CWLoop); run_all; reflexivity.
Qed.

Lemma no_fatal_app ds1 ds2 :
  no_fatal ds1 = true -> no_fatal ds2 = true -> no_fatal (ds1 ++ ds2) = true.
Proof. unfold no_fatal. intros H1 H2. rewrite forallb_app, H1, H2. reflexivity. Qed.

(** C7, as the code has it.  For a call with negative load, the run flag on
    and a condenser flow at or below the tolerance, no fatal error is ever
    raised.  A water-cooled chiller whose granted condenser flow is
    strictly below the tolerance returns at once (line 2047): no
    diagnostic, the outputs at zero, the load untouched.  A call that
    reaches the end of the body instead (condenser flow equal to the
    tolerance) reports a severe, non-fatal error and returns normally. *)
Theorem cond_flow_at_or_below_tolerance env sp st MyLoad RunFlag FirstIteration
    EquipFlowCtrl T :
  MyLoad < 0 -> RunFlag = true ->
  cond_flow_granted env sp <= MassFlowTolerance env ->
  ((CondenserType sp =? WaterCooled)%Z = true ->
   cond_flow_granted env sp < MassFlowTolerance env ->
   exists o,
     CalcReformEIRChillerModel env sp st MyLoad RunFlag FirstIteration EquipFlowCtrl T
     = Ok o
     /\ exit o = ExitNoCondFlow /\ diags o = [] /\ load o = MyLoad
     /\ zero_outputs (state o)
     /\ CondMassFlowRate (state o) = cond_flow_granted env sp)
  /\ (forall o,
       CalcReformEIRChillerModel env sp st MyLoad RunFlag FirstIteration EquipFlowCtrl T
       = Ok o ->
       no_fatal (diags o) = true
       /\ (exit o = ExitEnd -> In (ShowSevereError CkCondFlowZero) (diags o))).
Proof.
  intros Hload Hrun Hflow.
  pose proof (running_test _ _ Hload Hrun) as Htest. split.
  - intros HW Hlt. unfold CalcReformEIRChillerModel. rewrite Htest.
    destruct (calc_fouling env sp _) as [[s c] q] eqn:Hf.
    rewrite HW. cbn [andb].
    assert (Hs : exists v, s = v /\ zero_outputs v /\ CondMassFlowRate v = 0).
    { unfold calc_fouling, calc_reset in Hf. exists s. split; [reflexivity | ].
      run_all; unfold zero_outputs; fields; repeat split; reflexivity. }
    destruct Hs as (v & -> & Hz & _).
    unfold cond_flow_granted in *. rewrite HW in *. fields.
    apply Real64Facts.ltb_true in Hlt. rewrite Hlt.
    eexists. split; [reflexivity | ]. cbn [exit diags load state].
    repeat split; try reflexivity; unfold zero_outputs in *; fields; tauto.
  - intros o H. apply calc_running in H; [ | exact Htest].
    destruct H; cbn [exit diags] in *.
    + split; [reflexivity | discriminate].
    + split; [reflexivity | discriminate].
    + unfold pre_state in *. use_frames.
      match goal with H : calc_power_condenser _ _ _ _ _ _ _ _ = Ok _ |- _ =>
        apply calc_power_condenser_diags in H; destruct H as [(Hc & ->) | (Hc & ->)]
      end.
      * exfalso. fields.
        assert (E : CondMassFlowRate st2 = cond_flow_granted env sp) by congruence.
        rewrite E in Hc. lra.
      * match goal with H : calc_flow_unlocked _ _ _ _ _ _ = Ok _ |- _ =>
          apply calc_flow_unlocked_diags in H end.
        split; [apply no_fatal_app; [assumption | reflexivity] | ].
        intros _. apply in_or_app. right. left. reflexivity.
    + split; [reflexivity | discriminate].
    + unfold pre_state in *. use_frames.
      match goal with H : calc_power_condenser _ _ _ _ _ _ _ _ = Ok _ |- _ =>
        apply calc_power_condenser_diags in H; destruct H as [(Hc & ->) | (Hc & ->)]
      end.
      * exfalso. fields.
        assert (E : CondMassFlowRate st2 = cond_flow_granted env sp) by congruence.
        rewrite E in Hc. lra.
      * split; [reflexivity | ]. intros _. left. reflexivity.
Qed.

(** No condenser flow on the bench: the call returns by line 2047. *)
Lemma cond_flow_at_or_below_tolerance_witness :
  exists o,
    CalcReformEIRChillerModel (Bench.env 1 1 0 0)
      (Bench.spec ConstantFlow 40 false 0 0) Bench.st0 (-(300000)) true false 1 30
    = Ok o
    /\ exit o = ExitNoCondFlow /\ diags o = [] /\ load o = -(300000).
Proof.
  destruct (cond_flow_at_or_below_tolerance (Bench.env 1 1 0 0)
              (Bench.spec ConstantFlow 40 false 0 0) Bench.st0 (-(300000)) true
              false 1 30) as [HA _];
    [vm_compute; reflexivity | reflexivity | vm_compute; discriminate | ].
  destruct HA as (o & H & Hx & Hd & Hl & _);
    [reflexivity | vm_compute; reflexivity | ].
  exists o. auto.
Defined.

(** C7 as stated fails: with the unit commanded on, a load of -300 kW and
    no condenser flow at all, the evaluation returns normally, with no
    fatal error and in fact no diagnostic. *)
Lemma cond_flow_zero_is_not_fatal :
  exists o,
    CalcReformEIRChillerModel (Bench.env 1 1 0 0)
      (Bench.spec ConstantFlow 40 false 0 0) Bench.st0 (-(300000)) true false 1 30
    = Ok o
    /\ CondMassFlowRate (state o) <= MassFlowTolerance (Bench.env 1 1 0 0)
    /\ no_fatal (diags o) = true
    /\ diags o = [].
Proof.
  eexists. split; [vm_compute; reflexivity | ].
  split; [vm_compute; discriminate | ]. split; reflexivity.
Qed.

(** ** Part-load ratio, cycling ratio and heat balance of the blocks *)

Lemma part_load_ratio_spec sp A q p :
  part_load_ratio sp A q = Ok p -> 0 <= p /\ (A <= 0 -> p = 0).
Proof.
  unfold part_load_ratio. intros H. run_all.
  - split; [apply Real64Facts.max_lb_l | ]. reflect_tests. intros. lra.
  - split; [lra | reflexivity].
Qed.

Lemma clamp_zero M : Real64.max 0 (Real64.min 0 M) = 0.
Proof.
  unfold Real64.max, Real64.min.
  destruct (Real64.ltb M 0) eqn:E1.
  - destruct (Real64.ltb 0 M) eqn:E2; [ | reflexivity]. reflect_tests. lra.
  - reflexivity.
Qed.

Lemma calc_flow_unlocked_no_capacity env sp st A Cp P st' P' ds :
  calc_flow_unlocked env sp st A Cp P = Ok (st', P', ds) ->
  A <= 0 -> ChillerPartLoadRatio st = 0 ->
  ChillerPartLoadRatio st' = 0.
Proof.
  unfold calc_flow_unlocked, apply_swt_fault. intros H HA Hz.
  destruct (CurOpSchemeType env =? CompSetPtBasedSchemeType env)%Z;
    destruct (LoopDemandCalcScheme env CWLoop);
    run_all; goal_tests; fields; reflect_tests;
    first [assumption | reflexivity | apply clamp_zero | exfalso; lra].
Qed.

Lemma locked_part_load_spec env sp st A st' P' F' :
  locked_part_load env sp st A 1 = Ok (st', P', F') ->
  exists plr,
    part_load_ratio sp A (QEvaporator st) = Ok plr
    /\ F' = (if Real64.ltb plr (MinPartLoadRat sp)
             then Real64.min 1 (plr / MinPartLoadRat sp) else 1)
    /\ ChillerCyclingRatio st' = F'
    /\ ChillerPartLoadRatio st' = (if Real64.gtb A 0
                                   then Real64.max plr (MinUnloadRat sp) else 0)
    /\ QEvaporator st' = QEvaporator st
    /\ 0 <= F'.
Proof.
  unfold locked_part_load. intros H.
  bind_split H plr Hplr. exists plr. split; [exact Hplr | ].
  destruct (part_load_ratio_spec _ _ _ _ Hplr) as (Hpos & _).
  destruct (Real64.ltb plr (MinPartLoadRat sp)) eqn:Hlt.
  - bind_split H fr Hfr. bind_split Hfr q Hq.
    apply div_inv in Hq. destruct Hq as (Hm & ->).
    injection Hfr as <-. injection H as <- _ <-.
    assert (0 <= Real64.min 1 (plr / MinPartLoadRat sp)).
    { apply Real64Facts.min_glb; [lra | ]. reflect_tests.
      apply Qle_shift_div_l; lra. }
    goal_tests; fields; repeat split; auto.
  - cbn [bind] in H. injection H as <- _ <-.
    goal_tests; fields; repeat split; auto; lra.
Qed.

Lemma calc_flow_locked_spec env sp st SP A Cp L st' P' F' :
  calc_flow_locked env sp st SP A Cp L 1 = Ok (st', P', F') ->
  exists plr,
    part_load_ratio sp A (QEvaporator st') = Ok plr
    /\ F' = (if Real64.ltb plr (MinPartLoadRat sp)
             then Real64.min 1 (plr / MinPartLoadRat sp) else 1)
    /\ ChillerCyclingRatio st' = F'
    /\ ChillerPartLoadRatio st' = (if Real64.gtb A 0
                                   then Real64.max plr (MinUnloadRat sp) else 0)
    /\ 0 <= F'.
Proof.
  unfold calc_flow_locked. intros H.
  bind_split H s1 H1. bind_split H s2 H2.
  apply locked_part_load_spec in H.
  destruct H as (plr & Hp & HF & HC & HP & HQ & H0).
  exists plr. rewrite HQ. auto.
Qed.

Lemma calc_power_condenser_balance env sp st A C P F T st' ds :
  calc_power_condenser env sp st A C P F T = Ok (st', ds) ->
  0 <= A -> 0 <= F -> 0 <= CompPowerToCondenserFrac sp ->
  0 <= ChillerEIRFPLR st -> QHeatRecovery st = 0 ->
  QEvaporator st + ChillerFalseLoadRate st <= QCondenser st' + QHeatRecovery st'
  /\ (HeatRecActive sp = false ->
      QEvaporator st + ChillerFalseLoadRate st <= QCondenser st').
Proof.
  unfold calc_power_condenser. intros H HA HF Hfrac HE HQ.
  bind_split H s1 H1. bind_split H q Hq.
  apply div_inv in Hq. destruct Hq as (HC & ->).
  set (C' := if Real64.leb C 0 then 5.5 else C) in *.
  assert (HC' : 0 < C').
  { subst C'. destruct (Real64.leb C 0) eqn:E; reflect_tests; lra. }
  assert (Hs1 : 0 <= ChillerEIRFPLR s1 /\ 0 <= ChillerEIRFT s1
                /\ QEvaporator s1 = QEvaporator st
                /\ ChillerFalseLoadRate s1 = ChillerFalseLoadRate st
                /\ QHeatRecovery s1 = 0).
  { run_all; fields; repeat split; auto; apply Real64Facts.max_lb_l. }
  destruct Hs1 as (He1 & He2 & E1 & E2 & E3). clear H1.
  assert (Hpow : 0 <= A / C' * ChillerEIRFPLR s1 * ChillerEIRFT s1 * F
                      * CompPowerToCondenserFrac sp).
  { repeat apply Qmult_le_0_compat; auto.
    apply Qinv_le_0_compat. lra. }
  set (pw := A / C' * ChillerEIRFPLR s1 * ChillerEIRFT s1 * F) in *.
  rewrite <- E1, <- E2.
  run_all.
  all: try match goal with
         | H : ReformEIRChillerHeatRecovery _ _ _ _ _ _ = Ok _ |- _ =>
             pose proof (heat_recovery_inv _ _ _ _ _ _ _ _ _ H) as (qpol & _ & _ & Hqc)
         end.
  all: frame_heat_recovery; fields; rewrite ?E3, ?Hqc.
  all: split; [ | intros Hhr; try congruence]; lra.
Qed.

(** ** Zero evaporator flow and zero capacity (claim C6) *)

Lemma calc_end_load env sp st MyLoad RunFlag FirstIteration EquipFlowCtrl T o :
  CalcReformEIRChillerModel env sp st MyLoad RunFlag FirstIteration EquipFlowCtrl T
  = Ok o ->
  Real64.geb MyLoad 0 || negb RunFlag = false ->
  exit o = ExitEnd ->
  load o
  = water_side_load env (GetSpecificHeatGlycol env CWLoop (Temp (EvapInletNode env)))
      (working_setpoint env sp) MyLoad.
Proof.
  intros H Hidle Hx. unfold CalcReformEIRChillerModel in H. rewrite Hidle in H.
  unfold calc_fouling, calc_setpoint, calc_cond_avg_temp, calc_reset in H.
  unfold working_setpoint.
  destruct (FaultyChillerFoulingFlag sp && faults_active env);
  destruct (CondenserType sp =? WaterCooled)%Z;
  destruct (FaultyChillerSWTFlag sp && faults_active env);
  destruct (HeatRecActive sp);
  cbn [andb] in H; run_all.
  all: try discriminate Hx.
  all: reflexivity.
Qed.

(** C6, as the code has it.  For a call with negative load and the run flag
    on that gets past the condenser-flow test: if the evaporator inlet mass
    flow rate is zero, the evaluator returns at once (line 2115) with the
    load set to exactly zero, power, heat flows and part-load ratio at zero
    and a zero evaporator flow, while the condenser flow keeps the granted
    rate.  If the available capacity (fouled reference capacity times the
    clamped capacity-curve output) is less than or equal to zero and the
    evaporator inlet flow is not zero, the evaluator does not take that
    return, and there is no return on the capacity: it carries on with a
    part-load ratio of 0, which is the part-load ratio in the record on
    return.  It then leaves by the second zero-flow return (line 2281),
    with the load at 0 and a zero evaporator flow, exactly when the plant
    flow is locked and the plant grants no evaporator flow; otherwise it
    leaves at the end of the body, and the load it hands back is the
    caller's load cut to the water-side load of lines 2131-2138. *)
Theorem evap_flow_zero_or_no_capacity env sp st MyLoad RunFlag FirstIteration
    EquipFlowCtrl T o :
  MyLoad < 0 -> RunFlag = true ->
  CalcReformEIRChillerModel env sp st MyLoad RunFlag FirstIteration EquipFlowCtrl T
  = Ok o ->
  exit o <> ExitNoCondFlow ->
  (MassFlowRate (EvapInletNode env) == 0 ->
   exit o = ExitNoEvapFlow /\ load o = 0 /\ zero_outputs (state o)
   /\ EvapMassFlowRate (state o) == 0
   /\ CondMassFlowRate (state o) = cond_flow_granted env sp)
  /\ (~ MassFlowRate (EvapInletNode env) == 0 ->
      fouled_RefCap env sp * ChillerCapFT (state o) <= 0 ->
      exit o <> ExitNoEvapFlow /\ ChillerPartLoadRatio (state o) = 0
      /\ (exit o = ExitNoEvapFlowLocked \/ exit o = ExitEnd)
      /\ (exit o = ExitNoEvapFlowLocked <->
          FlowLock env <> 0%Z
          /\ SetComponentFlowRate env CWLoop (MassFlowRate (EvapInletNode env)) == 0)
      /\ (exit o = ExitNoEvapFlowLocked ->
          load o = 0 /\ EvapMassFlowRate (state o) == 0)
      /\ (exit o = ExitEnd ->
          load o
          = water_side_load env
              (GetSpecificHeatGlycol env CWLoop (Temp (EvapInletNode env)))
              (working_setpoint env sp) MyLoad)).
Proof.
  intros Hload Hrun H Hx.
  pose proof (calc_end_load _ _ _ _ _ _ _ _ _ H (running_test _ _ Hload Hrun)) as HE.
  apply calc_running in H; [ | apply running_test; assumption].
  destruct H; cbn [exit state load] in *; try congruence.
  - (* line 2115 *)
    split; [ | intros Hn; contradiction].
    intros _. unfold pre_state in *.
    repeat match goal with H : _ /\ _ |- _ => destruct H end.
    split; [reflexivity | ]. split; [reflexivity | ]. split; [assumption | ].
    split; [ | assumption].
    match goal with E : EvapMassFlowRate _ = _ |- _ => rewrite E end. assumption.
  - (* flow unlocked *)
    split; [intros Hz; contradiction | ]. intros _ Hcap.
    split; [discriminate | ].
    assert (HP : ChillerPartLoadRatio st3 = 0).
    { unfold pre_state in *. use_frames.
      assert (EC : ChillerCapFT st3 = ChillerCapFT st1) by (fields; congruence).
      rewrite EC in Hcap.
      match goal with H : part_load_ratio _ _ _ = Ok _ |- _ =>
        apply part_load_ratio_spec in H; destruct H as (_ & Hp); specialize (Hp Hcap)
      end.
      subst PartLoadRat0.
      match goal with H : calc_flow_unlocked _ _ _ _ _ _ = Ok _ |- _ =>
        apply calc_flow_unlocked_no_capacity in H; [ | exact Hcap | reflexivity]
      end.
      congruence. }
    split; [exact HP | ]. split; [right; reflexivity | ].
    split; [split; [discriminate | intros (Hl & _); contradiction] | ].
    split; [discriminate | intros _; exact (HE eq_refl)].
  - (* line 2281 *)
    split; [intros Hz; contradiction | ]. intros _ Hcap.
    split; [discriminate | ]. fields.
    split.
    { match goal with H : part_load_ratio _ _ _ = Ok _ |- _ =>
        apply part_load_ratio_spec in H; destruct H as (_ & Hp); apply Hp
      end.
      exact Hcap. }
    split; [left; reflexivity | ].
    split; [split; [intros _; split; assumption | reflexivity] | ].
    split; [intros _; split; [reflexivity | assumption] | discriminate].
  - (* flow locked *)
    split; [intros Hz; contradiction | ]. intros _ Hcap.
    split; [discriminate | ].
    assert (HP : ChillerPartLoadRatio st3 = 0).
    { unfold pre_state in *. use_frames.
      assert (EC : ChillerCapFT st3 = ChillerCapFT st1) by (fields; congruence).
      rewrite EC in Hcap.
      match goal with H : calc_flow_locked _ _ _ _ _ _ _ _ = Ok _ |- _ =>
        apply calc_flow_locked_spec in H;
        destruct H as (plr & _ & _ & _ & HP & _)
      end.
      apply Real64Facts.gtb_false in Hcap.
      subst AvailChillerCap. rewrite Hcap in HP. congruence. }
    split; [exact HP | ]. split; [right; reflexivity | ].
    split; [split; [discriminate | intros (_ & Hg); contradiction] | ].
    split; [discriminate | intros _; exact (HE eq_refl)].
Qed.

(** Captures the value of a bench call in the context. *)
Ltac bench_run o E :=
  match goal with
  | |- context [CalcReformEIRChillerModel ?e ?s ?st ?l ?r ?f ?c ?t] =>
      destruct (CalcReformEIRChillerModel e s st l r f c t) as [o | ] eqn:E;
      [ | vm_compute in E; discriminate E];
      let E' := fresh in
      pose proof E as E'; vm_compute in E'; injection E' as <-
  end.

(** A capacity curve at -1 on the bench: the available capacity is 0 and
    the call runs to the end of the body. *)
Lemma evap_flow_zero_or_no_capacity_witness :
  exists o,
    CalcReformEIRChillerModel (Bench.env 1 (-(1)) 25 0)
      (Bench.spec ConstantFlow 40 false 0 0) Bench.st0 (-(300000)) true false 1 30
    = Ok o
    /\ exit o <> ExitNoEvapFlow /\ ChillerPartLoadRatio (state o) = 0
    /\ exit o = ExitEnd
    /\ load o
       = water_side_load (Bench.env 1 (-(1)) 25 0)
           (GetSpecificHeatGlycol (Bench.env 1 (-(1)) 25 0) CWLoop
              (Temp (EvapInletNode (Bench.env 1 (-(1)) 25 0))))
           (working_setpoint (Bench.env 1 (-(1)) 25 0)
              (Bench.spec ConstantFlow 40 false 0 0)) (-(300000)).
Proof.
  bench_run o E. eexists. split; [reflexivity | ].
  assert (Hl : -(300000) < 0) by reflexivity.
  destruct (evap_flow_zero_or_no_capacity _ _ _ _ _ _ _ _ _ Hl eq_refl E) as (_ & H).
  { discriminate. }
  destruct H as (H1 & H2 & _ & _ & _ & H6).
  - vm_compute. discriminate.
  - vm_compute. discriminate.
  - split; [exact H1 | ]. split; [exact H2 | ].
    split; [reflexivity | exact (H6 eq_refl)].
Defined.

(** C6 as stated fails for the capacity half: with a capacity curve at -1
    the available capacity is 0, yet the call runs to the end of the body,
    the load stays at -300 kW and the evaporator flow at 20 kg/s. *)
Lemma no_capacity_does_not_abort :
  exists o,
    CalcReformEIRChillerModel (Bench.env 1 (-(1)) 25 0)
      (Bench.spec ConstantFlow 40 false 0 0) Bench.st0 (-(300000)) true false 1 30
    = Ok o
    /\ fouled_RefCap (Bench.env 1 (-(1)) 25 0) (Bench.spec ConstantFlow 40 false 0 0)
       * ChillerCapFT (state o) <= 0
    /\ exit o = ExitEnd
    /\ ~ load o == 0
    /\ ~ EvapMassFlowRate (state o) == 0.
Proof.
  eexists. split; [vm_compute; reflexivity | ].
  split; [vm_compute; discriminate | ]. split; [reflexivity | ].
  split; vm_compute; discriminate.
Qed.

(** ** The cycling ratio (claim C9) *)

(** C9, as the code has it.  For a call with negative load and the run flag
    on that runs to the end of the body: with the flow locked, the cycling
    ratio in the record is part-load ratio / MinPartLoadRat, capped at 1,
    when the part-load ratio is below MinPartLoadRat, and 1 otherwise,
    where the part-load ratio is the evaporator heat flow over the
    available capacity, clamped to [0, MaxPartLoadRat] (0 without
    capacity); with the flow unlocked, the cycling ratio in the record is
    the 0 of line 1951. *)
Theorem cycling_ratio_by_flow_lock env sp st MyLoad RunFlag FirstIteration
    EquipFlowCtrl T o :
  MyLoad < 0 -> RunFlag = true ->
  CalcReformEIRChillerModel env sp st MyLoad RunFlag FirstIteration EquipFlowCtrl T
  = Ok o ->
  exit o = ExitEnd ->
  (FlowLock env <> 0%Z ->
   exists plr,
     part_load_ratio sp (fouled_RefCap env sp * ChillerCapFT (state o))
       (QEvaporator (state o)) = Ok plr
     /\ ChillerCyclingRatio (state o)
        = if Real64.ltb plr (MinPartLoadRat sp)
          then Real64.min 1 (plr / MinPartLoadRat sp) else 1)
  /\ (FlowLock env = 0%Z -> ChillerCyclingRatio (state o) = 0).
Proof.
  intros Hload Hrun H Hx.
  apply calc_running in H; [ | apply running_test; assumption].
  destruct H; cbn [exit state] in *; try discriminate.
  - split; [intros; contradiction | intros _].
    unfold pre_state, zero_outputs in *. use_frames. fields. congruence.
  - split; [intros _ | intros; contradiction].
    unfold pre_state in *. use_frames.
    assert (EC : ChillerCapFT st3 = ChillerCapFT st1) by (fields; congruence).
    match goal with H : calc_flow_locked _ _ _ _ _ _ _ _ = Ok _ |- _ =>
      apply calc_flow_locked_spec in H;
      destruct H as (plr & Hp & HF & HC & _)
    end.
    exists plr. rewrite EC. subst AvailChillerCap.
    replace (QEvaporator st3) with (QEvaporator st2) by congruence.
    split; [exact Hp | congruence].
Qed.

(** The flow-locked bench: part-load ratio 0.6, cycling ratio 1. *)
Lemma cycling_ratio_by_flow_lock_witness :
  exists o plr,
    CalcReformEIRChillerModel (Bench.env 1 1 25 0)
      (Bench.spec ConstantFlow 40 false 0 0) Bench.st0 (-(300000)) true false 1 30
    = Ok o
    /\ part_load_ratio (Bench.spec ConstantFlow 40 false 0 0)
         (fouled_RefCap (Bench.env 1 1 25 0) (Bench.spec ConstantFlow 40 false 0 0)
          * ChillerCapFT (state o))
         (QEvaporator (state o)) = Ok plr
    /\ ChillerCyclingRatio (state o)
       = if Real64.ltb plr 0.1 then Real64.min 1 (plr / 0.1) else 1.
Proof.
  bench_run o E.
  destruct (proj1 (cycling_ratio_by_flow_lock _ _ _ _ _ _ _ _ _
                     (eq_refl : -(300000) < 0) eq_refl E eq_refl))
    as (plr & Hp & Hc); [discriminate | ].
  eexists. exists plr. split; [reflexivity | ]. split; assumption.
Defined.

(** C9 as stated fails with the flow unlocked: the bench runs at a
    part-load ratio of 0.6, above MinPartLoadRat = 0.1, and the cycling
    ratio in the record is 0, not 1. *)
Lemma cycling_ratio_unlocked_is_zero :
  exists o,
    CalcReformEIRChillerModel (Bench.env 0 1 25 0)
      (Bench.spec ConstantFlow 40 false 0 0) Bench.st0 (-(300000)) true false 1 30
    = Ok o
    /\ exit o = ExitEnd
    /\ ChillerPartLoadRatio (state o) == 0.6
    /\ MinPartLoadRat (Bench.spec ConstantFlow 40 false 0 0)
       <= ChillerPartLoadRatio (state o)
    /\ ChillerCyclingRatio (state o) == 0
    /\ ~ ChillerCyclingRatio (state o) == 1.
Proof.
  eexists. split; [vm_compute; reflexivity | ].
  split; [reflexivity | ]. split; [vm_compute; reflexivity | ].
  split; [vm_compute; discriminate | ]. split; [reflexivity | ].
  vm_compute. discriminate.
Qed.

(** ** The condenser heat balance (claim C2) *)

(** C2, as the code has it.  For a call with negative load and the run flag
    on that runs to the end of the body, with a non-negative reference
    capacity and a non-negative fraction of compressor power rejected to
    the condenser: the condenser heat flow plus the recovered heat is at
    least the evaporator heat flow plus the false-load rate; without heat
    recovery the condenser heat flow alone is. *)
Theorem condenser_heat_balance env sp st MyLoad RunFlag FirstIteration
    EquipFlowCtrl T o :
  MyLoad < 0 -> RunFlag = true ->
  CalcReformEIRChillerModel env sp st MyLoad RunFlag FirstIteration EquipFlowCtrl T
  = Ok o ->
  exit o = ExitEnd ->
  0 <= fouled_RefCap env sp ->
  0 <= CompPowerToCondenserFrac sp ->
  QEvaporator (state o) + ChillerFalseLoadRate (state o)
  <= QCondenser (state o) + QHeatRecovery (state o)
  /\ (HeatRecActive sp = false ->
      QEvaporator (state o) + ChillerFalseLoadRate (state o)
      <= QCondenser (state o)).
Proof.
  intros Hload Hrun H Hx Hcap Hfrac.
  apply calc_running in H; [ | apply running_test; assumption].
  destruct H; cbn [exit state] in *; try discriminate.
  - unfold pre_state, zero_outputs in *. use_frames.
    assert (HA : 0 <= AvailChillerCap)
      by (subst AvailChillerCap; apply Qmult_le_0_compat; assumption).
    match goal with H : calc_power_condenser _ _ _ _ _ _ _ _ = Ok _ |- _ =>
      apply calc_power_condenser_balance in H;
      [ | exact HA | lra | exact Hfrac | | ]
    end.
    + replace (QEvaporator st3) with (QEvaporator st2) by congruence.
      replace (ChillerFalseLoadRate st3) with (ChillerFalseLoadRate st2)
        by congruence.
      assumption.
    + fields. replace (ChillerEIRFPLR st2) with 0 by congruence. lra.
    + fields. congruence.
  - unfold pre_state, zero_outputs in *. use_frames.
    assert (HA : 0 <= AvailChillerCap)
      by (subst AvailChillerCap; apply Qmult_le_0_compat; assumption).
    match goal with H : calc_flow_locked _ _ _ _ _ _ _ _ = Ok _ |- _ =>
      apply calc_flow_locked_spec in H;
      destruct H as (plr & _ & _ & _ & _ & HF)
    end.
    match goal with H : calc_power_condenser _ _ _ _ _ _ _ _ = Ok _ |- _ =>
      apply calc_power_condenser_balance in H;
      [ | exact HA | exact HF | exact Hfrac | | ]
    end.
    + replace (QEvaporator st3) with (QEvaporator st2) by congruence.
      replace (ChillerFalseLoadRate st3) with (ChillerFalseLoadRate st2)
        by congruence.
      assumption.
    + fields. replace (ChillerEIRFPLR st2) with 0 by congruence. lra.
    + fields. congruence.
Qed.

(** The flow-locked bench without heat recovery. *)
Lemma condenser_heat_balance_witness :
  exists o,
    CalcReformEIRChillerModel (Bench.env 1 1 25 0)
      (Bench.spec ConstantFlow 40 false 0 0) Bench.st0 (-(300000)) true false 1 30
    = Ok o
    /\ QEvaporator (state o) + ChillerFalseLoadRate (state o)
       <= QCondenser (state o).
Proof.
  bench_run o E. eexists. split; [reflexivity | ].
  refine (proj2 (condenser_heat_balance _ _ _ _ _ _ _ _ _
                   (eq_refl : -(300000) < 0) eq_refl E eq_refl _ _) eq_refl);
    vm_compute; discriminate.
Defined.

(** C2 as stated fails with heat recovery: on the bench the set-point
    policy recovers the whole condenser heat (about 354.5 kW), so that the
    condenser heat flow in the record is 0, below the evaporator heat flow
    of 300 kW. *)
Lemma heat_recovery_breaks_balance :
  exists o,
    CalcReformEIRChillerModel (Bench.env 1 1 25 10)
      (Bench.spec ConstantFlow 40 true 1 0) Bench.st0 (-(300000)) true false 1 30
    = Ok o
    /\ exit o = ExitEnd
    /\ QEvaporator (state o) == 300000
    /\ QCondenser (state o) == 0
    /\ ~ QEvaporator (state o) + ChillerFalseLoadRate (state o)
         <= QCondenser (state o).
Proof.
  eexists. split; [vm_compute; reflexivity | ].
  split; [reflexivity | ]. split; [vm_compute; reflexivity | ].
  split; [vm_compute; reflexivity | ].
  vm_compute. intros H. apply H. reflexivity.
Qed.

(** ** No division by zero (claim C10) *)

(** One step of a forward run: the test, pair or division at the head of
    the routine is resolved; [solver] shows a denominator is not zero. *)
Ltac head_step e solver :=
  lazymatch e with
  | bind ?r _ => head_step r solver
  | div ?a ?b => rewrite (div_ok a b) by solver
  | (if ?b then _ else _) => destruct b eqn:?
  | match ?x with (_, _) => _ end => destruct x eqn:?
  | match ?x with SingleSetPoint => _ | DualSetPointDeadBand => _ end =>
      destruct x eqn:?
  end.

Ltac run_forward solver :=
  repeat (cbv zeta; cbn [bind];
          lazymatch goal with
          | |- exists r, Ok _ = Ok r => fail
          | |- exists r, ?e = Ok r => head_step e solver
          end);
  cbv zeta; cbn [bind]; try (eexists; reflexivity).

Ltac nonzero := fields; reflect_tests; intros ?; lra.

Lemma part_load_ratio_ok sp A q : exists p, part_load_ratio sp A q = Ok p.
Proof. unfold part_load_ratio. run_forward nonzero. Qed.

Lemma lift_variables_ok sp c e : exists r, lift_variables sp c e = Ok r.
Proof.
  unfold lift_variables.
  destruct (Real64.leb (TempRefCondOut sp - TempRefEvapOut sp) 0) eqn:E.
  - run_forward ltac:(intros H; vm_compute in H; discriminate H).
  - run_forward nonzero.
Qed.

Section Safe.

Variable env : Env.
Hypothesis Cp_pos : forall l t, 0 < GetSpecificHeatGlycol env l t.
Hypothesis tol_nonneg : 0 <= MassFlowTolerance env.
Hypothesis hr_flow_nonneg : 0 <= MassFlowRate (HeatRecInletNode env).

Lemma Cp_nonzero l t : ~ GetSpecificHeatGlycol env l t == 0.
Proof. pose proof (Cp_pos l t). lra. Qed.

Ltac nonzero_cp :=
  first [ apply Cp_nonzero | fields; reflect_tests; intros ?; lra ].

Lemma heat_recovery_ok sp st QCond CondMassFlow CondInletTemp :
  MassFlowTolerance env < CondMassFlow ->
  exists r,
    ReformEIRChillerHeatRecovery env sp st QCond CondMassFlow CondInletTemp = Ok r.
Proof.
  intros Hflow. unfold ReformEIRChillerHeatRecovery.
  set (m := MassFlowRate (HeatRecInletNode env)) in *.
  set (cph := GetSpecificHeatGlycol env HRLoop (Temp (HeatRecInletNode env))).
  set (cpc := GetSpecificHeatGlycol env CDLoop CondInletTemp).
  assert (Hh : 0 < cph) by apply Cp_pos.
  assert (Hc : 0 < cpc) by apply Cp_pos.
  assert (H1 : 0 <= m * cph) by (apply Qmult_le_0_compat; lra).
  assert (H2 : 0 < CondMassFlow * cpc)
    by (apply Qmult_lt_0_compat; lra).
  assert (H3 : 0 < m -> 0 < m * cph)
    by (intros; apply Qmult_lt_0_compat; lra).
  run_forward ltac:(reflect_tests; intros ?; try specialize (H3 ltac:(assumption)); lra).
Qed.

Lemma calc_power_condenser_ok sp st A C P F T :
  exists r, calc_power_condenser env sp st A C P F T = Ok r.
Proof.
  unfold calc_power_condenser.
  assert (HC : ~ (if Real64.leb C 0 then 5.5 else C) == 0).
  { destruct (Real64.leb C 0) eqn:E; reflect_tests; [ | lra].
    intros H; vm_compute in H; discriminate H. }
  cbv zeta.
  destruct (PartLoadCurveType sp =? PLR_LeavingCondenserWaterTemperature)%Z;
    [ | destruct (PartLoadCurveType sp =? PLR_Lift)%Z;
        [ match goal with |- context [lift_variables sp ?c ?e] =>
            destruct (lift_variables_ok sp c e) as [[x1 x2] ->] end | ] ];
    cbn [bind]; rewrite (div_ok _ _ HC); cbn [bind]; fields;
    (destruct (Real64.gtb _ (MassFlowTolerance env)) eqn:Hflow;
     [ | eexists; reflexivity ]);
    destruct (HeatRecActive sp);
    try match goal with
      | |- context [ReformEIRChillerHeatRecovery env sp ?s ?q ?m ?t] =>
          let Hm := fresh in
          assert (Hm : MassFlowTolerance env < m)
            by (fields; reflect_tests; assumption);
          let E := fresh in
          destruct (heat_recovery_ok sp s q m t Hm) as [[[s' q'] h'] E];
          rewrite E; apply heat_recovery_state in E; destruct E as (? & ->)
      end;
    run_forward nonzero_cp.
Qed.

Lemma calc_flow_unlocked_ok sp st A Cp P :
  ~ Cp == 0 -> exists r, calc_flow_unlocked env sp st A Cp P = Ok r.
Proof.
  intros HCp. unfold calc_flow_unlocked, apply_swt_fault.
  destruct (CurOpSchemeType env =? CompSetPtBasedSchemeType env)%Z;
    destruct (LoopDemandCalcScheme env CWLoop);
    run_forward ltac:(first [exact HCp | nonzero]).
Qed.

Lemma clamp_load_ok Cp cap st :
  ~ Cp == 0 -> exists r, clamp_load env Cp cap st = Ok r.
Proof.
  intros HCp. unfold clamp_load.
  run_forward ltac:(first [exact HCp | nonzero]).
Qed.

Lemma clamp_outlet_low_flow Cp limit st :
  EvapMassFlowRate (clamp_outlet_low env Cp limit st) = EvapMassFlowRate st.
Proof. unfold clamp_outlet_low. goal_tests; reflexivity. Qed.

Lemma locked_evaporator_ok sp st SP Cp L :
  ~ Cp == 0 -> ~ EvapMassFlowRate st == 0 ->
  exists r, locked_evaporator env sp st SP Cp L = Ok r.
Proof.
  intros HCp Hm. unfold locked_evaporator.
  destruct (PossibleSubcooling st);
    [rewrite (div_ok _ (EvapMassFlowRate (set_QEvaporator (Qabs L) st)))
       by (fields; exact Hm); cbn [bind]; rewrite (div_ok _ Cp HCp) | ];
    cbn [bind]; cbv zeta; apply clamp_load_ok; exact HCp.
Qed.

Lemma locked_part_load_ok sp st A F :
  exists r, locked_part_load env sp st A F = Ok r.
Proof.
  unfold locked_part_load.
  destruct (part_load_ratio sp A (QEvaporator st)) as [plr | ] eqn:Hp;
    [ | destruct (part_load_ratio_ok sp A (QEvaporator st)); congruence].
  apply part_load_ratio_spec in Hp. destruct Hp as (Hp & _).
  run_forward nonzero.
Qed.

Lemma calc_flow_locked_ok sp st SP A Cp L F :
  ~ Cp == 0 -> ~ EvapMassFlowRate st == 0 ->
  exists r, calc_flow_locked env sp st SP A Cp L F = Ok r.
Proof.
  intros HCp Hm. unfold calc_flow_locked.
  destruct (locked_evaporator_ok sp st SP Cp L HCp Hm) as [s1 ->]. cbn [bind].
  cbv zeta.
  match goal with |- context [clamp_load env Cp ?c ?s] =>
    destruct (clamp_load_ok Cp c s HCp) as [s2 ->] end.
  cbn [bind]. apply locked_part_load_ok.
Qed.

Lemma calc_ok sp st MyLoad RunFlag FirstIteration EquipFlowCtrl T :
  exists o,
    CalcReformEIRChillerModel env sp st MyLoad RunFlag FirstIteration EquipFlowCtrl T
    = Ok o.
Proof.
  unfold CalcReformEIRChillerModel, calc_cond_avg_temp.
  pose proof (Cp_nonzero CWLoop (Temp (EvapInletNode env))) as HCp.
  cbv zeta. destruct (_ || _); [eexists; reflexivity | ].
  destruct (calc_fouling env sp _) as [[s1 cap] cop] eqn:Hf.
  assert (Hz : QHeatRecovery s1 = 0 /\ QCondenser s1 = 0).
  { unfold calc_fouling, calc_reset in Hf. run_all; fields; split; reflexivity. }
  destruct Hz as (Hz1 & Hz2).
  destruct (_ && _); [eexists; reflexivity | ].
  destruct (calc_setpoint env sp _) as [s2 SP] eqn:Hs.
  assert (Hz : QHeatRecovery s2 = 0 /\ QCondenser s2 = 0).
  { unfold calc_setpoint in Hs.
    destruct (CondenserType sp =? WaterCooled)%Z;
      run_all; fields; split; assumption. }
  destruct Hz as (Hz3 & Hz4). rewrite Hz3, Hz4.
  replace (Real64.gtb (0 + 0) 0) with false by reflexivity.
  replace (if HeatRecActive sp
           then Ok (set_ChillerCondAvgTemp T s2)
           else Ok (set_ChillerCondAvgTemp T s2))
    with (Ok (set_ChillerCondAvgTemp T s2)) by (destruct (HeatRecActive sp); reflexivity).
  cbn [bind]. fields.
  destruct (Real64.eqb (MassFlowRate (EvapInletNode env)) 0) eqn:Hflow;
    [eexists; reflexivity | ].
  match goal with |- context [part_load_ratio sp ?a ?q] =>
    destruct (part_load_ratio_ok sp a q) as [plr ->] end.
  cbn [bind].
  destruct (FlowLock env =? 0)%Z.
  - match goal with |- context [calc_flow_unlocked env sp ?s ?a ?c ?p] =>
      destruct (calc_flow_unlocked_ok sp s a c p HCp) as [[[s3 p3] d3] ->] end.
    cbn [bind].
    match goal with |- context [calc_power_condenser env sp ?s ?a ?c ?p ?f ?t] =>
      destruct (calc_power_condenser_ok sp s a c p f t) as [[s4 d4] ->] end.
    cbn [bind]. eexists; reflexivity.
  - destruct (Real64.eqb (SetComponentFlowRate env CWLoop _) 0) eqn:Hgr;
      [eexists; reflexivity | ].
    match goal with |- context [calc_flow_locked env sp ?s ?t ?a ?c ?l ?f] =>
      destruct (calc_flow_locked_ok sp s t a c l f HCp) as [[[s3 p3] f3] ->];
      [fields; reflect_tests; assumption | ] end.
    cbn [bind].
    match goal with |- context [calc_power_condenser env sp ?s ?a ?c ?p ?f ?t] =>
      destruct (calc_power_condenser_ok sp s a c p f t) as [[s4 d4] ->] end.
    cbn [bind]. eexists; reflexivity.
Qed.

End Safe.

(** C10.  Every division of the single-point evaluator and of the
    heat-recovery split has a denominator that is not zero: with positive
    specific heats, a non-negative flow tolerance and a non-negative
    heat-recovery flow, the evaluator returns a result on every input, and
    the split does whenever it is called with a condenser mass flow above
    the flow tolerance. *)
Theorem no_division_by_zero env sp st MyLoad RunFlag FirstIteration EquipFlowCtrl T
    QCond CondMassFlow CondInletTemp :
  (forall l t, 0 < GetSpecificHeatGlycol env l t) ->
  0 <= MassFlowTolerance env ->
  0 <= MassFlowRate (HeatRecInletNode env) ->
  (exists o,
      CalcReformEIRChillerModel env sp st MyLoad RunFlag FirstIteration EquipFlowCtrl T
      = Ok o)
  /\ (MassFlowTolerance env < CondMassFlow ->
      exists r,
        ReformEIRChillerHeatRecovery env sp st QCond CondMassFlow CondInletTemp
        = Ok r).
Proof.
  intros HCp Htol Hhr. split.
  - apply calc_ok; assumption.
  - apply heat_recovery_ok; assumption.
Qed.

(** The bench with heat recovery, flow locked. *)
Lemma no_division_by_zero_witness :
  (exists o,
      CalcReformEIRChillerModel (Bench.env 1 1 25 10)
        (Bench.spec ConstantFlow 40 true 0 0) Bench.st0 (-(300000)) true false 1 30
      = Ok o)
  /\ (MassFlowTolerance (Bench.env 1 1 25 10) < 25 ->
      exists r,
        ReformEIRChillerHeatRecovery (Bench.env 1 1 25 10)
          (Bench.spec ConstantFlow 40 true 0 0) Bench.st0 350000 25 29.4 = Ok r).
Proof.
  apply no_division_by_zero.
  - intros l t. reflexivity.
  - vm_compute. discriminate.
  - vm_compute. discriminate.
Defined.

(** ** Counters: the increment of a C++ int *)

Lemma int_succ_in_range n : (INT_MIN <= n < INT_MAX)%Z -> int_succ n = (n + 1)%Z.
Proof.
  unfold int_succ, int_wrap, INT_MIN, INT_MAX. intros H.
  rewrite Z.mod_small by lia. lia.
Qed.

Lemma int_succ_range n : (INT_MIN <= int_succ n <= INT_MAX)%Z.
Proof.
  unfold int_succ, int_wrap, INT_MIN, INT_MAX.
  pose proof (Z.mod_pos_bound (n + 1 + 2147483648) 4294967296 eq_refl). lia.
Qed.

Lemma int_succ_max : int_succ INT_MAX = INT_MIN.
Proof. reflexivity. Qed.

Lemma int_succ_changes n : int_succ n <> n.
Proof.
  intros H. pose proof (int_succ_range n) as R. rewrite H in R.
  destruct (Z.eq_dec n INT_MAX) as [-> | Hn].
  - discriminate H.
  - rewrite int_succ_in_range in H by lia. lia.
Qed.

Lemma counter_step_bounds n n' :
  counter_step n n' ->
  ((INT_MIN <= n < INT_MAX)%Z -> (n <= n' <= n + 1)%Z)
  /\ ((INT_MIN <= n <= INT_MAX)%Z -> (INT_MIN <= n' <= INT_MAX)%Z).
Proof.
  intros [-> | ->].
  - split; intros; lia.
  - split; intros H.
    + rewrite int_succ_in_range by exact H. lia.
    + apply int_succ_range.
Qed.

(** ** The boundary validator (claim C4) *)

Lemma validator_ok env sp st FirstIteration :
  exists r, CheckMinMaxCurveBoundaries env sp st FirstIteration = Ok r.
Proof.
  unfold CheckMinMaxCurveBoundaries.
  destruct (_ || _); [eexists; reflexivity | ].
  destruct (PartLoadCurveType sp =? PLR_LeavingCondenserWaterTemperature)%Z;
    [ | destruct (PartLoadCurveType sp =? PLR_Lift)%Z ];
    repeat (cbv beta iota zeta; cbn [bind];
            match goal with
            | |- context [range_check ?c ?v ?l ?h ?n] =>
                destruct (range_check c v l h n)
            | |- context [negative_check ?e ?c ?v ?x ?y ?n] =>
                destruct (negative_check e c v x y n)
            | |- context [lift_variables _ ?c ?e] =>
                destruct (lift_variables_ok sp c e) as [[? ?] ->]
            end);
    cbv beta iota zeta; cbn [bind]; eexists; reflexivity.
Qed.

Lemma validator_skipped env sp st FirstIteration :
  FirstIteration || WarmupFlag env || (FlowLock env =? 0)%Z = true ->
  CheckMinMaxCurveBoundaries env sp st FirstIteration = Ok (st, []).
Proof. intros H. unfold CheckMinMaxCurveBoundaries. rewrite H. reflexivity. Qed.

(** The record a run leaves, as far as the next run reads it: the frame
    and the three curve outputs as functions of the fields in the frame. *)
Lemma validator_run env sp st FirstIteration st' ds :
  CheckMinMaxCurveBoundaries env sp st FirstIteration = Ok (st', ds) ->
  validator_frame st st'
  /\ (FirstIteration || WarmupFlag env || (FlowLock env =? 0)%Z = false ->
      ChillerCapFT st'
      = CurveValue env (ChillerCapFTIndex sp) (outlet_setpoint env sp)
          (CondOutletTemp st)
      /\ ChillerEIRFT st'
         = CurveValue env (ChillerEIRFTIndex sp) (EvapOutletTemp st)
             (CondOutletTemp st)
      /\ ((PartLoadCurveType sp =? PLR_LeavingCondenserWaterTemperature)%Z = true ->
          ChillerEIRFPLR st'
          = CurveValue env (ChillerEIRFPLRIndex sp) (CondOutletTemp st)
              (ChillerPartLoadRatio st))
      /\ ((PartLoadCurveType sp =? PLR_LeavingCondenserWaterTemperature)%Z = false ->
          (PartLoadCurveType sp =? PLR_Lift)%Z = true ->
          exists a b,
            lift_variables sp (CondOutletTemp st) (EvapOutletTemp st) = Ok (a, b)
            /\ ChillerEIRFPLR st'
               = CurveValue3 env (ChillerEIRFPLRIndex sp) a
                   (ChillerPartLoadRatio st) b)
      /\ ((PartLoadCurveType sp =? PLR_LeavingCondenserWaterTemperature)%Z = false ->
          (PartLoadCurveType sp =? PLR_Lift)%Z = false ->
          ChillerEIRFPLR st' = ChillerEIRFPLR st)).
Proof.
  unfold CheckMinMaxCurveBoundaries. intros H.
  destruct (_ || _) eqn:Hskip.
  - injection H as <- _. split; [ | discriminate].
    unfold validator_frame. repeat split; reflexivity.
  - destruct (PartLoadCurveType sp =? PLR_LeavingCondenserWaterTemperature)%Z eqn:HT;
      [ | destruct (PartLoadCurveType sp =? PLR_Lift)%Z eqn:HL ];
      run_all; fields;
      (split; [unfold validator_frame; fields; repeat split; reflexivity | ]);
      intros _; fields;
      (split; [reflexivity | ]); (split; [reflexivity | ]);
      (split; [first [reflexivity | discriminate] | ]);
      (split; [first [discriminate | intros _ _; eauto | intros _; discriminate] | ]);
      first [discriminate | intros _; discriminate | intros _ _; reflexivity].
Qed.

Lemma validator_checks env sp st FirstIteration st' ds :
  CheckMinMaxCurveBoundaries env sp st FirstIteration = Ok (st', ds) ->
  FirstIteration || WarmupFlag env || (FlowLock env =? 0)%Z = false ->
  exists d1 d2 d3 d4 d5 d6 d7 d8 d9,
    ds = d1 ++ d2 ++ d3 ++ d4 ++ d5 ++ d6 ++ d7 ++ d8 ++ d9
    /\ range_check CkCAPFTX (EvapOutletTemp st) (ChillerCAPFTXTempMin sp)
         (ChillerCAPFTXTempMax sp) (CAPFTXIter st) = (CAPFTXIter st', d1)
    /\ range_check CkEIRFTX (EvapOutletTemp st) (ChillerEIRFTXTempMin sp)
         (ChillerEIRFTXTempMax sp) (EIRFTXIter st) = (EIRFTXIter st', d2)
    /\ range_check CkCAPFTY (CondOutletTemp st) (ChillerCAPFTYTempMin sp)
         (ChillerCAPFTYTempMax sp) (CAPFTYIter st) = (CAPFTYIter st', d3)
    /\ range_check CkEIRFTY (CondOutletTemp st) (ChillerEIRFTYTempMin sp)
         (ChillerEIRFTYTempMax sp) (EIRFTYIter st) = (EIRFTYIter st', d4)
    /\ (if (PartLoadCurveType sp =? PLR_LeavingCondenserWaterTemperature)%Z
        then range_check CkEIRFPLRT (CondOutletTemp st) (ChillerEIRFPLRTempMin sp)
               (ChillerEIRFPLRTempMax sp) (EIRFPLRTIter st)
             = (EIRFPLRTIter st', d5)
        else EIRFPLRTIter st' = EIRFPLRTIter st /\ d5 = [])
    /\ range_check CkEIRFPLRPLR (ChillerPartLoadRatio st) (ChillerEIRFPLRPLRMin sp)
         (ChillerEIRFPLRPLRMax sp) (EIRFPLRPLRIter st) = (EIRFPLRPLRIter st', d6)
    /\ negative_check env CkCapFTNegative (ChillerCapFT st') (outlet_setpoint env sp)
         (CondOutletTemp st) (ChillerCapFTError st) = (ChillerCapFTError st', d7)
    /\ negative_check env CkEIRFTNegative (ChillerEIRFT st') (EvapOutletTemp st)
         (CondOutletTemp st) (ChillerEIRFTError st) = (ChillerEIRFTError st', d8)
    /\ negative_check env CkEIRFPLRNegative (ChillerEIRFPLR st')
         (ChillerPartLoadRatio st) (CondOutletTemp st) (ChillerEIRFPLRError st)
       = (ChillerEIRFPLRError st', d9).
Proof.
  unfold CheckMinMaxCurveBoundaries. intros H Hskip. rewrite Hskip in H.
  destruct (PartLoadCurveType sp =? PLR_LeavingCondenserWaterTemperature)%Z eqn:HT;
    [ | destruct (PartLoadCurveType sp =? PLR_Lift)%Z eqn:HL ];
    run_all; fields;
    do 9 eexists;
    (split; [ | repeat (split; [first [eassumption | split; reflexivity] | ]);
                eassumption ]);
    reflexivity.
Qed.

Lemma range_check_spec c v lo hi n n' d :
  range_check c v lo hi n = (n', d) ->
  counter_step n n'
  /\ (lo <= v /\ v <= hi -> n' = n /\ d = [])
  /\ (v < lo \/ hi < v ->
      n' = int_succ n /\ In (ShowRecurringWarningErrorAtEnd c v v) d
      /\ (n = 0%Z -> In (ShowWarningError c [v]) d))
  /\ no_fatal d = true.
Proof.
  unfold range_check, counter_step. intros H.
  destruct (Real64.ltb v lo) eqn:E1; destruct (Real64.gtb v hi) eqn:E2;
    cbn [orb] in H; cbv zeta in H; reflect_tests;
    try (destruct (int_succ n =? 1)%Z eqn:E3);
    injection H as <- <-;
    (split; [auto | ]);
    (split; [intros (Ha & Hb); first [split; reflexivity | exfalso; lra] | ]);
    (split; [ | reflexivity]);
    intros Ho;
    try (exfalso; destruct Ho; lra);
    (split; [reflexivity | ]);
    (split; [cbn; tauto | ]);
    intros Hn; first [cbn; tauto | exfalso; subst n; discriminate E3].
Qed.

Lemma negative_check_spec env c v x y n n' d :
  negative_check env c v x y n = (n', d) ->
  counter_step n n'
  /\ (0 <= v -> n' = n /\ d = [])
  /\ (v < 0 -> FlowLock env <> 0%Z -> WarmupFlag env = false ->
      n' = int_succ n /\ d <> [])
  /\ no_fatal d = true.
Proof.
  unfold negative_check, counter_step. intros H.
  destruct (Real64.ltb v 0) eqn:E1; reflect_tests.
  - destruct (FlowLock env =? 0)%Z eqn:EL; destruct (WarmupFlag env) eqn:EW;
      destruct (n <? 1)%Z; cbn [andb negb] in H; injection H as <- <-;
      (split; [auto | ]);
      (split; [intros Hv; exfalso; lra | ]);
      (split; [ | reflexivity]);
      intros _ HL HW;
      first [ discriminate HW
            | exfalso; apply HL; apply Z.eqb_eq; exact EL
            | split; [reflexivity | discriminate] ].
  - injection H as <- <-.
    split; [auto | ]. split; [intros; split; reflexivity | ].
    split; [intros Hv; exfalso; lra | reflexivity].
Qed.

Lemma range_check_counted c v lo hi n n' d :
  range_check c v lo hi n = (n', d) -> counted (out_of_range v lo hi) n n'.
Proof.
  intros H. apply range_check_spec in H. destruct H as (_ & Hin & Hout & _).
  unfold counted, out_of_range. split.
  - intros Ho. exact (proj1 (Hout Ho)).
  - intros Hn. apply Hin. split.
    + apply Qnot_lt_le. intros Hc. apply Hn. left. exact Hc.
    + apply Qnot_lt_le. intros Hc. apply Hn. right. exact Hc.
Qed.

Lemma negative_check_counted env c v x y n n' d :
  negative_check env c v x y n = (n', d) ->
  FlowLock env <> 0%Z -> WarmupFlag env = false ->
  counted (v < 0) n n'.
Proof.
  intros H HL HW. apply negative_check_spec in H. destruct H as (_ & Hin & Hneg & _).
  unfold counted. split.
  - intros Hv. exact (proj1 (Hneg Hv HL HW)).
  - intros Hn. apply Hin. apply Qnot_lt_le. exact Hn.
Qed.

Lemma validator_not_skipped env FirstIteration :
  FirstIteration || WarmupFlag env || (FlowLock env =? 0)%Z = false ->
  FlowLock env <> 0%Z /\ WarmupFlag env = false.
Proof.
  intros H. apply orb_false_iff in H. destruct H as (H & HL).
  apply orb_false_iff in H. destruct H as (_ & HW).
  apply Z.eqb_neq in HL. auto.
Qed.

(** C4, as the code has it.  A run of the boundary validator returns, and
    leaves every field of the chiller record unchanged other than the three
    stored curve outputs and the nine counters of its checks.  When the
    pass is skipped (first iteration, warm-up or unlocked flow) nothing at
    all is changed and nothing is reported.  When it is not skipped, the
    stored capacity-curve and EIR-temperature-curve outputs are overwritten
    with the unclamped curve values at the temperatures in the record, the
    stored part-load-curve output with the unclamped value of the curve of
    the chiller's type; the counter of each of the six range checks is
    incremented (as a C++ int) exactly when the checked temperature or
    part-load ratio is outside the range of its curve, and the counter of
    each of the three sign checks exactly when the curve value just stored
    is negative; otherwise a counter keeps its value.  A second run on the
    record the first one left stores the same three curve outputs again. *)
Theorem validator_effect env sp st FirstIteration :
  exists st' ds,
    CheckMinMaxCurveBoundaries env sp st FirstIteration = Ok (st', ds)
    /\ validator_frame st st'
    /\ (FirstIteration || WarmupFlag env || (FlowLock env =? 0)%Z = true ->
        st' = st /\ ds = [])
    /\ (FirstIteration || WarmupFlag env || (FlowLock env =? 0)%Z = false ->
        (ChillerCapFT st'
         = CurveValue env (ChillerCapFTIndex sp) (outlet_setpoint env sp)
             (CondOutletTemp st)
         /\ ChillerEIRFT st'
            = CurveValue env (ChillerEIRFTIndex sp) (EvapOutletTemp st)
                (CondOutletTemp st)
         /\ ((PartLoadCurveType sp =? PLR_LeavingCondenserWaterTemperature)%Z = true ->
             ChillerEIRFPLR st'
             = CurveValue env (ChillerEIRFPLRIndex sp) (CondOutletTemp st)
                 (ChillerPartLoadRatio st))
         /\ ((PartLoadCurveType sp =? PLR_LeavingCondenserWaterTemperature)%Z = false ->
             (PartLoadCurveType sp =? PLR_Lift)%Z = true ->
             exists a b,
               lift_variables sp (CondOutletTemp st) (EvapOutletTemp st) = Ok (a, b)
               /\ ChillerEIRFPLR st'
                  = CurveValue3 env (ChillerEIRFPLRIndex sp) a
                      (ChillerPartLoadRatio st) b)
         /\ ((PartLoadCurveType sp =? PLR_LeavingCondenserWaterTemperature)%Z = false ->
             (PartLoadCurveType sp =? PLR_Lift)%Z = false ->
             ChillerEIRFPLR st' = ChillerEIRFPLR st))
        /\ counted (out_of_range (EvapOutletTemp st) (ChillerCAPFTXTempMin sp)
                      (ChillerCAPFTXTempMax sp))
             (CAPFTXIter st) (CAPFTXIter st')
        /\ counted (out_of_range (EvapOutletTemp st) (ChillerEIRFTXTempMin sp)
                      (ChillerEIRFTXTempMax sp))
             (EIRFTXIter st) (EIRFTXIter st')
        /\ counted (out_of_range (CondOutletTemp st) (ChillerCAPFTYTempMin sp)
                      (ChillerCAPFTYTempMax sp))
             (CAPFTYIter st) (CAPFTYIter st')
        /\ counted (out_of_range (CondOutletTemp st) (ChillerEIRFTYTempMin sp)
                      (ChillerEIRFTYTempMax sp))
             (EIRFTYIter st) (EIRFTYIter st')
        /\ counted (PartLoadCurveType sp = PLR_LeavingCondenserWaterTemperature
                    /\ out_of_range (CondOutletTemp st) (ChillerEIRFPLRTempMin sp)
                         (ChillerEIRFPLRTempMax sp))
             (EIRFPLRTIter st) (EIRFPLRTIter st')
        /\ counted (out_of_range (ChillerPartLoadRatio st) (ChillerEIRFPLRPLRMin sp)
                      (ChillerEIRFPLRPLRMax sp))
             (EIRFPLRPLRIter st) (EIRFPLRPLRIter st')
        /\ counted (ChillerCapFT st' < 0) (ChillerCapFTError st) (ChillerCapFTError st')
        /\ counted (ChillerEIRFT st' < 0) (ChillerEIRFTError st) (ChillerEIRFTError st')
        /\ counted (ChillerEIRFPLR st' < 0) (ChillerEIRFPLRError st)
             (ChillerEIRFPLRError st'))
    /\ exists st'' ds',
        CheckMinMaxCurveBoundaries env sp st' FirstIteration = Ok (st'', ds')
        /\ ChillerCapFT st'' = ChillerCapFT st'
        /\ ChillerEIRFT st'' = ChillerEIRFT st'
        /\ ChillerEIRFPLR st'' = ChillerEIRFPLR st'.
Proof.
  destruct (validator_ok env sp st FirstIteration) as [[st' ds] H1].
  destruct (validator_ok env sp st' FirstIteration) as [[st'' ds'] H2].
  exists st', ds. split; [exact H1 | ].
  destruct (validator_run _ _ _ _ _ _ H1) as (F1 & R1).
  destruct (validator_run _ _ _ _ _ _ H2) as (F2 & R2).
  split; [exact F1 | ].
  destruct (FirstIteration || WarmupFlag env || (FlowLock env =? 0)%Z) eqn:Hskip.
  - rewrite validator_skipped in H1 by exact Hskip. injection H1 as <- <-.
    rewrite validator_skipped in H2 by exact Hskip. injection H2 as <- <-.
    split; [auto | ]. split; [discriminate | ].
    exists st, []. split; [apply validator_skipped, Hskip | auto].
  - split; [discriminate | ].
    split.
    { intros _. split; [exact (R1 eq_refl) | ].
      destruct (validator_not_skipped _ _ Hskip) as (HL & HW).
      destruct (validator_checks _ _ _ _ _ _ H1 Hskip)
        as (d1 & d2 & d3 & d4 & d5 & d6 & d7 & d8 & d9 & _ & C1 & C2 & C3 & C4 & C5
            & C6 & C7 & C8 & C9).
      split; [exact (range_check_counted _ _ _ _ _ _ _ C1) | ].
      split; [exact (range_check_counted _ _ _ _ _ _ _ C2) | ].
      split; [exact (range_check_counted _ _ _ _ _ _ _ C3) | ].
      split; [exact (range_check_counted _ _ _ _ _ _ _ C4) | ].
      split.
      { destruct (PartLoadCurveType sp =? PLR_LeavingCondenserWaterTemperature)%Z
          eqn:ET.
        - apply Z.eqb_eq in ET. apply range_check_counted in C5.
          destruct C5 as (Ca & Cb). split.
          + intros (_ & Ho). exact (Ca Ho).
          + intros Hn. apply Cb. intros Ho. apply Hn. split; assumption.
        - apply Z.eqb_neq in ET. destruct C5 as (C5 & _). split.
          + intros (Ht & _). contradiction.
          + intros _. exact C5. }
      split; [exact (range_check_counted _ _ _ _ _ _ _ C6) | ].
      split; [exact (negative_check_counted _ _ _ _ _ _ _ _ C7 HL HW) | ].
      split; [exact (negative_check_counted _ _ _ _ _ _ _ _ C8 HL HW) | ].
      exact (negative_check_counted _ _ _ _ _ _ _ _ C9 HL HW). }
    exists st'', ds'. split; [exact H2 | ].
    specialize (R1 eq_refl). specialize (R2 eq_refl).
    destruct R1 as (A1 & B1 & C1 & D1 & E1). destruct R2 as (A2 & B2 & C2 & D2 & E2).
    unfold validator_frame in F1.
    repeat match goal with H : _ /\ _ |- _ => destruct H end.
    split; [congruence | ]. split; [congruence | ].
    destruct (PartLoadCurveType sp =? PLR_LeavingCondenserWaterTemperature)%Z.
    + rewrite C1, C2 by reflexivity. congruence.
    + destruct (PartLoadCurveType sp =? PLR_Lift)%Z.
      * destruct (D1 eq_refl eq_refl) as (a1 & b1 & L1 & ->).
        destruct (D2 eq_refl eq_refl) as (a2 & b2 & L2 & ->).
        assert (E : Ok (a2, b2) = Ok (a1, b1)) by congruence.
        injection E as -> ->. congruence.
      * apply E2; reflexivity.
Qed.

(** C4 as stated fails.  On the bench with a capacity curve at -1 and the
    flow locked, the evaluator stores the clamped capacity-curve output 0;
    the validator overwrites it with -1 and counts the negative output; a
    second run on the record the first one left reports differently (the
    recurring message instead of the detailed warning) and counts again. *)
Lemma validator_writes_state :
  exists o st' d1 st'' d2,
    CalcReformEIRChillerModel (Bench.env 1 (-(1)) 25 0)
      (Bench.spec ConstantFlow 40 false 0 0) Bench.st0 (-(300000)) true false 1 30
    = Ok o
    /\ CheckMinMaxCurveBoundaries (Bench.env 1 (-(1)) 25 0)
         (Bench.spec ConstantFlow 40 false 0 0) (state o) false = Ok (st', d1)
    /\ CheckMinMaxCurveBoundaries (Bench.env 1 (-(1)) 25 0)
         (Bench.spec ConstantFlow 40 false 0 0) st' false = Ok (st'', d2)
    /\ ChillerCapFT (state o) == 0 /\ ChillerCapFT st' == -(1)
    /\ ChillerCapFTError (state o) = 0%Z /\ ChillerCapFTError st' = 1%Z
    /\ ChillerCapFTError st'' = 2%Z
    /\ st' <> state o
    /\ d1 <> d2.
Proof.
  do 5 eexists. split; [vm_compute; reflexivity | ].
  split; [vm_compute; reflexivity | ].
  split; [vm_compute; reflexivity | ].
  repeat (split; [reflexivity | ]).
  split; intros H; discriminate H.
Qed.

(** ** The condenser-temperature solver (claim C1) *)

Lemma Real64_to_int_inject z : Real64_to_int (inject_Z z) = z.
Proof. unfold Real64_to_int, inject_Z. cbn [Qnum Qden]. apply Z.quot_1_r. Qed.

Lemma Real64_to_int_flag (b : bool) :
  (Real64_to_int (if b then 1 else 0) =? 1)%Z = b.
Proof. destruct b; reflexivity. Qed.

Lemma calc_running_ignores env sp st MyLoad RunFlag FI1 FI2 c1 c2 T :
  Real64.geb MyLoad 0 || negb RunFlag = false ->
  CalcReformEIRChillerModel env sp st MyLoad RunFlag FI1 c1 T
  = CalcReformEIRChillerModel env sp st MyLoad RunFlag FI2 c2 T.
Proof.
  intros H. unfold CalcReformEIRChillerModel. rewrite H. reflexivity.
Qed.

(** The residual on the parameter array that the solver builds. *)
Lemma residual_on_solver_array env sp num MyLoad (RunFlag FirstIteration : bool)
    EquipFlowCtrl T st ds :
  CondOutTempResidual env sp T
    [ inject_Z num; MyLoad; (if RunFlag then 1 else 0);
      (if FirstIteration then 1 else 0); 0; inject_Z EquipFlowCtrl ] (st, ds)
  = (o <- CalcReformEIRChillerModel env sp st MyLoad RunFlag FirstIteration
            (if (EquipFlowCtrl =? 0)%Z then 0%Z else 1%Z) T ;;
     Ok (T - CondOutletTemp (state o), (state o, ds ++ diags o))).
Proof.
  unfold CondOutTempResidual, Par_at. cbn [nth Nat.sub fst snd].
  rewrite !Real64_to_int_flag, Real64_to_int_inject. reflexivity.
Qed.

(** Lines 1664-1720 as one statement: the call of the root finder and what
    the solver does with each flag. *)
Lemma solve_branch_spec env sp num st ds L (RunFlag FirstIteration : bool)
    EquipFlowCtrl Tmin Tmax called st' ds' L' :
  solve_branch env sp num st ds L RunFlag FirstIteration EquipFlowCtrl Tmin Tmax
  = Ok (called, st', ds', L') ->
  exists SolFla X st1 ds1,
    SolveRoot env Prog 0.0001 500%Z
      (fun x s =>
         CondOutTempResidual env sp x
           [ inject_Z num; L; (if RunFlag then 1 else 0);
             (if FirstIteration then 1 else 0); 0; inject_Z EquipFlowCtrl ] s)
      Tmin Tmax (st, ds)
    = Ok (SolFla, X, (st1, ds1))
    /\ (SolFla = (-1)%Z ->
        called = [StepSolveRoot 0.0001 500 Tmin Tmax] /\ L' = L
        /\ st' = (if WarmupFlag env then st1
                  else set_IterLimitExceededNum
                         (int_succ (IterLimitExceededNum st1)) st1)
        /\ ds' = (if WarmupFlag env then ds1
                  else ds1 ++ [if (int_succ (IterLimitExceededNum st1) =? 1)%Z
                               then ShowWarningError CkIterLimit []
                               else ShowRecurringWarningErrorAtEnd CkIterLimit
                                      (CondOutletTemp st1) (CondOutletTemp st1)]))
    /\ (SolFla = (-2)%Z ->
        exists o,
          CalcReformEIRChillerModel env sp
            (if WarmupFlag env then st1
             else set_IterFailed (int_succ (IterFailed st1)) st1)
            L RunFlag FirstIteration EquipFlowCtrl (Temp (CondInletNode env))
          = Ok o
          /\ called = [StepSolveRoot 0.0001 500 Tmin Tmax;
                       StepCalc (Temp (CondInletNode env))]
          /\ st' = state o /\ L' = load o
          /\ ds' = (if WarmupFlag env then ds1
                    else ds1 ++ (if (int_succ (IterFailed st1) =? 1)%Z
                                 then [ShowWarningError CkIterFailed [];
                                       ShowContinueError CkIterFailed []]
                                 else [ShowRecurringWarningErrorAtEnd CkIterFailed
                                         (CondOutletTemp st1) (CondOutletTemp st1)]))
                   ++ diags o)
    /\ (SolFla <> (-1)%Z -> SolFla <> (-2)%Z ->
        called = [StepSolveRoot 0.0001 500 Tmin Tmax]
        /\ st' = st1 /\ ds' = ds1 /\ L' = L).
Proof.
  unfold solve_branch. cbv zeta. intros H.
  bind_split H x Hx. destruct x as [[SolFla X] [st1 ds1]].
  exists SolFla, X, st1, ds1. split; [exact Hx | ].
  destruct (SolFla =? -1)%Z eqn:E1.
  - apply Z.eqb_eq in E1. subst SolFla.
    split; [intros _ | split; [discriminate | intros Hn; contradiction]].
    destruct (WarmupFlag env); cbn [negb] in H.
    + injection H as <- <- <- <-. repeat split.
    + fields. destruct (int_succ (IterLimitExceededNum st1) =? 1)%Z;
        injection H as <- <- <- <-; repeat split.
  - apply Z.eqb_neq in E1. split; [intros Hn; contradiction | ].
    destruct (SolFla =? -2)%Z eqn:E2.
    + apply Z.eqb_eq in E2. subst SolFla.
      split; [intros _ | intros _ Hn; contradiction].
      destruct (WarmupFlag env); cbn [negb] in H.
      * bind_split H o Ho. injection H as <- <- <- <-.
        exists o. repeat split. exact Ho.
      * fields. destruct (int_succ (IterFailed st1) =? 1)%Z;
          bind_split H o Ho; injection H as <- <- <- <-;
          exists o; repeat split; exact Ho.
    + apply Z.eqb_neq in E2. split; [intros Hn; contradiction | intros _ _].
      injection H as <- <- <- <-. repeat split.
Qed.

(** C1, as the code has it.  For a call with negative load and the run flag
    on, whose two probe evaluations at Tmin and Tmax return.  The residual
    that the solver hands to the root finder is, at a temperature T and on
    the record as the last evaluation left it, T minus the condenser outlet
    temperature that the evaluator leaves in the record when it is run at
    T with the load that the probes left; it leaves the record of that
    evaluation behind.  The solver calls the root finder if and only if the
    probe at Tmin produced a condenser outlet temperature strictly above
    Tmin and the probe at Tmax one strictly below Tmax; it then calls it
    right after the probes, with that residual, tolerance 0.0001, at most
    500 iterations, on [Tmin, Tmax], on the record the second probe left,
    and for a flag other than -1 and -2 it ends with the boundary validator
    on the record that the root finder left, handing back the load that the
    probes left.  In every other case it makes no call of the root finder,
    evaluates once at the mean of the two condenser outlet temperatures
    that the probes produced, then once more at the condenser outlet
    temperature that this evaluation produced, and ends with the boundary
    validator on the record of that last evaluation. *)
Theorem solver_branching env sp num st MyLoad FirstIteration EquipFlowCtrl o1 o2 r :
  MyLoad < 0 ->
  CalcReformEIRChillerModel env sp st MyLoad true FirstIteration EquipFlowCtrl
    (bracket_Tmin sp) = Ok o1 ->
  CalcReformEIRChillerModel env sp (state o1) (load o1) true FirstIteration
    EquipFlowCtrl (bracket_Tmax sp) = Ok o2 ->
  ControlReformEIRChillerModel env sp num st MyLoad true FirstIteration EquipFlowCtrl
  = Ok r ->
  let Tmin := bracket_Tmin sp in
  let Tmax := bracket_Tmax sp in
  let CondTempMin := CondOutletTemp (state o1) in
  let CondTempMax := CondOutletTemp (state o2) in
  let residual := fun (T : Q) (s : Prog) =>
    CondOutTempResidual env sp T
      [ inject_Z num; load o2; 1; (if FirstIteration then 1 else 0); 0;
        inject_Z EquipFlowCtrl ] s in
  (forall T s ds,
      residual T (s, ds)
      = (o <- CalcReformEIRChillerModel env sp s (load o2) true FirstIteration
                (if (EquipFlowCtrl =? 0)%Z then 0%Z else 1%Z) T ;;
         Ok (T - CondOutletTemp (state o), (state o, ds ++ diags o))))
  /\ (existsb is_solve_root (steps r) = true
      <-> Tmin < CondTempMin /\ CondTempMax < Tmax)
  /\ (Tmin < CondTempMin /\ CondTempMax < Tmax ->
      exists SolFla X st1 ds1 rest,
        SolveRoot env Prog 0.0001 500%Z residual Tmin Tmax
          (state o2, diags o1 ++ diags o2)
        = Ok (SolFla, X, (st1, ds1))
        /\ steps r = StepCalc Tmin :: StepCalc Tmax
                     :: StepSolveRoot 0.0001 500 Tmin Tmax :: rest
        /\ (SolFla <> (-1)%Z -> SolFla <> (-2)%Z ->
            exists dv,
              CheckMinMaxCurveBoundaries env sp st1 FirstIteration
              = Ok (final_state r, dv)
              /\ rest = [StepCheckBoundaries]
              /\ final_diags r = ds1 ++ dv
              /\ final_load r = load o2))
  /\ (~ (Tmin < CondTempMin /\ CondTempMax < Tmax) ->
      exists o3 o4 dv,
        CalcReformEIRChillerModel env sp (state o2) (load o2) true FirstIteration
          EquipFlowCtrl ((CondTempMin + CondTempMax) / 2) = Ok o3
        /\ CalcReformEIRChillerModel env sp (state o3) (load o3) true
             FirstIteration EquipFlowCtrl (CondOutletTemp (state o3)) = Ok o4
        /\ CheckMinMaxCurveBoundaries env sp (state o4) FirstIteration
           = Ok (final_state r, dv)
        /\ steps r = [StepCalc Tmin; StepCalc Tmax;
                      StepCalc ((CondTempMin + CondTempMax) / 2);
                      StepCalc (CondOutletTemp (state o3));
                      StepCheckBoundaries]
        /\ final_diags r = (diags o1 ++ diags o2 ++ diags o3 ++ diags o4) ++ dv
        /\ final_load r = load o4).
Proof.
  intros Hload H1 H2 H. cbv zeta.
  split.
  { intros T s ds.
    exact (residual_on_solver_array env sp num (load o2) true FirstIteration
             EquipFlowCtrl T s ds). }
  unfold ControlReformEIRChillerModel in H.
  rewrite (running_test _ _ Hload eq_refl) in H.
  cbv zeta in H. rewrite H1 in H. cbn [bind] in H. rewrite H2 in H. cbn [bind] in H.
  destruct (Real64.gtb (CondOutletTemp (state o1)) (bracket_Tmin sp)
            && Real64.ltb (CondOutletTemp (state o2)) (bracket_Tmax sp)) eqn:Hc.
  - apply andb_true_iff in Hc. destruct Hc as (Hc1 & Hc2). reflect_tests.
    bind_split H x Hx. destruct x as [[[called s] d] L].
    bind_split H y Hy. destruct y as [s' dv]. injection H as <-.
    cbn [steps final_state final_diags final_load].
    apply solve_branch_spec in Hx.
    destruct Hx as (SolFla & X & st1 & ds1 & HS & Hm1 & Hm2 & Hok).
    split; [ | split].
    + split; [auto | intros _].
      destruct (Z.eq_dec SolFla (-1)) as [E1 | E1];
        [destruct (Hm1 E1) as (-> & _); reflexivity | ].
      destruct (Z.eq_dec SolFla (-2)) as [E2 | E2];
        [destruct (Hm2 E2) as (o & _ & -> & _); reflexivity | ].
      destruct (Hok E1 E2) as (-> & _). reflexivity.
    + intros _. exists SolFla, X, st1, ds1, (tl called ++ [StepCheckBoundaries]).
      split; [exact HS | ]. split.
      * destruct (Z.eq_dec SolFla (-1)) as [E1 | E1];
          [destruct (Hm1 E1) as (-> & _); reflexivity | ].
        destruct (Z.eq_dec SolFla (-2)) as [E2 | E2];
          [destruct (Hm2 E2) as (o & _ & -> & _); reflexivity | ].
        destruct (Hok E1 E2) as (-> & _). reflexivity.
      * intros E1 E2. destruct (Hok E1 E2) as (-> & -> & -> & ->).
        exists dv. repeat split. exact Hy.
    + intros Hn. exfalso. auto.
  - assert (Hn : ~ (bracket_Tmin sp < CondOutletTemp (state o1)
                    /\ CondOutletTemp (state o2) < bracket_Tmax sp)).
    { intros (Ha & Hb). apply Real64Facts.gtb_true in Ha.
      apply Real64Facts.ltb_true in Hb. rewrite Ha, Hb in Hc. discriminate. }
    bind_split H x Hx. bind_split Hx o3 H3. bind_split Hx o4 H4.
    injection Hx as <-.
    bind_split H y Hy. destruct y as [s' dv]. injection H as <-.
    cbn [steps final_state final_diags final_load].
    split; [ | split].
    + split; [discriminate | intros Hy'; contradiction].
    + intros Hy'. contradiction.
    + intros _. exists o3, o4, dv. repeat split; assumption.
Qed.

(** The bench with curves valid up to 40 C: the probes give about 32.8 C,
    inside [15, 40], and the root finder is called.  With curves valid up
    to 30 C the probe at Tmax = 30 C yields about 32.8 C, and it is not. *)
Lemma solver_branching_witness :
  (exists o1 o2 r SolFla X s1,
      CalcReformEIRChillerModel (Bench.env 1 1 25 0)
        (Bench.spec ConstantFlow 40 false 0 0) Bench.st0 (-(300000)) true false 1
        (bracket_Tmin (Bench.spec ConstantFlow 40 false 0 0)) = Ok o1
      /\ CalcReformEIRChillerModel (Bench.env 1 1 25 0)
           (Bench.spec ConstantFlow 40 false 0 0) (state o1) (load o1) true false 1
           (bracket_Tmax (Bench.spec ConstantFlow 40 false 0 0)) = Ok o2
      /\ ControlReformEIRChillerModel (Bench.env 1 1 25 0)
           (Bench.spec ConstantFlow 40 false 0 0) 1 Bench.st0 (-(300000)) true
           false 1 = Ok r
      /\ existsb is_solve_root (steps r) = true
      /\ SolveRoot (Bench.env 1 1 25 0) Prog 0.0001 500%Z
           (fun T s =>
              CondOutTempResidual (Bench.env 1 1 25 0)
                (Bench.spec ConstantFlow 40 false 0 0) T
                [inject_Z 1; load o2; 1; 0; 0; inject_Z 1] s)
           (bracket_Tmin (Bench.spec ConstantFlow 40 false 0 0))
           (bracket_Tmax (Bench.spec ConstantFlow 40 false 0 0))
           (state o2, diags o1 ++ diags o2)
         = Ok (SolFla, X, s1))
  /\ (exists o1 o2 r,
      CalcReformEIRChillerModel (Bench.env 1 1 25 0)
        (Bench.spec ConstantFlow 30 false 0 0) Bench.st0 (-(300000)) true false 1
        (bracket_Tmin (Bench.spec ConstantFlow 30 false 0 0)) = Ok o1
      /\ CalcReformEIRChillerModel (Bench.env 1 1 25 0)
           (Bench.spec ConstantFlow 30 false 0 0) (state o1) (load o1) true false 1
           (bracket_Tmax (Bench.spec ConstantFlow 30 false 0 0)) = Ok o2
      /\ ControlReformEIRChillerModel (Bench.env 1 1 25 0)
           (Bench.spec ConstantFlow 30 false 0 0) 1 Bench.st0 (-(300000)) true
           false 1 = Ok r
      /\ existsb is_solve_root (steps r) = false).
Proof.
  split.
  - destruct (CalcReformEIRChillerModel (Bench.env 1 1 25 0)
                (Bench.spec ConstantFlow 40 false 0 0) Bench.st0 (-(300000)) true
                false 1 (bracket_Tmin (Bench.spec ConstantFlow 40 false 0 0)))
      as [o1 | ] eqn:E1; [ | vm_compute in E1; discriminate E1].
    pose proof E1 as E1'. vm_compute in E1'. injection E1' as <-.
    match type of E1 with
    | _ = Ok ?o =>
        destruct (CalcReformEIRChillerModel (Bench.env 1 1 25 0)
                    (Bench.spec ConstantFlow 40 false 0 0) (state o) (load o) true
                    false 1 (bracket_Tmax (Bench.spec ConstantFlow 40 false 0 0)))
          as [o2 | ] eqn:E2; [ | vm_compute in E2; discriminate E2]
    end.
    pose proof E2 as E2'. vm_compute in E2'. injection E2' as <-.
    destruct (ControlReformEIRChillerModel (Bench.env 1 1 25 0)
                (Bench.spec ConstantFlow 40 false 0 0) 1 Bench.st0 (-(300000)) true
                false 1) as [r | ] eqn:E3; [ | vm_compute in E3; discriminate E3].
    destruct (solver_branching _ _ _ _ _ _ _ _ _ _
                (eq_refl : -(300000) < 0) E1 E2 E3) as (_ & Hiff & Hcall & _).
    destruct Hcall as (SolFla & X & st1 & ds1 & rest & HS & _);
      [split; vm_compute; reflexivity | ].
    eexists. eexists. exists r, SolFla, X, (st1, ds1).
    split; [exact E1 | ]. split; [exact E2 | ]. split; [reflexivity | ].
    split; [apply Hiff; split; vm_compute; reflexivity | exact HS].
  - destruct (CalcReformEIRChillerModel (Bench.env 1 1 25 0)
                (Bench.spec ConstantFlow 30 false 0 0) Bench.st0 (-(300000)) true
                false 1 (bracket_Tmin (Bench.spec ConstantFlow 30 false 0 0)))
      as [o1 | ] eqn:E1; [ | vm_compute in E1; discriminate E1].
    pose proof E1 as E1'. vm_compute in E1'. injection E1' as <-.
    match type of E1 with
    | _ = Ok ?o =>
        destruct (CalcReformEIRChillerModel (Bench.env 1 1 25 0)
                    (Bench.spec ConstantFlow 30 false 0 0) (state o) (load o) true
                    false 1 (bracket_Tmax (Bench.spec ConstantFlow 30 false 0 0)))
          as [o2 | ] eqn:E2; [ | vm_compute in E2; discriminate E2]
    end.
    pose proof E2 as E2'. vm_compute in E2'. injection E2' as <-.
    destruct (ControlReformEIRChillerModel (Bench.env 1 1 25 0)
                (Bench.spec ConstantFlow 30 false 0 0) 1 Bench.st0 (-(300000)) true
                false 1) as [r | ] eqn:E3; [ | vm_compute in E3; discriminate E3].
    destruct (solver_branching _ _ _ _ _ _ _ _ _ _
                (eq_refl : -(300000) < 0) E1 E2 E3) as (_ & Hiff & _).
    eexists. eexists. exists r.
    split; [exact E1 | ]. split; [exact E2 | ]. split; [reflexivity | ].
    destruct (existsb is_solve_root (steps r)) eqn:Ht; [ | reflexivity].
    destruct (proj1 Hiff eq_refl) as (_ & Hb). vm_compute in Hb. discriminate Hb.
Defined.

(** C1 as stated fails for the other cases: on the bench with curves valid
    from 15 C to 30 C the root finder is not called, and the third
    evaluation is at about 32.8 C, the mean of the two probe outputs, not
    at the midpoint 22.5 C of [Tmin, Tmax]. *)
Lemma degenerate_branch_not_at_interval_midpoint :
  exists r T3,
    ControlReformEIRChillerModel (Bench.env 1 1 25 0)
      (Bench.spec ConstantFlow 30 false 0 0) 1 Bench.st0 (-(300000)) true false 1
    = Ok r
    /\ existsb is_solve_root (steps r) = false
    /\ nth_error (steps r) 2 = Some (StepCalc T3)
    /\ T3 == 376953 # 11495
    /\ ~ T3 == (bracket_Tmin (Bench.spec ConstantFlow 30 false 0 0)
                + bracket_Tmax (Bench.spec ConstantFlow 30 false 0 0)) / 2.
Proof.
  do 2 eexists. split; [vm_compute; reflexivity | ].
  split; [reflexivity | ]. split; [reflexivity | ].
  split; [vm_compute; reflexivity | ]. vm_compute. discriminate.
Qed.

(** ** Witness of the idle path *)

(** A load of 0 W on the bench. *)
Lemma idle_call_outputs_zero_witness :
  (exists o,
      CalcReformEIRChillerModel (Bench.env 1 1 25 0)
        (Bench.spec ConstantFlow 40 false 0 0) Bench.st_prev 0 true false 1 30 = Ok o
      /\ exit o = ExitIdle
      /\ Power (state o) = 0 /\ QEvaporator (state o) = 0
      /\ QCondenser (state o) = 0 /\ ChillerPartLoadRatio (state o) = 0)
  /\ (exists r,
      ControlReformEIRChillerModel (Bench.env 1 1 25 0)
        (Bench.spec ConstantFlow 40 false 0 0) 1 Bench.st_prev 0 true false 1 = Ok r
      /\ steps r = [StepCalc (Temp (CondInletNode (Bench.env 1 1 25 0)))]
      /\ Power (final_state r) = 0 /\ QEvaporator (final_state r) = 0
      /\ QCondenser (final_state r) = 0 /\ ChillerPartLoadRatio (final_state r) = 0).
Proof.
  apply idle_call_outputs_zero. left. vm_compute. discriminate.
Defined.

(** * Further properties of the evaluator *)

(** ** The load handed back to the caller *)

Lemma water_side_load_bounds env Cp SP MyLoad :
  MyLoad < 0 ->
  MyLoad <= water_side_load env Cp SP MyLoad
  /\ water_side_load env Cp SP MyLoad <= 0
  /\ Qabs (water_side_load env Cp SP MyLoad)
     <= Real64.max 0 (MassFlowRateMaxAvail (EvapInletNode env) * Cp
                      * (Temp (EvapInletNode env) - SP)).
Proof.
  intros Hneg. unfold water_side_load.
  set (TL := Real64.max 0 _).
  assert (H0 : 0 <= TL) by apply Real64Facts.max_lb_l.
  assert (Ha : Qabs MyLoad == - MyLoad) by (apply Qabs_neg; lra).
  destruct (Real64.gtb (Qabs MyLoad) TL) eqn:E; reflect_tests.
  - unfold Real64.sign.
    assert (Hg : Real64.geb MyLoad 0 = false) by (apply Real64Facts.geb_false; lra).
    rewrite Hg. rewrite (Qabs_pos TL H0). rewrite Qabs_opp, (Qabs_pos TL H0).
    repeat split; lra.
  - rewrite Ha in *. repeat split; lra.
Qed.

(** X1.  A call with negative load and the run flag on hands back a load
    between the load it was given and 0: the evaluator may shrink the
    magnitude of the load (to the water-side load, or to 0 without flow),
    and never raises it or changes its sign. *)
Theorem load_never_raised env sp st MyLoad RunFlag FirstIteration EquipFlowCtrl T o :
  MyLoad < 0 -> RunFlag = true ->
  CalcReformEIRChillerModel env sp st MyLoad RunFlag FirstIteration EquipFlowCtrl T
  = Ok o ->
  MyLoad <= load o /\ load o <= 0.
Proof.
  intros Hload Hrun H.
  apply calc_running in H; [ | apply running_test; assumption].
  destruct H; cbn [load];
    try (destruct (water_side_load_bounds env Cp SetPoint MyLoad Hload)
           as (Ha & Hb & _); subst MyLoad'; split; assumption);
    split; lra.
Qed.

Lemma load_never_raised_witness :
  exists o,
    CalcReformEIRChillerModel (Bench.env 1 1 25 0)
      (Bench.spec ConstantFlow 40 false 0 0) Bench.st0 (-(1000000)) true false 1 30
    = Ok o
    /\ -(1000000) <= load o /\ load o <= 0.
Proof.
  bench_run o E. eexists. split; [reflexivity | ].
  exact (load_never_raised _ _ _ _ _ _ _ _ _ (eq_refl : -(1000000) < 0) eq_refl E).
Defined.


(** ** The part-load ratio in the record *)

Lemma clamp_range x M :
  0 <= Real64.max 0 (Real64.min x M)
  /\ (0 <= M -> Real64.max 0 (Real64.min x M) <= M).
Proof.
  split; [apply Real64Facts.max_lb_l | ].
  intros HM. unfold Real64.max.
  destruct (Real64.ltb 0 _); [apply Real64Facts.min_ub_r | exact HM].
Qed.

Lemma part_load_ratio_range sp A q p :
  part_load_ratio sp A q = Ok p ->
  0 <= p /\ (0 <= MaxPartLoadRat sp -> p <= MaxPartLoadRat sp).
Proof.
  unfold part_load_ratio. intros H. run_all.
  - apply clamp_range.
  - split; [lra | intros; assumption].
Qed.

Lemma calc_flow_unlocked_plr env sp st A Cp P st' P' ds :
  calc_flow_unlocked env sp st A Cp P = Ok (st', P', ds) ->
  ChillerPartLoadRatio st = P -> 0 <= P ->
  ChillerPartLoadRatio st' = P' /\ 0 <= P'
  /\ (0 <= MaxPartLoadRat sp -> P <= MaxPartLoadRat sp -> P' <= MaxPartLoadRat sp).
Proof.
  unfold calc_flow_unlocked, apply_swt_fault. intros H HP H0. subst P.
  destruct (CurOpSchemeType env =? CompSetPtBasedSchemeType env)%Z;
    destruct (LoopDemandCalcScheme env CWLoop);
    run_all; goal_tests; fields;
    (split; [reflexivity | ]);
    first [ split; [apply clamp_range | intros; apply clamp_range; assumption]
          | split; [assumption | intros; assumption]
          | split; [lra | intros; assumption] ].
Qed.

Lemma idle_or_running MyLoad RunFlag :
  (0 <= MyLoad \/ RunFlag = false)
  \/ Real64.geb MyLoad 0 || negb RunFlag = false.
Proof.
  destruct (Real64.geb MyLoad 0) eqn:E.
  - left. left. reflect_tests. assumption.
  - destruct RunFlag; [right; reflexivity | left; right; reflexivity].
Qed.

Lemma calc_idle_frame env sp ctrl st :
  ChillerCyclingRatio (calc_idle env sp ctrl st) = ChillerCyclingRatio st
  /\ ChillerFalseLoadRate (calc_idle env sp ctrl st) = ChillerFalseLoadRate st
  /\ QHeatRecovery (calc_idle env sp ctrl st) = QHeatRecovery st
  /\ CondOutletTemp (calc_idle env sp ctrl st) = CondOutletTemp st
  /\ EvapOutletTemp (calc_idle env sp ctrl st) = EvapOutletTemp st.
Proof.
  unfold calc_idle.
  destruct (_ || _); destruct (_ =? _)%Z; try destruct (_ =? _)%Z;
    repeat split; reflexivity.
Qed.

(** X2.  On return from any call the part-load ratio in the chiller record is
    not negative; it is at most the maximum part-load ratio when that
    maximum is not negative and not below the minimum unloading ratio; and
    after a flow-locked call that reached the end of the body with a
    positive available capacity it is at least the minimum unloading
    ratio. *)
Theorem part_load_ratio_bounds env sp st MyLoad RunFlag FirstIteration EquipFlowCtrl T o :
  CalcReformEIRChillerModel env sp st MyLoad RunFlag FirstIteration EquipFlowCtrl T
  = Ok o ->
  0 <= ChillerPartLoadRatio (state o)
  /\ (0 <= MaxPartLoadRat sp -> MinUnloadRat sp <= MaxPartLoadRat sp ->
      ChillerPartLoadRatio (state o) <= MaxPartLoadRat sp)
  /\ (FlowLock env <> 0%Z -> exit o = ExitEnd ->
      0 < fouled_RefCap env sp * ChillerCapFT (state o) ->
      MinUnloadRat sp <= ChillerPartLoadRatio (state o)).
Proof.
  intros H. destruct (idle_or_running MyLoad RunFlag) as [Hidle | Hrun].
  - rewrite (calc_idle_path _ _ _ _ _ _ _ _ Hidle) in H. injection H as <-.
    cbn [state exit].
    destruct (calc_idle_outputs env sp EquipFlowCtrl (calc_reset st)) as (_ & _ & _ & ->).
    cbn. repeat split; try lra; try discriminate; try (intros; assumption).
  - apply calc_running in H; [ | exact Hrun].
    destruct H; cbn [exit state] in *.
    + unfold zero_outputs in *.
      repeat match goal with H : _ /\ _ |- _ => destruct H end.
      replace (ChillerPartLoadRatio st1) with 0 by congruence.
      repeat split; try lra; try discriminate; try (intros; assumption).
    + unfold pre_state, zero_outputs in *.
      repeat match goal with H : _ /\ _ |- _ => destruct H end.
      replace (ChillerPartLoadRatio st1) with 0 by congruence.
      repeat split; try lra; try discriminate; try (intros; assumption).
    + use_frames.
      match goal with H : part_load_ratio _ _ _ = Ok _ |- _ =>
        apply part_load_ratio_range in H; destruct H as (Hp0 & Hp1) end.
      match goal with H : calc_flow_unlocked _ _ _ _ _ _ = Ok _ |- _ =>
        apply calc_flow_unlocked_plr in H; [ | reflexivity | exact Hp0];
        destruct H as (E & Hq0 & Hq1) end.
      replace (ChillerPartLoadRatio st3) with PartLoadRat by congruence.
      split; [exact Hq0 | ]. split; [intros; auto | ].
      intros Hl. contradiction.
    + fields.
      match goal with H : part_load_ratio _ _ _ = Ok _ |- _ =>
        apply part_load_ratio_range in H; destruct H as (Hp0 & Hp1) end.
      split; [exact Hp0 | ]. split; [intros; auto | discriminate].
    + unfold pre_state in *. use_frames.
      assert (EC : ChillerCapFT st3 = ChillerCapFT st1) by (fields; congruence).
      rewrite EC.
      match goal with H : calc_flow_locked _ _ _ _ _ _ _ _ = Ok _ |- _ =>
        apply calc_flow_locked_spec in H;
        destruct H as (plr & Hplr & _ & _ & HP & _)
      end.
      apply part_load_ratio_range in Hplr. destruct Hplr as (Hp0 & Hp1).
      replace (ChillerPartLoadRatio st3) with (ChillerPartLoadRatio st2) by congruence.
      rewrite HP. fold AvailChillerCap.
      pose proof (Real64Facts.max_lb_l plr (MinUnloadRat sp)).
      pose proof (Real64Facts.max_lb_r plr (MinUnloadRat sp)).
      assert (Hub : 0 <= MaxPartLoadRat sp -> MinUnloadRat sp <= MaxPartLoadRat sp ->
                    Real64.max plr (MinUnloadRat sp) <= MaxPartLoadRat sp).
      { intros. unfold Real64.max. destruct (Real64.ltb _ _); auto. }
      destruct (Real64.gtb AvailChillerCap 0) eqn:EA; reflect_tests.
      * split; [lra | ]. split; [exact Hub | ]. intros; assumption.
      * split; [lra | ]. split; [intros; assumption | ]. intros. lra.
Qed.

(** The flow-locked bench at a load of -30 kW: the part-load ratio in the
    record is the minimum unloading ratio, 0.2. *)
Lemma part_load_ratio_bounds_witness :
  exists o,
    CalcReformEIRChillerModel (Bench.env 1 1 25 0)
      (Bench.spec ConstantFlow 40 false 0 0) Bench.st0 (-(30000)) true false 1 30
    = Ok o
    /\ 0 <= ChillerPartLoadRatio (state o)
    /\ ChillerPartLoadRatio (state o) <= 1
    /\ 0.2 <= ChillerPartLoadRatio (state o).
Proof.
  bench_run o E. eexists. split; [reflexivity | ].
  destruct (part_load_ratio_bounds _ _ _ _ _ _ _ _ _ E) as (H0 & H1 & H2).
  split; [exact H0 | ].
  split; [apply H1; vm_compute; discriminate | ].
  apply H2; [discriminate | reflexivity | vm_compute; reflexivity].
Defined.


(** ** False loading *)

Lemma locked_part_load_false_load env sp st A F st' P' F' :
  locked_part_load env sp st A F = Ok (st', P', F') ->
  ChillerFalseLoadRate st'
  = (if Real64.ltb (A * ChillerPartLoadRatio st' * ChillerCyclingRatio st'
                    - QEvaporator st') (SmallLoad env)
     then 0
     else A * ChillerPartLoadRatio st' * ChillerCyclingRatio st' - QEvaporator st').
Proof.
  unfold locked_part_load. intros H.
  bind_split H plr Hplr. bind_split H fr Hfr. injection H as <- _ _.
  fields. destruct (Real64.ltb _ (SmallLoad env)) eqn:E; fields; rewrite E; reflexivity.
Qed.

Lemma calc_flow_locked_false_load env sp st SP A Cp L F st' P' F' :
  calc_flow_locked env sp st SP A Cp L F = Ok (st', P', F') ->
  ChillerFalseLoadRate st'
  = (if Real64.ltb (A * ChillerPartLoadRatio st' * ChillerCyclingRatio st'
                    - QEvaporator st') (SmallLoad env)
     then 0
     else A * ChillerPartLoadRatio st' * ChillerCyclingRatio st' - QEvaporator st').
Proof.
  unfold calc_flow_locked. intros H.
  bind_split H s1 H1. bind_split H s2 H2.
  exact (locked_part_load_false_load _ _ _ _ _ _ _ _ H).
Qed.

(** X3.  On return from any call the false-load rate in the chiller record is
    either exactly 0 or at least [SmallLoad]; it is 0 whenever the plant
    flow is not locked; and after a flow-locked call that reached the end
    of the body it is the excess of available capacity x part-load ratio x
    cycling ratio over the evaporator heat flow, with an excess below
    [SmallLoad] dropped to 0. *)
Theorem false_load_rate_cases env sp st MyLoad RunFlag FirstIteration EquipFlowCtrl T o :
  CalcReformEIRChillerModel env sp st MyLoad RunFlag FirstIteration EquipFlowCtrl T
  = Ok o ->
  (ChillerFalseLoadRate (state o) = 0
   \/ SmallLoad env <= ChillerFalseLoadRate (state o))
  /\ (FlowLock env = 0%Z -> ChillerFalseLoadRate (state o) = 0)
  /\ (FlowLock env <> 0%Z -> exit o = ExitEnd ->
      let excess :=
        fouled_RefCap env sp * ChillerCapFT (state o)
        * ChillerPartLoadRatio (state o) * ChillerCyclingRatio (state o)
        - QEvaporator (state o) in
      ChillerFalseLoadRate (state o)
      = (if Real64.ltb excess (SmallLoad env) then 0 else excess)).
Proof.
  intros H. destruct (idle_or_running MyLoad RunFlag) as [Hidle | Hrun].
  - rewrite (calc_idle_path _ _ _ _ _ _ _ _ Hidle) in H. injection H as <-.
    cbn [state exit].
    destruct (calc_idle_frame env sp EquipFlowCtrl (calc_reset st)) as (_ & -> & _).
    cbn. split; [left; reflexivity | ]. split; [reflexivity | discriminate].
  - apply calc_running in H; [ | exact Hrun].
    destruct H; cbn [exit state] in *.
    + unfold zero_outputs in *.
      repeat match goal with H : _ /\ _ |- _ => destruct H end.
      split; [left; assumption | ]. split; [intros; assumption | discriminate].
    + unfold pre_state, zero_outputs in *.
      repeat match goal with H : _ /\ _ |- _ => destruct H end.
      split; [left; assumption | ]. split; [intros; assumption | discriminate].
    + unfold pre_state, zero_outputs in *. use_frames.
      assert (E : ChillerFalseLoadRate st3 = 0) by (fields; congruence).
      split; [left; exact E | ]. split; [intros; exact E | ].
      intros Hl. contradiction.
    + unfold pre_state, zero_outputs in *.
      repeat match goal with H : _ /\ _ |- _ => destruct H end.
      fields.
      split; [left; assumption | ]. split; [intros; assumption | discriminate].
    + unfold pre_state in *. use_frames.
      match goal with H : calc_flow_locked _ _ _ _ _ _ _ _ = Ok _ |- _ =>
        apply calc_flow_locked_false_load in H; rename H into HFL end.
      assert (E : ChillerFalseLoadRate st3 = ChillerFalseLoadRate st2) by congruence.
      assert (E1 : ChillerCapFT st3 = ChillerCapFT st1) by (fields; congruence).
      assert (E2 : ChillerPartLoadRatio st3 = ChillerPartLoadRatio st2) by congruence.
      assert (E3 : ChillerCyclingRatio st3 = ChillerCyclingRatio st2) by congruence.
      assert (E4 : QEvaporator st3 = QEvaporator st2) by congruence.
      cbv zeta. rewrite E, E1, E2, E3, E4. fold AvailChillerCap.
      split; [ | split; [intros; contradiction | intros; exact HFL]].
      rewrite HFL.
      destruct (Real64.ltb _ (SmallLoad env)) eqn:Et; reflect_tests;
        [left; reflexivity | right; assumption].
Qed.

(** The flow-locked bench at a load of -30 kW: 100 kW of capacity at the
    minimum unloading ratio against 30 kW of load leaves a false load. *)
Lemma false_load_rate_cases_witness :
  exists o,
    CalcReformEIRChillerModel (Bench.env 1 1 25 0)
      (Bench.spec ConstantFlow 40 false 0 0) Bench.st0 (-(30000)) true false 1 30
    = Ok o
    /\ (ChillerFalseLoadRate (state o) = 0
        \/ SmallLoad (Bench.env 1 1 25 0) <= ChillerFalseLoadRate (state o)).
Proof.
  bench_run o E. eexists. split; [reflexivity | ].
  exact (proj1 (false_load_rate_cases _ _ _ _ _ _ _ _ _ E)).
Defined.

(** ** Power, heat rejection and the condenser outlet *)

Lemma outlet_balance x m c T :
  ~ m == 0 -> ~ c == 0 -> (x / m / c + T - T) * m * c == x.
Proof. intros Hm Hc. field. auto. Qed.

Lemma calc_power_condenser_spec env sp st A C P F T st' ds :
  calc_power_condenser env sp st A C P F T = Ok (st', ds) ->
  QHeatRecovery st = 0 ->
  Power st'
  = A / (if Real64.leb C 0 then 5.5 else C)
    * ChillerEIRFPLR st' * ChillerEIRFT st' * F
  /\ QCondenser st' + QHeatRecovery st'
     == Power st' * CompPowerToCondenserFrac sp + QEvaporator st
        + ChillerFalseLoadRate st
  /\ (HeatRecActive sp = false -> QHeatRecovery st' = 0)
  /\ (MassFlowTolerance env < CondMassFlowRate st ->
      (CondOutletTemp st' - T) * CondMassFlowRate st
      * GetSpecificHeatGlycol env CDLoop T == QCondenser st')
  /\ (CondMassFlowRate st <= MassFlowTolerance env ->
      CondOutletTemp st' = CondOutletTemp st /\ QHeatRecovery st' = 0).
Proof.
  unfold calc_power_condenser. intros H HQ.
  bind_split H s1 H1. bind_split H q Hq.
  apply div_inv in Hq. destruct Hq as (HC & ->).
  assert (Hs1 : QEvaporator s1 = QEvaporator st
                /\ ChillerFalseLoadRate s1 = ChillerFalseLoadRate st
                /\ QHeatRecovery s1 = 0
                /\ CondMassFlowRate s1 = CondMassFlowRate st
                /\ CondOutletTemp s1 = CondOutletTemp st).
  { run_all; fields; repeat split; auto. }
  destruct Hs1 as (E1 & E2 & E3 & E4 & E5). clear H1.
  rewrite <- E1, <- E2, <- E4, <- E5.
  run_all.
  all: try match goal with
         | H : ReformEIRChillerHeatRecovery _ _ _ _ _ _ = Ok _ |- _ =>
             pose proof (heat_recovery_inv _ _ _ _ _ _ _ _ _ H) as (qpol & _ & _ & Hqc)
         end.
  all: frame_heat_recovery; fields; rewrite ?E3, ?Hqc.
  all: repeat match goal with
         | H : div _ _ = Ok _ |- _ => apply div_inv in H; destruct H as (? & ->)
         end.
  all: reflect_tests.
  all: split; [reflexivity | ].
  all: split; [ring | ].
  all: split; [intros Hhr; first [congruence | reflexivity] | ].
  all: split; [intros Hm;
               first [ rewrite <- Hqc; apply outlet_balance; assumption
                     | apply outlet_balance; assumption
                     | exfalso; lra ]
              | intros Hm; first [split; reflexivity | exfalso; lra]].
Qed.

(** X4.  After a call that reached the end of the body, the power in the record
    is available capacity / reference COP x EIRFPLR x EIRFT x the fraction
    of the time step the compressor runs, where the curve outputs are the
    ones in the record, a reference COP that is not positive is replaced by
    5.5, and the run fraction is 1 when the plant flow is not locked and
    the cycling ratio of the record when it is. *)
Theorem power_formula env sp st MyLoad RunFlag FirstIteration EquipFlowCtrl T o :
  CalcReformEIRChillerModel env sp st MyLoad RunFlag FirstIteration EquipFlowCtrl T
  = Ok o ->
  exit o = ExitEnd ->
  Power (state o)
  = fouled_RefCap env sp * ChillerCapFT (state o)
    / (if Real64.leb (fouled_RefCOP env sp) 0 then 5.5 else fouled_RefCOP env sp)
    * ChillerEIRFPLR (state o) * ChillerEIRFT (state o)
    * (if (FlowLock env =? 0)%Z then 1 else ChillerCyclingRatio (state o)).
Proof.
  intros H Hx. destruct (idle_or_running MyLoad RunFlag) as [Hidle | Hrun].
  - rewrite (calc_idle_path _ _ _ _ _ _ _ _ Hidle) in H. injection H as <-.
    discriminate Hx.
  - apply calc_running in H; [ | exact Hrun].
    destruct H; cbn [exit state] in *; try discriminate Hx.
    + unfold pre_state, zero_outputs in *. use_frames.
      match goal with H : calc_power_condenser _ _ _ _ _ _ _ _ = Ok _ |- _ =>
        apply calc_power_condenser_spec in H; [ | fields; congruence];
        destruct H as (HP & _) end.
      assert (EC : ChillerCapFT st3 = ChillerCapFT st1) by (fields; congruence).
      rewrite HP, EC.
      match goal with H : FlowLock env = 0%Z |- _ => rewrite H end.
      reflexivity.
    + unfold pre_state, zero_outputs in *. use_frames.
      match goal with H : calc_flow_locked _ _ _ _ _ _ _ _ = Ok _ |- _ =>
        apply calc_flow_locked_spec in H;
        destruct H as (plr & _ & _ & HCR & _) end.
      match goal with H : calc_power_condenser _ _ _ _ _ _ _ _ = Ok _ |- _ =>
        apply calc_power_condenser_spec in H; [ | fields; congruence];
        destruct H as (HP & _) end.
      assert (EC : ChillerCapFT st3 = ChillerCapFT st1) by (fields; congruence).
      assert (ER : ChillerCyclingRatio st3 = FRAC) by congruence.
      rewrite HP, EC, ER.
      match goal with H : FlowLock env <> 0%Z |- _ =>
        apply Z.eqb_neq in H; rewrite H end.
      reflexivity.
Qed.

(** The flow-locked bench at -30 kW: the compressor cycles, and the power
    in the record carries the cycling ratio. *)
Lemma power_formula_witness :
  exists o,
    CalcReformEIRChillerModel (Bench.env 1 1 25 0)
      (Bench.spec ConstantFlow 40 false 0 0) Bench.st0 (-(30000)) true false 1 30
    = Ok o
    /\ Power (state o)
       = 500000 * ChillerCapFT (state o) / 5.5
         * ChillerEIRFPLR (state o) * ChillerEIRFT (state o)
         * ChillerCyclingRatio (state o).
Proof.
  bench_run o E. eexists. split; [reflexivity | ].
  exact (power_formula _ _ _ _ _ _ _ _ _ E eq_refl).
Defined.


(** X5.  After a call that reached the end of the body, the heat leaving
    through the condenser and the heat-recovery bundle together is the
    compressor power passed to the condenser plus the evaporator heat flow
    plus the false load; without heat recovery the recovered heat is 0; and
    with a condenser flow above the tolerance the condenser outlet
    temperature in the record carries exactly the condenser heat flow:
    (CondOutletTemp - inlet temperature) x flow x specific heat equals
    QCondenser. *)
Theorem heat_rejection_balance env sp st MyLoad RunFlag FirstIteration EquipFlowCtrl T o :
  CalcReformEIRChillerModel env sp st MyLoad RunFlag FirstIteration EquipFlowCtrl T
  = Ok o ->
  exit o = ExitEnd ->
  QCondenser (state o) + QHeatRecovery (state o)
  == Power (state o) * CompPowerToCondenserFrac sp + QEvaporator (state o)
     + ChillerFalseLoadRate (state o)
  /\ (HeatRecActive sp = false -> QHeatRecovery (state o) = 0)
  /\ (MassFlowTolerance env < CondMassFlowRate (state o) ->
      (CondOutletTemp (state o) - Temp (CondInletNode env))
      * CondMassFlowRate (state o)
      * GetSpecificHeatGlycol env CDLoop (Temp (CondInletNode env))
      == QCondenser (state o)).
Proof.
  intros H Hx. destruct (idle_or_running MyLoad RunFlag) as [Hidle | Hrun].
  - rewrite (calc_idle_path _ _ _ _ _ _ _ _ Hidle) in H. injection H as <-.
    discriminate Hx.
  - apply calc_running in H; [ | exact Hrun].
    destruct H; cbn [exit state] in *; try discriminate Hx.
    all: unfold pre_state, zero_outputs in *; use_frames.
    all: match goal with H : calc_power_condenser _ _ _ _ _ _ _ _ = Ok _ |- _ =>
           apply calc_power_condenser_spec in H; [ | fields; congruence];
           destruct H as (_ & HB & HR & HT & _) end.
    all: replace (QEvaporator st3) with (QEvaporator st2) by congruence.
    all: replace (ChillerFalseLoadRate st3) with (ChillerFalseLoadRate st2)
           by congruence.
    all: replace (CondMassFlowRate st3) with (CondMassFlowRate st2) by congruence.
    all: split; [exact HB | split; [exact HR | exact HT]].
Qed.

(** The bench with heat recovery under the set-point policy. *)
Lemma heat_rejection_balance_witness :
  exists o,
    CalcReformEIRChillerModel (Bench.env 1 1 25 10)
      (Bench.spec ConstantFlow 40 true 1 0) Bench.st0 (-(300000)) true false 1 30
    = Ok o
    /\ QCondenser (state o) + QHeatRecovery (state o)
       == Power (state o) * 1 + QEvaporator (state o)
          + ChillerFalseLoadRate (state o).
Proof.
  bench_run o E. eexists. split; [reflexivity | ].
  exact (proj1 (heat_rejection_balance _ _ _ _ _ _ _ _ _ E eq_refl)).
Defined.

(** ** The heat-recovery split *)

Lemma max_0_nonneg x : 0 <= Real64.max x 0.
Proof. apply Real64Facts.max_lb_r. Qed.

Lemma hr_outlet_balance q m c T : ~ m * c == 0 -> (q / (m * c) + T - T) * (m * c) == q.
Proof.
  intros H. field. split; intros Hz; apply H; rewrite Hz; ring.
Qed.

(** X6.  The split of the condenser heat between the heat-recovery bundle and
    the condenser conserves it: what the routine leaves in the condenser
    plus what it recovers is the total it was given.  With a capacity limit
    that is not negative (and, under the set-point policy, a total that is
    not negative) the recovered heat is not negative.  The heat-recovery
    outlet temperature carries exactly the recovered heat when the
    heat-recovery flow is positive, and is the inlet temperature when it is
    not. *)
Theorem heat_recovery_split env sp st QCond CondMassFlow CondInletTemp
    st' QCond' QHeatRec :
  ReformEIRChillerHeatRecovery env sp st QCond CondMassFlow CondInletTemp
  = Ok (st', QCond', QHeatRec) ->
  QCond' + QHeatRec == QCond
  /\ (0 <= HeatRecMaxCapacityLimit sp ->
      (HeatRecSetPointNodeNum sp <> 0%Z -> 0 <= QCond) ->
      0 <= QHeatRec)
  /\ (0 < MassFlowRate (HeatRecInletNode env) ->
      (HeatRecOutletTemp st' - Temp (HeatRecInletNode env))
      * (MassFlowRate (HeatRecInletNode env)
         * GetSpecificHeatGlycol env HRLoop (Temp (HeatRecInletNode env)))
      == QHeatRec)
  /\ (MassFlowRate (HeatRecInletNode env) <= 0 ->
      HeatRecOutletTemp st' = Temp (HeatRecInletNode env)).
Proof.
  unfold ReformEIRChillerHeatRecovery. intros H.
  bind_split H q Hq. bind_split H s Hs. injection H as <- <- <-.
  split; [ring | ]. split; [ | split].
  - intros Hlim Htot.
    assert (Hq0 : 0 <= q).
    { clear Hs. destruct (HeatRecSetPointNodeNum sp =? 0)%Z eqn:En.
      - run_all. apply Real64Facts.min_glb; [apply max_0_nonneg | exact Hlim].
      - apply Z.eqb_neq in En. specialize (Htot En). run_all.
        apply Real64Facts.min_glb; [ | exact Hlim].
        apply Real64Facts.min_glb; [exact Htot | apply max_0_nonneg]. }
    cbv zeta.
    destruct (_ >? _)%Z; [destruct (Real64.gtb (Temp _) _) | ];
      first [exact Hq0 | lra].
  - intros Hm. apply Real64Facts.gtb_true in Hm. rewrite Hm in Hs.
    bind_split Hs x Hx. apply div_inv in Hx. destruct Hx as (Hn & ->).
    injection Hs as <-. fields. apply hr_outlet_balance. exact Hn.
  - intros Hm. apply Real64Facts.gtb_false in Hm. rewrite Hm in Hs.
    injection Hs as <-. reflexivity.
Qed.

(** The blending policy on the bench: 10 kW of condenser heat, flows of
    1 kg/s, a condenser inlet at 30 C and a heat-recovery inlet at 20 C. *)
Lemma heat_recovery_split_witness :
  exists st' QCond' QHeatRec,
    ReformEIRChillerHeatRecovery (Bench.env 1 1 25 1)
      (Bench.spec ConstantFlow 30 true 0 0) Bench.st0 10000 1 30
    = Ok (st', QCond', QHeatRec)
    /\ QCond' + QHeatRec == 10000
    /\ 0 <= QHeatRec.
Proof.
  destruct (ReformEIRChillerHeatRecovery (Bench.env 1 1 25 1)
              (Bench.spec ConstantFlow 30 true 0 0) Bench.st0 10000 1 30)
    as [[[st' qc] qh] | ] eqn:Hrun; [ | vm_compute in Hrun; discriminate].
  exists st', qc, qh. split; [reflexivity | ].
  destruct (heat_recovery_split _ _ _ _ _ _ _ _ _ Hrun) as (H1 & H2 & _).
  split; [exact H1 | ].
  apply H2; [vm_compute; discriminate | intros Hn; exfalso; apply Hn; reflexivity].
Defined.


(** ** The evaporator side with the plant flow locked *)

Lemma calc_locked_inv env sp st MyLoad RunFlag FirstIteration EquipFlowCtrl T o :
  CalcReformEIRChillerModel env sp st MyLoad RunFlag FirstIteration EquipFlowCtrl T
  = Ok o ->
  Real64.geb MyLoad 0 || negb RunFlag = false ->
  FlowLock env <> 0%Z -> exit o = ExitEnd ->
  FaultyChillerSWTFlag sp && faults_active env = false ->
  exists st1 st2 P F,
    let Cp := GetSpecificHeatGlycol env CWLoop (Temp (EvapInletNode env)) in
    let L := water_side_load env Cp (outlet_setpoint env sp) MyLoad in
    PossibleSubcooling st1 = PossibleSubcooling st
    /\ EvapMassFlowRate st1
       = SetComponentFlowRate env CWLoop (MassFlowRate (EvapInletNode env))
    /\ ~ EvapMassFlowRate st1 == 0
    /\ calc_flow_locked env sp st1 (outlet_setpoint env sp)
         (fouled_RefCap env sp * ChillerCapFT (state o)) Cp L 1 = Ok (st2, P, F)
    /\ frame_cond st2 (state o)
    /\ load o = L.
Proof.
  intros H Hidle HL Hx HS. unfold CalcReformEIRChillerModel in H. rewrite Hidle in H.
  unfold calc_fouling, calc_setpoint, calc_cond_avg_temp, calc_reset in H.
  rewrite HS in H. apply Z.eqb_neq in HL. rewrite HL in H.
  assert (ERC : fouled_RefCap env sp =
       if FaultyChillerFoulingFlag sp && faults_active env
       then RefCap sp * CalFoulingFactor env (FaultyChillerFoulingIndex sp)
       else RefCap sp) by reflexivity.
  destruct (FaultyChillerFoulingFlag sp && faults_active env) eqn:HF;
  destruct (CondenserType sp =? WaterCooled)%Z eqn:HW;
  destruct (HeatRecActive sp) eqn:HR;
  cbn [andb] in H; run_all.
  all: try discriminate Hx.
  all: try match goal with H : Real64.gtb (0 + 0) 0 = true |- _ => discriminate H end.
  all: try match goal with H : Real64.gtb (_ + _) 0 = true |- _ => fields; discriminate H end.
  all: fields; rewrite <- ?ERC in *.
  all: match goal with
       | H : calc_flow_locked _ _ ?s _ _ _ _ _ = Ok (?s2, ?p, ?f),
         H' : calc_power_condenser _ _ _ _ _ _ _ _ = Ok _ |- _ =>
           pose proof (calc_power_condenser_frame _ _ _ _ _ _ _ _ _ _ H') as Fc;
           pose proof (calc_flow_locked_frame _ _ _ _ _ _ _ _ _ _ _ H) as Fl;
           exists s, s2, p, f
       end.
  all: cbv zeta; fields.
  all: split; [reflexivity | ]. 
  all: split; [reflexivity | ].
  all: split; [reflect_tests; assumption | ].
  all: split; [ | split; [exact Fc | reflexivity]].
  all: unfold frame_cond, frame_evap in Fc, Fl; fields.
  all: repeat match goal with H : _ /\ _ |- _ => destruct H end.
  all: match goal with
       | H : calc_flow_locked _ _ _ _ _ _ _ _ = Ok _ |- _ =>
           rewrite <- H; f_equal; f_equal; congruence
       end.
Qed.


Lemma flow_heat x m c : ~ m == 0 -> ~ c == 0 -> x == m * c * (x / m / c).
Proof. intros Hm Hc. field. auto. Qed.

Lemma clamp_outlet_low_balance env Cp limit st :
  evap_balance env Cp st -> evap_balance env Cp (clamp_outlet_low env Cp limit st).
Proof.
  unfold clamp_outlet_low, evap_balance. intros H.
  destruct (Real64.ltb _ _); [destruct (Real64.gtb _ _) | ]; fields;
    first [exact H | reflexivity].
Qed.

Lemma clamp_load_balance env Cp cap st st' :
  clamp_load env Cp cap st = Ok st' ->
  (evap_balance env Cp st -> evap_balance env Cp st')
  /\ EvapMassFlowRate st' = EvapMassFlowRate st
  /\ (QEvaporator st' <= QEvaporator st \/ QEvaporator st' = 0)
  /\ (0 <= cap -> QEvaporator st' <= cap).
Proof.
  unfold clamp_load, evap_balance. intros H.
  destruct (Real64.gtb (QEvaporator st) cap) eqn:E1;
    [destruct (Real64.gtb (EvapMassFlowRate st) _) eqn:E2 | ].
  - bind_split H q Hq. bind_split H d Hd.
    apply div_inv in Hq. destruct Hq as (Hm & ->).
    apply div_inv in Hd. destruct Hd as (Hc & ->).
    injection H as <-. fields. reflect_tests.
    split; [intros _ | split; [reflexivity | split; [left; lra | intros; lra]]].
    setoid_replace (Temp (EvapInletNode env)
                    - (Temp (EvapInletNode env) - cap / EvapMassFlowRate st / Cp))
      with (cap / EvapMassFlowRate st / Cp) by ring.
    apply flow_heat; assumption.
  - injection H as <-. fields. reflect_tests.
    split; [intros _; ring | ].
    split; [reflexivity | split; [right; reflexivity | intros; assumption]].
  - injection H as <-. reflect_tests.
    split; [auto | split; [reflexivity | split; [left; lra | intros; assumption]]].
Qed.

Lemma locked_evaporator_balance env sp st SP Cp L st' :
  locked_evaporator env sp st SP Cp L = Ok st' ->
  EvapMassFlowRate st' = EvapMassFlowRate st
  /\ QEvaporator st' <= Qabs L
  /\ (PossibleSubcooling st = true
      \/ 0 <= EvapMassFlowRate st * Cp * (Temp (EvapInletNode env) - SP) ->
      evap_balance env Cp st').
Proof.
  unfold locked_evaporator. intros H. bind_split H s Hs.
  apply clamp_load_balance in H. destruct H as (HB & HM & _ & HQ).
  specialize (HQ (Qabs_nonneg L)).
  rewrite !clamp_outlet_low_flow in HM.
  assert (Hs' : EvapMassFlowRate s = EvapMassFlowRate st
                /\ (PossibleSubcooling st = true
                    \/ 0 <= EvapMassFlowRate st * Cp * (Temp (EvapInletNode env) - SP) ->
                    evap_balance env Cp s)).
  { unfold evap_balance. destruct (PossibleSubcooling st) eqn:EP.
    - bind_split Hs q Hq. bind_split Hs d Hd.
      apply div_inv in Hq. destruct Hq as (Hm & ->).
      apply div_inv in Hd. destruct Hd as (Hc & ->).
      injection Hs as <-. fields. split; [reflexivity | ]. intros _.
      setoid_replace (Temp (EvapInletNode env)
                      - (Temp (EvapInletNode env) - Qabs L / EvapMassFlowRate st / Cp))
        with (Qabs L / EvapMassFlowRate st / Cp) by ring.
      apply flow_heat; assumption.
    - injection Hs as <-. fields. split; [reflexivity | ].
      intros [Hf | Hpos]; [discriminate Hf | ].
      unfold Real64.max. destruct (Real64.ltb 0 _) eqn:E; reflect_tests;
        [reflexivity | lra]. }
  destruct Hs' as (Em & Hbal).
  split; [congruence | ]. split; [exact HQ | ].
  intros Hc. apply HB. do 2 apply clamp_outlet_low_balance. exact (Hbal Hc).
Qed.

Lemma locked_part_load_evap env sp st A F st' P' F' :
  locked_part_load env sp st A F = Ok (st', P', F') ->
  QEvaporator st' = QEvaporator st
  /\ EvapMassFlowRate st' = EvapMassFlowRate st
  /\ EvapOutletTemp st' = EvapOutletTemp st.
Proof.
  unfold locked_part_load. intros H.
  run_all; goal_tests; fields; repeat split; reflexivity.
Qed.

Lemma calc_flow_locked_balance env sp st SP A Cp L F st' P' F' :
  calc_flow_locked env sp st SP A Cp L F = Ok (st', P', F') ->
  FaultyChillerSWTFlag sp && faults_active env = false ->
  EvapMassFlowRate st' = EvapMassFlowRate st
  /\ QEvaporator st' <= Qabs L
  /\ (0 <= A * MaxPartLoadRat sp -> QEvaporator st' <= A * MaxPartLoadRat sp)
  /\ (PossibleSubcooling st = true
      \/ 0 <= EvapMassFlowRate st * Cp * (Temp (EvapInletNode env) - SP) ->
      evap_balance env Cp st').
Proof.
  unfold calc_flow_locked. intros H HS. rewrite HS in H. cbn [andb] in H.
  bind_split H s1 H1. bind_split H s2 H2.
  apply locked_evaporator_balance in H1. destruct H1 as (M1 & Q1 & B1).
  apply clamp_load_balance in H2. destruct H2 as (B2 & M2 & Q2 & Q3).
  apply locked_part_load_evap in H. destruct H as (EQ & EM & ET).
  unfold evap_balance in *. rewrite EQ, EM, ET.
  split; [congruence | ]. split; [ | split].
  - pose proof (Qabs_nonneg L). destruct Q2 as [Q2 | Q2]; [lra | rewrite Q2; assumption].
  - exact Q3.
  - intros Hc. apply B2, B1, Hc.
Qed.

(** X7.  After a flow-locked call that reached the end of the body, with the
    sensor fault model not in play: the evaporator flow in the record is
    the flow the plant granted; the evaporator heat flow is at most the
    magnitude of the load handed back, and at most available capacity x
    maximum part-load ratio when that product is not negative; and, when
    subcooling is allowed or the set point is not above the inlet
    temperature (in heat-flow terms), the evaporator heat flow is exactly
    what the flow gives up between the inlet temperature and the outlet
    temperature of the record. *)
Theorem evaporator_heat_flow_locked env sp st MyLoad RunFlag FirstIteration
    EquipFlowCtrl T o :
  MyLoad < 0 -> RunFlag = true ->
  CalcReformEIRChillerModel env sp st MyLoad RunFlag FirstIteration EquipFlowCtrl T
  = Ok o ->
  FlowLock env <> 0%Z -> exit o = ExitEnd ->
  FaultyChillerSWTFlag sp && faults_active env = false ->
  let Cp := GetSpecificHeatGlycol env CWLoop (Temp (EvapInletNode env)) in
  let granted := SetComponentFlowRate env CWLoop (MassFlowRate (EvapInletNode env)) in
  let cap := fouled_RefCap env sp * ChillerCapFT (state o) * MaxPartLoadRat sp in
  EvapMassFlowRate (state o) = granted
  /\ QEvaporator (state o) <= Qabs (load o)
  /\ (0 <= cap -> QEvaporator (state o) <= cap)
  /\ (PossibleSubcooling st = true
      \/ 0 <= granted * Cp * (Temp (EvapInletNode env) - outlet_setpoint env sp) ->
      QEvaporator (state o)
      == EvapMassFlowRate (state o) * Cp
         * (Temp (EvapInletNode env) - EvapOutletTemp (state o))).
Proof.
  intros Hload Hrun H HL Hx HS. cbv zeta.
  destruct (calc_locked_inv _ _ _ _ _ _ _ _ _ H (running_test _ _ Hload Hrun) HL Hx HS)
    as (st1 & st2 & P & F & HP & HM & Hn & Hrunl & Fc & Hl).
  apply calc_flow_locked_balance in Hrunl; [ | exact HS].
  destruct Hrunl as (M & Q1 & Q2 & B).
  unfold frame_cond in Fc. unfold evap_balance in B.
  repeat match goal with H : _ /\ _ |- _ => destruct H end.
  replace (QEvaporator (state o)) with (QEvaporator st2) by congruence.
  replace (EvapMassFlowRate (state o)) with (EvapMassFlowRate st2) by congruence.
  replace (EvapOutletTemp (state o)) with (EvapOutletTemp st2) by congruence.
  rewrite Hl. rewrite HP, HM in B.
  split; [congruence | ]. split; [exact Q1 | ]. split; [exact Q2 | exact B].
Qed.

(** The flow-locked bench at -300 kW: 20 kg/s cooled from 12 C. *)
Lemma evaporator_heat_flow_locked_witness :
  exists o,
    CalcReformEIRChillerModel (Bench.env 1 1 25 0)
      (Bench.spec ConstantFlow 40 false 0 0) Bench.st0 (-(300000)) true false 1 30
    = Ok o
    /\ EvapMassFlowRate (state o) = 20
    /\ QEvaporator (state o) <= Qabs (load o)
    /\ QEvaporator (state o)
       == EvapMassFlowRate (state o) * 4180 * (12 - EvapOutletTemp (state o)).
Proof.
  bench_run o E. eexists. split; [reflexivity | ].
  destruct (evaporator_heat_flow_locked _ _ _ _ _ _ _ _ _
              (eq_refl : -(300000) < 0) eq_refl E)
    as (H1 & H2 & _ & H4); [discriminate | reflexivity | reflexivity | ].
  split; [exact H1 | ]. split; [exact H2 | ].
  apply H4. right. vm_compute. discriminate.
Defined.


(** * The report update *)

(** Reduces the reads of the report variables of a record built by
    assignments. *)
Ltac report_fields :=
  cbn [ChillerFalseLoad Energy EvapEnergy CondEnergy EvapInletTemp CondInletTemp
       ActualCOP EnergyHeatRecovery HeatRecInletTemp HeatRecMassFlow
       set_ChillerFalseLoad set_Energy set_EvapEnergy set_CondEnergy
       set_EvapInletTemp set_CondInletTemp set_ActualCOP set_EnergyHeatRecovery
       set_HeatRecInletTemp set_HeatRecMassFlow] in *.

Lemma set_NodeTemp_same k t Node : Temp (set_NodeTemp k t Node k) = t.
Proof. unfold set_NodeTemp. rewrite Z.eqb_refl. reflexivity. Qed.

Lemma set_NodeTemp_other k t Node j : j <> k -> set_NodeTemp k t Node j = Node j.
Proof.
  intros H. unfold set_NodeTemp. apply Z.eqb_neq in H. rewrite H. reflexivity.
Qed.

Lemma set_NodeTemp_flow k t Node j :
  MassFlowRate (set_NodeTemp k t Node j) = MassFlowRate (Node j).
Proof.
  unfold set_NodeTemp. destruct (j =? k)%Z eqn:E; [ | reflexivity].
  apply Z.eqb_eq in E. subst j. reflexivity.
Qed.

(** X8.  The report update always returns: its one division, by the power, is
    guarded.  Afterwards every reported energy is the rate in the chiller
    record times the length of the time step in seconds (the heat-recovery
    energy when heat recovery is active); the reported COP times the power
    is the evaporator heat flow plus the false load when the power is not
    zero, and the reported COP is 0 when it is; and, without heat recovery,
    the condenser outlet node carries the condenser outlet temperature of
    the record, and so does the evaporator outlet node for the evaporator
    when the two outlets are different nodes. *)
Theorem update_report_consistent u nn sp Node st rp MyLoad RunFlag :
  exists st' rp' Node',
    UpdateReformEIRChillerRecords u nn sp Node st rp MyLoad RunFlag
    = Ok (st', rp', Node')
    /\ Energy rp' == Power st' * TimeStepSys u * SecInHour u
    /\ EvapEnergy rp' == QEvaporator st' * TimeStepSys u * SecInHour u
    /\ CondEnergy rp' == QCondenser st' * TimeStepSys u * SecInHour u
    /\ ChillerFalseLoad rp' == ChillerFalseLoadRate st' * TimeStepSys u * SecInHour u
    /\ (HeatRecActive sp = true ->
        EnergyHeatRecovery rp' == QHeatRecovery st' * TimeStepSys u * SecInHour u)
    /\ (~ Power st' == 0 ->
        ActualCOP rp' * Power st' == QEvaporator st' + ChillerFalseLoadRate st')
    /\ (Power st' == 0 -> ActualCOP rp' = 0)
    /\ (HeatRecActive sp = false ->
        Temp (Node' (CondOutletNodeNum nn)) = CondOutletTemp st'
        /\ (EvapOutletNodeNum nn <> CondOutletNodeNum nn ->
            Temp (Node' (EvapOutletNodeNum nn)) = EvapOutletTemp st')).
Proof.
  unfold UpdateReformEIRChillerRecords.
  destruct (Real64.geb MyLoad 0 || negb RunFlag).
  - destruct (HeatRecActive sp) eqn:HR;
      (do 3 eexists; split; [reflexivity | ]); fields; report_fields;
      repeat split; try ring; try discriminate; try reflexivity;
      try (intros Hn; exfalso; apply Hn; reflexivity).
  - destruct (Real64.neb (Power st) 0) eqn:EP; reflect_tests.
    + rewrite (div_ok _ _ EP). cbn [bind].
      destruct (HeatRecActive sp) eqn:HR;
        (do 3 eexists; split; [reflexivity | ]); fields; report_fields;
        repeat split; try ring; try discriminate; try reflexivity;
        try (intros _; field; assumption);
        try (intros Hz; contradiction).
      * apply set_NodeTemp_same.
      * intros Hne. rewrite set_NodeTemp_other by exact Hne.
        apply set_NodeTemp_same.
    + cbn [bind].
      destruct (HeatRecActive sp) eqn:HR;
        (do 3 eexists; split; [reflexivity | ]); fields; report_fields;
        repeat split; try ring; try discriminate; try reflexivity;
        try (intros Hz; contradiction).
      * apply set_NodeTemp_same.
      * intros Hne. rewrite set_NodeTemp_other by exact Hne.
        apply set_NodeTemp_same.
Qed.


Lemma update_idle_zero u nn sp Node st rp MyLoad RunFlag st' rp' Node' :
  0 <= MyLoad \/ RunFlag = false ->
  UpdateReformEIRChillerRecords u nn sp Node st rp MyLoad RunFlag
  = Ok (st', rp', Node') ->
  ChillerPartLoadRatio st' = 0 /\ ChillerCyclingRatio st' = 0
  /\ ChillerFalseLoadRate st' = 0 /\ Power st' = 0 /\ QEvaporator st' = 0
  /\ QCondenser st' = 0 /\ Energy rp' = 0 /\ EvapEnergy rp' = 0
  /\ CondEnergy rp' = 0 /\ ChillerFalseLoad rp' = 0 /\ ActualCOP rp' = 0.
Proof.
  intros Hidle H. unfold UpdateReformEIRChillerRecords in H.
  rewrite (idle_test_true _ _ Hidle) in H.
  destruct (HeatRecActive sp); injection H as <- <- <-;
    fields; report_fields; repeat split; reflexivity.
Qed.

(** X9.  A chiller that is off (load >= 0 or run flag off) reports nothing:
    part-load ratio, cycling ratio, false load, power, heat flows, energies
    and COP are 0.  When the evaporator outlet node is neither the
    condenser outlet nor the condenser inlet node, the record and the
    outlet nodes take the inlet temperatures: evaporator outlet =
    evaporator inlet, condenser outlet = condenser inlet; without heat
    recovery no other node changes and no flow rate changes. *)
Theorem update_idle_pass_through u nn sp Node st rp MyLoad RunFlag st' rp' Node' :
  0 <= MyLoad \/ RunFlag = false ->
  UpdateReformEIRChillerRecords u nn sp Node st rp MyLoad RunFlag
  = Ok (st', rp', Node') ->
  (ChillerPartLoadRatio st' = 0 /\ ChillerCyclingRatio st' = 0
   /\ ChillerFalseLoadRate st' = 0 /\ Power st' = 0 /\ QEvaporator st' = 0
   /\ QCondenser st' = 0 /\ Energy rp' = 0 /\ EvapEnergy rp' = 0
   /\ CondEnergy rp' = 0 /\ ChillerFalseLoad rp' = 0 /\ ActualCOP rp' = 0)
  /\ (EvapOutletNodeNum nn <> CondOutletNodeNum nn ->
      EvapOutletNodeNum nn <> CondInletNodeNum nn ->
      EvapOutletTemp st' = Temp (Node (EvapInletNodeNum nn))
      /\ CondOutletTemp st' = Temp (Node (CondInletNodeNum nn))
      /\ (HeatRecActive sp = false ->
          Temp (Node' (EvapOutletNodeNum nn)) = Temp (Node (EvapInletNodeNum nn))
          /\ Temp (Node' (CondOutletNodeNum nn)) = Temp (Node (CondInletNodeNum nn))
          /\ (forall k, k <> EvapOutletNodeNum nn -> k <> CondOutletNodeNum nn ->
                        Node' k = Node k)
          /\ (forall k, MassFlowRate (Node' k) = MassFlowRate (Node k)))).
Proof.
  intros Hidle H.
  pose proof (update_idle_zero _ _ _ _ _ _ _ _ _ _ _ Hidle H) as HZ.
  unfold UpdateReformEIRChillerRecords in H.
  rewrite (idle_test_true _ _ Hidle) in H.
  assert (T1 : EvapOutletNodeNum nn <> CondOutletNodeNum nn ->
               EvapOutletNodeNum nn <> CondInletNodeNum nn ->
               Temp (set_NodeTemp (CondOutletNodeNum nn)
                       (Temp (set_NodeTemp (EvapOutletNodeNum nn)
                                (Temp (Node (EvapInletNodeNum nn))) Node
                                (CondInletNodeNum nn)))
                       (set_NodeTemp (EvapOutletNodeNum nn)
                          (Temp (Node (EvapInletNodeNum nn))) Node)
                       (EvapOutletNodeNum nn))
               = Temp (Node (EvapInletNodeNum nn))
               /\ Temp (set_NodeTemp (CondOutletNodeNum nn)
                       (Temp (set_NodeTemp (EvapOutletNodeNum nn)
                                (Temp (Node (EvapInletNodeNum nn))) Node
                                (CondInletNodeNum nn)))
                       (set_NodeTemp (EvapOutletNodeNum nn)
                          (Temp (Node (EvapInletNodeNum nn))) Node)
                       (CondOutletNodeNum nn))
                  = Temp (Node (CondInletNodeNum nn))).
  { intros H1 H2. split.
    - rewrite set_NodeTemp_other by exact H1. apply set_NodeTemp_same.
    - rewrite set_NodeTemp_same. rewrite set_NodeTemp_other; [reflexivity | ].
      intros E. apply H2. symmetry. exact E. }
  destruct (HeatRecActive sp) eqn:HR; injection H as <- <- <-;
    fields; report_fields.
  - split; [exact HZ | ].
    intros H1 H2. destruct (T1 H1 H2) as (Ta & Tb).
    split; [exact Ta | ]. split; [exact Tb | discriminate].
  - split; [exact HZ | ].
    intros H1 H2. destruct (T1 H1 H2) as (Ta & Tb).
    split; [exact Ta | ]. split; [exact Tb | ]. intros _.
    split; [exact Ta | ]. split; [exact Tb | ]. split.
    + intros k K1 K2. rewrite set_NodeTemp_other by exact K2.
      apply set_NodeTemp_other. exact K1.
    + intros k. rewrite !set_NodeTemp_flow. reflexivity.
Qed.

(** The bench, switched off, with leftovers of a running call in the
    record. *)
Lemma update_idle_pass_through_witness :
  exists st' rp' Node',
    UpdateReformEIRChillerRecords UpdateBench.u UpdateBench.nn
      (Bench.spec ConstantFlow 40 false 0 0) UpdateBench.Node UpdateBench.st_run
      UpdateBench.rp0 0 true = Ok (st', rp', Node')
    /\ Power st' = 0 /\ QEvaporator st' = 0
    /\ EvapOutletTemp st' = 12 /\ CondOutletTemp st' = 29.4
    /\ Temp (Node' 2%Z) = 12 /\ Temp (Node' 4%Z) = 29.4.
Proof.
  destruct (UpdateReformEIRChillerRecords UpdateBench.u UpdateBench.nn
              (Bench.spec ConstantFlow 40 false 0 0) UpdateBench.Node
              UpdateBench.st_run UpdateBench.rp0 0 true)
    as [[[st' rp'] Node'] | ] eqn:E; [ | vm_compute in E; discriminate E].
  exists st', rp', Node'. split; [reflexivity | ].
  destruct (update_idle_pass_through _ _ _ _ _ _ _ _ _ _ _
              (or_introl (Qle_refl 0)) E)
    as ((_ & _ & _ & HP & HQ & _) & HT).
  destruct HT as (T1 & T2 & T3); [discriminate | discriminate | ].
  destruct T3 as (T3 & T4 & _); [reflexivity | ].
  repeat split; assumption.
Defined.

(** * The chilled-water-loop branch of the driver *)

Lemma solve_branch_idle_load env sp num st ds L RunFlag FirstIteration EquipFlowCtrl
    Tmin Tmax called st' ds' L' :
  solve_branch env sp num st ds L RunFlag FirstIteration EquipFlowCtrl Tmin Tmax
  = Ok (called, st', ds', L') ->
  0 <= L \/ RunFlag = false ->
  L' = L.
Proof.
  unfold solve_branch. intros H Hidle. run_all; try reflexivity.
  all: match goal with
       | H : CalcReformEIRChillerModel _ _ _ _ _ _ _ _ = Ok _ |- _ =>
           rewrite (calc_idle_path _ _ _ _ _ _ _ _ Hidle) in H;
           injection H as <-; reflexivity
       end.
Qed.

Lemma control_zero_evap_flow env sp num st MyLoad RunFlag FirstIteration EquipFlowCtrl r :
  MyLoad < 0 -> RunFlag = true ->
  MassFlowRate (EvapInletNode env) == 0 ->
  ((CondenserType sp =? WaterCooled)%Z = true ->
   MassFlowTolerance env <= cond_flow_granted env sp) ->
  ControlReformEIRChillerModel env sp num st MyLoad RunFlag FirstIteration
    EquipFlowCtrl = Ok r ->
  final_load r = 0.
Proof.
  intros Hload Hrun Hflow Hcond H.
  unfold ControlReformEIRChillerModel in H.
  rewrite (running_test _ _ Hload Hrun) in H. cbv zeta in H.
  bind_split H o1 H1.
  assert (L1 : load o1 = 0).
  { apply calc_running in H1; [ | apply running_test; assumption].
    destruct H1; cbn [load]; try reflexivity; try contradiction.
    exfalso. match goal with
             | Hw : (CondenserType sp =? WaterCooled)%Z = true |- _ =>
                 specialize (Hcond Hw) end.
    lra. }
  rewrite L1 in H.
  assert (Hidle : 0 <= 0 \/ RunFlag = false) by (left; lra).
  rewrite (calc_idle_path _ _ _ _ _ _ _ _ Hidle) in H. cbn [bind state load diags] in H.
  bind_split H x Hx. destruct x as [[[called s] d] L].
  bind_split H y Hy. destruct y as [s' dv]. injection H as <-. cbn [final_load].
  destruct (Real64.gtb _ _ && Real64.ltb _ _).
  - exact (solve_branch_idle_load _ _ _ _ _ _ _ _ _ _ _ _ _ _ _ Hx Hidle).
  - rewrite (calc_idle_path _ _ _ _ _ _ _ _ Hidle) in Hx. cbn [bind state load] in Hx.
    rewrite (calc_idle_path _ _ _ _ _ _ _ _ Hidle) in Hx. cbn [bind state load] in Hx.
    injection Hx as _ _ _ <-. reflexivity.
Qed.

(** X10.  A chiller that is commanded on with a negative load, but whose
    evaporator inlet flow is zero (and whose condenser flow is not below
    the tolerance): the solver hands back a load of exactly 0, so that the
    report update that follows takes its chiller-off branch, whatever the
    root finder did: power, heat flows, part-load ratio, energies and COP
    are reported as 0. *)
Theorem sim_zero_evaporator_flow env u nn sp num Node st rp MyLoad RunFlag
    FirstIteration EquipFlowCtrl r st' rp' Node' :
  MyLoad < 0 -> RunFlag = true ->
  MassFlowRate (EvapInletNode env) == 0 ->
  ((CondenserType sp =? WaterCooled)%Z = true ->
   MassFlowTolerance env <= cond_flow_granted env sp) ->
  SimChilledWaterLoop env u nn sp num Node st rp MyLoad RunFlag FirstIteration
    EquipFlowCtrl = Ok (r, (st', rp', Node')) ->
  final_load r = 0
  /\ ChillerPartLoadRatio st' = 0 /\ Power st' = 0 /\ QEvaporator st' = 0
  /\ QCondenser st' = 0 /\ ChillerFalseLoadRate st' = 0
  /\ Energy rp' = 0 /\ EvapEnergy rp' = 0 /\ CondEnergy rp' = 0
  /\ ActualCOP rp' = 0.
Proof.
  intros Hload Hrun Hflow Hcond H. unfold SimChilledWaterLoop in H.
  bind_split H r0 Hr. bind_split H x Hx. injection H as Er Ex. subst r0 x.
  pose proof (control_zero_evap_flow _ _ _ _ _ _ _ _ _ Hload Hrun Hflow Hcond Hr) as L0.
  split; [exact L0 | ].
  rewrite L0 in Hx.
  pose proof (update_idle_zero _ _ _ _ _ _ _ _ _ _ _
                (or_introl (Qle_refl 0)) Hx) as HZ.
  tauto.
Qed.

(** The bench with the evaporator inlet flow at zero. *)
Lemma sim_zero_evaporator_flow_witness :
  exists r st' rp' Node',
    SimChilledWaterLoop UpdateBench.env_no_evap_flow UpdateBench.u UpdateBench.nn
      (Bench.spec ConstantFlow 40 false 0 0) 1 UpdateBench.Node UpdateBench.st_run
      UpdateBench.rp0 (-(300000)) true false 1 = Ok (r, (st', rp', Node'))
    /\ final_load r = 0 /\ Power st' = 0 /\ QEvaporator st' = 0.
Proof.
  destruct (SimChilledWaterLoop UpdateBench.env_no_evap_flow UpdateBench.u
              UpdateBench.nn (Bench.spec ConstantFlow 40 false 0 0) 1
              UpdateBench.Node UpdateBench.st_run UpdateBench.rp0 (-(300000))
              true false 1)
    as [[r [[st' rp'] Node']] | ] eqn:E; [ | vm_compute in E; discriminate E].
  exists r, st', rp', Node'. split; [reflexivity | ].
  assert (Hcond : (CondenserType (Bench.spec ConstantFlow 40 false 0 0)
                   =? WaterCooled)%Z = true ->
                  MassFlowTolerance UpdateBench.env_no_evap_flow
                  <= cond_flow_granted UpdateBench.env_no_evap_flow
                       (Bench.spec ConstantFlow 40 false 0 0))
    by (intros _; vm_compute; discriminate).
  assert (Hflow : MassFlowRate (EvapInletNode UpdateBench.env_no_evap_flow) == 0)
    by reflexivity.
  destruct (sim_zero_evaporator_flow _ _ _ _ _ _ _ _ _ _ _ _ _ _ _ _
              (eq_refl : -(300000) < 0) eq_refl Hflow Hcond E)
    as (H1 & _ & H2 & H3 & _).
  repeat split; assumption.
Defined.


(** * Input processing: the rated performance data *)

Lemma rated_flag_steps (b : bool) (c : bool) (e : Input.Error) :
  (if c then (true, [e]) else (b, [])) = ((c || b), if c then [e] else []).
Proof. destruct c; reflexivity. Qed.

(** The flag and the record that lines 396-474 leave. *)
Lemma rated_data_value AutoSize rNumericArgs r0 ErrorsFound r ErrorsFound' errs :
  GetRatedPerformanceData AutoSize rNumericArgs r0 ErrorsFound
  = (r, ErrorsFound', errs) ->
  let a := rNumericArgs_at rNumericArgs in
  ErrorsFound'
  = (Real64.ltb (a 11%nat) 0 || Real64.gtb (a 11%nat) 1
     || (Real64.ltb (a 9%nat) (a 7%nat) || Real64.gtb (a 9%nat) (a 8%nat)
         || (Real64.ltb (a 10%nat) (a 7%nat) || Real64.gtb (a 10%nat) (a 8%nat)
             || (Real64.gtb (a 7%nat) (a 8%nat)
                 || (Real64.geb (a 3%nat) (a 4%nat)
                     || (Real64.eqb (a 2%nat) 0
                         || (Real64.eqb (a 1%nat) 0 || ErrorsFound)))))))
  /\ Input.RefCap r = a 1%nat /\ Input.RefCOP r = a 2%nat
  /\ Input.TempRefEvapOut r = a 3%nat /\ Input.TempRefCondOut r = a 4%nat
  /\ Input.MinPartLoadRat r = a 7%nat /\ Input.MaxPartLoadRat r = a 8%nat
  /\ Input.OptPartLoadRat r = a 9%nat /\ Input.MinUnloadRat r = a 10%nat
  /\ Input.CompPowerToCondenserFrac r = a 11%nat
  /\ Input.SizFac r = (if Real64.leb (a 14%nat) 0 then 1 else a 14%nat)
  /\ errs
     = (if Real64.eqb (a 1%nat) 0 then [Input.InvalidRefCap] else [])
       ++ (if Real64.eqb (a 2%nat) 0 then [Input.InvalidRefCOP] else [])
       ++ (if Real64.geb (a 3%nat) (a 4%nat) then [Input.RefTempsOutOfOrder] else [])
       ++ (if Real64.gtb (a 7%nat) (a 8%nat)
           then [Input.PartLoadRatsOutOfOrder] else [])
       ++ (if Real64.ltb (a 10%nat) (a 7%nat) || Real64.gtb (a 10%nat) (a 8%nat)
           then [Input.MinUnloadRatOutOfRange] else [])
       ++ (if Real64.ltb (a 9%nat) (a 7%nat) || Real64.gtb (a 9%nat) (a 8%nat)
           then [Input.OptPartLoadRatOutOfRange] else [])
       ++ (if Real64.ltb (a 11%nat) 0 || Real64.gtb (a 11%nat) 1
           then [Input.CondenserFracOutOfRange] else []).
Proof.
  unfold GetRatedPerformanceData. intros H.
  repeat rewrite rated_flag_steps in H. cbv beta iota zeta in H.
  injection H as <- <- <-. cbv zeta. repeat split; reflexivity.
Qed.

Lemma rated_data_accepted AutoSize rNumericArgs r0 ErrorsFound r errs :
  GetRatedPerformanceData AutoSize rNumericArgs r0 ErrorsFound = (r, false, errs) ->
  ErrorsFound = false
  /\ ~ Input.RefCap r == 0 /\ ~ Input.RefCOP r == 0
  /\ Input.TempRefEvapOut r < Input.TempRefCondOut r
  /\ Input.MinPartLoadRat r <= Input.MinUnloadRat r
  /\ Input.MinUnloadRat r <= Input.MaxPartLoadRat r
  /\ Input.MinPartLoadRat r <= Input.OptPartLoadRat r
  /\ Input.OptPartLoadRat r <= Input.MaxPartLoadRat r
  /\ 0 <= Input.CompPowerToCondenserFrac r
  /\ Input.CompPowerToCondenserFrac r <= 1.
Proof.
  intros H. apply rated_data_value in H. cbv zeta in H.
  destruct H as (HF & -> & -> & -> & -> & -> & -> & -> & -> & -> & _).
  symmetry in HF.
  repeat match goal with
    | H : _ || _ = false |- _ => apply orb_false_iff in H; destruct H
    end.
  reflect_tests. repeat split; assumption.
Qed.

(** X11.  The rated data of a chiller pass lines 396-474 without an input error
    exactly when no error was pending and the reference capacity and the
    reference COP are not zero, the reference leaving chilled-water
    temperature is below the reference leaving condenser-water
    temperature, the minimum unloading ratio and the optimum part-load
    ratio lie between the minimum and the maximum part-load ratio, and the
    compressor-power fraction lies between 0 and 1.  The flag is raised
    when an error is reported and left as it was when none is, and the
    sizing factor stored is always positive. *)
Theorem rated_data_accepted_iff AutoSize rNumericArgs r0 ErrorsFound r ErrorsFound' errs :
  GetRatedPerformanceData AutoSize rNumericArgs r0 ErrorsFound
  = (r, ErrorsFound', errs) ->
  (ErrorsFound' = false <->
   ErrorsFound = false
   /\ ~ Input.RefCap r == 0 /\ ~ Input.RefCOP r == 0
   /\ Input.TempRefEvapOut r < Input.TempRefCondOut r
   /\ Input.MinPartLoadRat r <= Input.MinUnloadRat r
   /\ Input.MinUnloadRat r <= Input.MaxPartLoadRat r
   /\ Input.MinPartLoadRat r <= Input.OptPartLoadRat r
   /\ Input.OptPartLoadRat r <= Input.MaxPartLoadRat r
   /\ 0 <= Input.CompPowerToCondenserFrac r
   /\ Input.CompPowerToCondenserFrac r <= 1)
  /\ ErrorsFound' = match errs with [] => ErrorsFound | _ :: _ => true end
  /\ 0 < Input.SizFac r.
Proof.
  intros H. apply rated_data_value in H. cbv zeta in H.
  destruct H as (HF & -> & -> & -> & -> & -> & -> & -> & -> & -> & -> & ->).
  set (a := rNumericArgs_at rNumericArgs) in *.
  split; [ | split].
  - split.
    + intros E. rewrite E in HF. symmetry in HF.
      repeat match goal with
        | H : _ || _ = false |- _ => apply orb_false_iff in H; destruct H
        end.
      reflect_tests. repeat split; assumption.
    + intros (E & H1 & H2 & H3 & H4 & H5 & H6 & H7 & H8 & H9).
      apply Real64Facts.eqb_false in H1, H2.
      apply Real64Facts.geb_false in H3.
      assert (G : Real64.gtb (a 7%nat) (a 8%nat) = false)
        by (apply Real64Facts.gtb_false; lra).
      apply Real64Facts.ltb_false in H4, H6, H8.
      apply Real64Facts.gtb_false in H5, H7, H9.
      rewrite HF, H1, H2, H3, G, H4, H5, H6, H7, H8, H9, E. reflexivity.
  - rewrite HF.
    destruct (Real64.eqb (a 1%nat) 0);
    destruct (Real64.eqb (a 2%nat) 0);
    destruct (Real64.geb (a 3%nat) (a 4%nat));
    destruct (Real64.gtb (a 7%nat) (a 8%nat));
    destruct (Real64.ltb (a 10%nat) (a 7%nat) || Real64.gtb (a 10%nat) (a 8%nat));
    destruct (Real64.ltb (a 9%nat) (a 7%nat) || Real64.gtb (a 9%nat) (a 8%nat));
    destruct (Real64.ltb (a 11%nat) 0 || Real64.gtb (a 11%nat) 1);
    cbn [orb app]; reflexivity.
  - destruct (Real64.leb (a 14%nat) 0) eqn:E; reflect_tests; lra.
Qed.

(** The numeric fields of the bench chiller are accepted. *)
Lemma rated_data_accepted_iff_witness :
  exists r errs,
    GetRatedPerformanceData InputBench.AutoSize InputBench.rNumericArgs
      InputBench.r0 false = (r, false, errs)
    /\ Input.TempRefEvapOut r < Input.TempRefCondOut r
    /\ Input.MinPartLoadRat r <= Input.MinUnloadRat r
    /\ 0 < Input.SizFac r.
Proof.
  destruct (GetRatedPerformanceData InputBench.AutoSize InputBench.rNumericArgs
              InputBench.r0 false) as [[r ef] errs] eqn:E.
  assert (Ef : ef = false).
  { pose proof E as E'. vm_compute in E'. injection E' as _ <- _. reflexivity. }
  subst ef. exists r, errs. split; [reflexivity | ].
  destruct (rated_data_accepted_iff _ _ _ _ _ _ _ E) as (H1 & _ & H3).
  destruct (proj1 H1 eq_refl) as (_ & _ & _ & Ht & Hm & _).
  repeat split; assumption.
Defined.

(** X12.  What the input checks buy downstream.  For a chiller whose rated data
    were accepted: the capacity limit of the heat-recovery bundle can be
    computed (its division by the reference COP is safe), and the lift
    variables of the part-load curve are normalised by the reference lift
    TempRefCondOut - TempRefEvapOut itself: the fall-back of lines
    2403-2405 to a lift of 35 - 6.67 is never taken. *)
Theorem accepted_data_downstream AutoSize rNumericArgs r0 ErrorsFound r errs sp :
  GetRatedPerformanceData AutoSize rNumericArgs r0 ErrorsFound = (r, false, errs) ->
  RefCOP sp = Input.RefCOP r ->
  TempRefEvapOut sp = Input.TempRefEvapOut r ->
  TempRefCondOut sp = Input.TempRefCondOut r ->
  (exists sp', InitHeatRecMaxCapacityLimit sp = Ok sp')
  /\ (forall CondTemp EvapTemp,
        lift_variables sp CondTemp EvapTemp
        = Ok ((CondTemp - EvapTemp) / (TempRefCondOut sp - TempRefEvapOut sp),
              Qabs (EvapTemp - TempRefEvapOut sp)
              / (TempRefCondOut sp - TempRefEvapOut sp))).
Proof.
  intros H HC HE HO.
  destruct (rated_data_accepted _ _ _ _ _ _ H) as (_ & _ & Hcop & Ht & _).
  rewrite <- HC in Hcop. rewrite <- HE, <- HO in Ht.
  split.
  - unfold InitHeatRecMaxCapacityLimit. rewrite (div_ok _ _ Hcop).
    eexists. reflexivity.
  - intros c e. unfold lift_variables.
    assert (E : Real64.leb (TempRefCondOut sp - TempRefEvapOut sp) 0 = false)
      by (apply Real64Facts.leb_false; lra).
    rewrite E.
    assert (Hn : ~ TempRefCondOut sp - TempRefEvapOut sp == 0) by lra.
    rewrite !(div_ok _ _ Hn). reflexivity.
Qed.

(** The bench chiller, whose reference temperatures and COP are those of
    the bench input. *)
Lemma accepted_data_downstream_witness :
  exists sp',
    InitHeatRecMaxCapacityLimit (Bench.spec ConstantFlow 40 true 0 0) = Ok sp'.
Proof.
  destruct (GetRatedPerformanceData InputBench.AutoSize InputBench.rNumericArgs
              InputBench.r0 false) as [[r ef] errs] eqn:E.
  pose proof E as E'. vm_compute in E'. injection E' as Er Ef _. subst ef.
  refine (proj1 (accepted_data_downstream _ _ _ _ _ _
                   (Bench.spec ConstantFlow 40 true 0 0) E _ _ _));
    rewrite <- Er; reflexivity.
Defined.

(** X13.  The capacities handed to the plant at initialisation are ordered for a
    chiller whose rated data were accepted and whose (sized) reference
    capacity is not negative: MinCap <= OptCap <= MaxCap, on the
    chilled-water loop and on the other loops, where all three are 0. *)
Theorem capacities_ordered AutoSize rNumericArgs r0 ErrorsFound r errs r'
    LoopNum CWLoopNum :
  GetRatedPerformanceData AutoSize rNumericArgs r0 ErrorsFound = (r, false, errs) ->
  Input.MinPartLoadRat r' = Input.MinPartLoadRat r ->
  Input.MaxPartLoadRat r' = Input.MaxPartLoadRat r ->
  Input.OptPartLoadRat r' = Input.OptPartLoadRat r ->
  0 <= Input.RefCap r' ->
  let '(MinCap, MaxCap, OptCap) := InitLoopEquipCapacities LoopNum CWLoopNum r' in
  MinCap <= OptCap /\ OptCap <= MaxCap
  /\ (LoopNum <> CWLoopNum -> MinCap = 0 /\ MaxCap = 0 /\ OptCap = 0).
Proof.
  intros H Emin Emax Eopt Hcap.
  destruct (rated_data_accepted _ _ _ _ _ _ H) as (_ & _ & _ & _ & _ & _ & Hlo & Hhi & _).
  rewrite <- Emin, <- Eopt in Hlo. rewrite <- Emax, <- Eopt in Hhi.
  unfold InitLoopEquipCapacities.
  destruct (LoopNum =? CWLoopNum)%Z eqn:EL.
  - apply Z.eqb_eq in EL.
    split; [nra | ].
    split; [nra | ].
    intros Hne. contradiction.
  - split; [lra | ]. split; [lra | ]. intros _. repeat split; reflexivity.
Qed.

(** The bench chiller after sizing to 400 kW, on its chilled-water loop. *)
Lemma capacities_ordered_witness :
  let '(MinCap, MaxCap, OptCap) :=
    InitLoopEquipCapacities 1 1
      (Input.mkRated 400000 true 5.5 6.67 35 0.02 false 0.03 false 0.1 1 1 0.2 1 1) in
  MinCap <= OptCap /\ OptCap <= MaxCap.
Proof.
  destruct (GetRatedPerformanceData InputBench.AutoSize InputBench.rNumericArgs
              InputBench.r0 false) as [[r ef] errs] eqn:E.
  pose proof E as E'. vm_compute in E'. injection E' as Er Ef _. subst ef.
  pose proof (capacities_ordered _ _ _ _ _ _
                (Input.mkRated 400000 true 5.5 6.67 35 0.02 false 0.03 false
                   0.1 1 1 0.2 1 1) 1%Z 1%Z E) as HC.
  rewrite <- Er in HC.
  specialize (HC eq_refl eq_refl eq_refl).
  assert (H0 : 0 <= 400000) by (vm_compute; discriminate).
  specialize (HC H0).
  destruct (InitLoopEquipCapacities 1 1 _) as [[a b] c].
  destruct HC as (Ha & Hb & _). split; assumption.
Defined.


(** * The boundary validator *)

(** X14.  A run of the boundary validator leaves each of its nine counters as
    it was or increments it once, as a C++ int: a counter that is below the
    largest int is not lowered and is raised by at most 1, and a counter
    that is an int stays one.  Nothing that the run reports is fatal. *)
Theorem validator_counters env sp st FirstIteration st' ds :
  CheckMinMaxCurveBoundaries env sp st FirstIteration = Ok (st', ds) ->
  (forall c, In c validator_counter_fields ->
     counter_step (c st) (c st')
     /\ ((INT_MIN <= c st < INT_MAX)%Z -> (c st <= c st' <= c st + 1)%Z)
     /\ ((INT_MIN <= c st <= INT_MAX)%Z -> (INT_MIN <= c st' <= INT_MAX)%Z))
  /\ no_fatal ds = true.
Proof.
  intros H.
  assert (K : (counter_step (CAPFTXIter st) (CAPFTXIter st')
               /\ counter_step (EIRFTXIter st) (EIRFTXIter st')
               /\ counter_step (CAPFTYIter st) (CAPFTYIter st')
               /\ counter_step (EIRFTYIter st) (EIRFTYIter st')
               /\ counter_step (EIRFPLRTIter st) (EIRFPLRTIter st')
               /\ counter_step (EIRFPLRPLRIter st) (EIRFPLRPLRIter st')
               /\ counter_step (ChillerCapFTError st) (ChillerCapFTError st')
               /\ counter_step (ChillerEIRFTError st) (ChillerEIRFTError st')
               /\ counter_step (ChillerEIRFPLRError st) (ChillerEIRFPLRError st'))
              /\ no_fatal ds = true).
  { destruct (FirstIteration || WarmupFlag env || (FlowLock env =? 0)%Z) eqn:Hskip.
    - rewrite validator_skipped in H by exact Hskip. injection H as <- <-.
      unfold counter_step. repeat split; first [left; reflexivity | reflexivity].
    - destruct (validator_checks _ _ _ _ _ _ H Hskip)
        as (d1 & d2 & d3 & d4 & d5 & d6 & d7 & d8 & d9 & -> & C1 & C2 & C3 & C4 & C5
            & C6 & C7 & C8 & C9).
      apply range_check_spec in C1, C2, C3, C4, C6.
      apply negative_check_spec in C7, C8, C9.
      assert (C5' : counter_step (EIRFPLRTIter st) (EIRFPLRTIter st')
                    /\ no_fatal d5 = true).
      { destruct (PartLoadCurveType sp =? PLR_LeavingCondenserWaterTemperature)%Z.
        - apply range_check_spec in C5. tauto.
        - destruct C5 as (-> & ->). split; [left; reflexivity | reflexivity]. }
      repeat match goal with H : _ /\ _ |- _ => destruct H end.
      split; [repeat split; assumption | ].
      repeat (apply no_fatal_app; [assumption | ]). assumption. }
  destruct K as (K & HF). split; [ | exact HF].
  intros c Hc. unfold validator_counter_fields in Hc. cbn [In] in Hc.
  assert (S : counter_step (c st) (c st')).
  { repeat match goal with H : _ /\ _ |- _ => destruct H end.
    repeat match goal with H : _ \/ _ |- _ => destruct H end;
      first [subst c; assumption | contradiction]. }
  split; [exact S | apply counter_step_bounds; exact S].
Qed.

(** The flow-locked bench at the condenser temperature limit of 30 C: the
    run that ends at 33 C is out of range. *)
Lemma validator_counters_witness :
  exists st' ds,
    CheckMinMaxCurveBoundaries (Bench.env 1 1 25 0)
      (Bench.spec ConstantFlow 30 false 0 0) UpdateBench.st_run false = Ok (st', ds)
    /\ counter_step (CAPFTYIter UpdateBench.st_run) (CAPFTYIter st')
    /\ (CAPFTYIter UpdateBench.st_run <= CAPFTYIter st'
        <= CAPFTYIter UpdateBench.st_run + 1)%Z
    /\ no_fatal ds = true.
Proof.
  destruct (CheckMinMaxCurveBoundaries (Bench.env 1 1 25 0)
              (Bench.spec ConstantFlow 30 false 0 0) UpdateBench.st_run false)
    as [[st' ds] | ] eqn:E; [ | vm_compute in E; discriminate E].
  exists st', ds. split; [reflexivity | ].
  destruct (validator_counters _ _ _ _ _ _ E) as (H & HF).
  destruct (H CAPFTYIter) as (H1 & H2 & _).
  { right. right. left. reflexivity. }
  split; [exact H1 | ]. split; [ | exact HF].
  apply H2. vm_compute. split; [discriminate | reflexivity].
Defined.

(** X15.  A run of the boundary validator that is not skipped reports every
    violation: a temperature or part-load ratio outside the range of a
    curve increments the counter of that check (as a C++ int) and leaves
    the recurring message of that check, with the offending value, in the
    error file; a negative curve output increments the counter of its
    check. *)
Theorem validator_reports env sp st FirstIteration st' ds :
  CheckMinMaxCurveBoundaries env sp st FirstIteration = Ok (st', ds) ->
  FirstIteration || WarmupFlag env || (FlowLock env =? 0)%Z = false ->
  let Te := EvapOutletTemp st in
  let Tc := CondOutletTemp st in
  let plr := ChillerPartLoadRatio st in
  (Te < ChillerCAPFTXTempMin sp \/ ChillerCAPFTXTempMax sp < Te ->
   CAPFTXIter st' = int_succ (CAPFTXIter st)
   /\ In (ShowRecurringWarningErrorAtEnd CkCAPFTX Te Te) ds)
  /\ (Te < ChillerEIRFTXTempMin sp \/ ChillerEIRFTXTempMax sp < Te ->
      EIRFTXIter st' = int_succ (EIRFTXIter st)
      /\ In (ShowRecurringWarningErrorAtEnd CkEIRFTX Te Te) ds)
  /\ (Tc < ChillerCAPFTYTempMin sp \/ ChillerCAPFTYTempMax sp < Tc ->
      CAPFTYIter st' = int_succ (CAPFTYIter st)
      /\ In (ShowRecurringWarningErrorAtEnd CkCAPFTY Tc Tc) ds)
  /\ (Tc < ChillerEIRFTYTempMin sp \/ ChillerEIRFTYTempMax sp < Tc ->
      EIRFTYIter st' = int_succ (EIRFTYIter st)
      /\ In (ShowRecurringWarningErrorAtEnd CkEIRFTY Tc Tc) ds)
  /\ (PartLoadCurveType sp = PLR_LeavingCondenserWaterTemperature ->
      Tc < ChillerEIRFPLRTempMin sp \/ ChillerEIRFPLRTempMax sp < Tc ->
      EIRFPLRTIter st' = int_succ (EIRFPLRTIter st)
      /\ In (ShowRecurringWarningErrorAtEnd CkEIRFPLRT Tc Tc) ds)
  /\ (plr < ChillerEIRFPLRPLRMin sp \/ ChillerEIRFPLRPLRMax sp < plr ->
      EIRFPLRPLRIter st' = int_succ (EIRFPLRPLRIter st)
      /\ In (ShowRecurringWarningErrorAtEnd CkEIRFPLRPLR plr plr) ds)
  /\ (ChillerCapFT st' < 0 -> ChillerCapFTError st' = int_succ (ChillerCapFTError st))
  /\ (ChillerEIRFT st' < 0 -> ChillerEIRFTError st' = int_succ (ChillerEIRFTError st))
  /\ (ChillerEIRFPLR st' < 0 ->
      ChillerEIRFPLRError st' = int_succ (ChillerEIRFPLRError st)).
Proof.
  intros H Hskip. cbv zeta.
  destruct (validator_not_skipped _ _ Hskip) as (HL & HW).
  destruct (validator_checks _ _ _ _ _ _ H Hskip)
    as (d1 & d2 & d3 & d4 & d5 & d6 & d7 & d8 & d9 & -> & C1 & C2 & C3 & C4 & C5
        & C6 & C7 & C8 & C9).
  apply range_check_spec in C1, C2, C3, C4, C6.
  apply negative_check_spec in C7, C8, C9.
  destruct C1 as (_ & _ & C1 & _). destruct C2 as (_ & _ & C2 & _).
  destruct C3 as (_ & _ & C3 & _). destruct C4 as (_ & _ & C4 & _).
  destruct C6 as (_ & _ & C6 & _). destruct C7 as (_ & _ & C7 & _).
  destruct C8 as (_ & _ & C8 & _). destruct C9 as (_ & _ & C9 & _).
  assert (I : forall x, In x d1 \/ In x d2 \/ In x d3 \/ In x d4 \/ In x d5 \/ In x d6 ->
                        In x (d1 ++ d2 ++ d3 ++ d4 ++ d5 ++ d6 ++ d7 ++ d8 ++ d9)).
  { intros x. rewrite !in_app_iff. tauto. }
  split; [intros Ho; destruct (C1 Ho) as (E & Hi & _); split; [exact E | apply I; tauto] | ].
  split; [intros Ho; destruct (C2 Ho) as (E & Hi & _); split; [exact E | apply I; tauto] | ].
  split; [intros Ho; destruct (C3 Ho) as (E & Hi & _); split; [exact E | apply I; tauto] | ].
  split; [intros Ho; destruct (C4 Ho) as (E & Hi & _); split; [exact E | apply I; tauto] | ].
  split.
  { intros HT Ho. apply Z.eqb_eq in HT. rewrite HT in C5.
    apply range_check_spec in C5. destruct C5 as (_ & _ & C5 & _).
    destruct (C5 Ho) as (E & Hi & _). split; [exact E | apply I; tauto]. }
  split; [intros Ho; destruct (C6 Ho) as (E & Hi & _); split; [exact E | apply I; tauto] | ].
  split; [intros Hn; exact (proj1 (C7 Hn HL HW)) | ].
  split; [intros Hn; exact (proj1 (C8 Hn HL HW)) | ].
  intros Hn; exact (proj1 (C9 Hn HL HW)).
Qed.

(** The condenser outlet at 33 C against a limit of 30 C. *)
Lemma validator_reports_witness :
  exists st' ds,
    CheckMinMaxCurveBoundaries (Bench.env 1 1 25 0)
      (Bench.spec ConstantFlow 30 false 0 0) UpdateBench.st_run false = Ok (st', ds)
    /\ CAPFTYIter st' = int_succ (CAPFTYIter UpdateBench.st_run)
    /\ In (ShowRecurringWarningErrorAtEnd CkCAPFTY
             (CondOutletTemp UpdateBench.st_run) (CondOutletTemp UpdateBench.st_run)) ds.
Proof.
  destruct (CheckMinMaxCurveBoundaries (Bench.env 1 1 25 0)
              (Bench.spec ConstantFlow 30 false 0 0) UpdateBench.st_run false)
    as [[st' ds] | ] eqn:E; [ | vm_compute in E; discriminate E].
  exists st', ds. split; [reflexivity | ].
  destruct (validator_reports _ _ _ _ _ _ E eq_refl) as (_ & _ & H3 & _).
  apply H3. right. vm_compute. reflexivity.
Defined.

(** X16.  A run of the boundary validator on a record whose temperatures and
    part-load ratio are inside the ranges of the curves, and for which the
    curve values it stores are not negative, reports nothing and leaves the
    nine counters as they were. *)
Theorem validator_silent_in_range env sp st FirstIteration st' ds :
  CheckMinMaxCurveBoundaries env sp st FirstIteration = Ok (st', ds) ->
  let Te := EvapOutletTemp st in
  let Tc := CondOutletTemp st in
  let plr := ChillerPartLoadRatio st in
  ChillerCAPFTXTempMin sp <= Te /\ Te <= ChillerCAPFTXTempMax sp ->
  ChillerEIRFTXTempMin sp <= Te /\ Te <= ChillerEIRFTXTempMax sp ->
  ChillerCAPFTYTempMin sp <= Tc /\ Tc <= ChillerCAPFTYTempMax sp ->
  ChillerEIRFTYTempMin sp <= Tc /\ Tc <= ChillerEIRFTYTempMax sp ->
  (PartLoadCurveType sp = PLR_LeavingCondenserWaterTemperature ->
   ChillerEIRFPLRTempMin sp <= Tc /\ Tc <= ChillerEIRFPLRTempMax sp) ->
  ChillerEIRFPLRPLRMin sp <= plr /\ plr <= ChillerEIRFPLRPLRMax sp ->
  0 <= ChillerCapFT st' -> 0 <= ChillerEIRFT st' -> 0 <= ChillerEIRFPLR st' ->
  ds = []
  /\ CAPFTXIter st' = CAPFTXIter st /\ EIRFTXIter st' = EIRFTXIter st
  /\ CAPFTYIter st' = CAPFTYIter st /\ EIRFTYIter st' = EIRFTYIter st
  /\ EIRFPLRTIter st' = EIRFPLRTIter st /\ EIRFPLRPLRIter st' = EIRFPLRPLRIter st
  /\ ChillerCapFTError st' = ChillerCapFTError st
  /\ ChillerEIRFTError st' = ChillerEIRFTError st
  /\ ChillerEIRFPLRError st' = ChillerEIRFPLRError st.
Proof.
  intros H. cbv zeta. intros R1 R2 R3 R4 R5 R6 N7 N8 N9.
  destruct (FirstIteration || WarmupFlag env || (FlowLock env =? 0)%Z) eqn:Hskip.
  - rewrite validator_skipped in H by exact Hskip. injection H as <- <-.
    repeat split; reflexivity.
  - destruct (validator_checks _ _ _ _ _ _ H Hskip)
      as (d1 & d2 & d3 & d4 & d5 & d6 & d7 & d8 & d9 & -> & C1 & C2 & C3 & C4 & C5
          & C6 & C7 & C8 & C9).
    apply range_check_spec in C1, C2, C3, C4, C6.
    apply negative_check_spec in C7, C8, C9.
    destruct C1 as (_ & C1 & _). destruct (C1 R1) as (-> & ->).
    destruct C2 as (_ & C2 & _). destruct (C2 R2) as (-> & ->).
    destruct C3 as (_ & C3 & _). destruct (C3 R3) as (-> & ->).
    destruct C4 as (_ & C4 & _). destruct (C4 R4) as (-> & ->).
    destruct C6 as (_ & C6 & _). destruct (C6 R6) as (-> & ->).
    destruct C7 as (_ & C7 & _). destruct (C7 N7) as (-> & ->).
    destruct C8 as (_ & C8 & _). destruct (C8 N8) as (-> & ->).
    destruct C9 as (_ & C9 & _). destruct (C9 N9) as (-> & ->).
    assert (C5' : EIRFPLRTIter st' = EIRFPLRTIter st /\ d5 = []).
    { destruct (PartLoadCurveType sp =? PLR_LeavingCondenserWaterTemperature)%Z eqn:ET.
      - apply Z.eqb_eq in ET. apply range_check_spec in C5.
        destruct C5 as (_ & C5 & _). exact (C5 (R5 ET)).
      - exact C5. }
    destruct C5' as (-> & ->).
    repeat split; reflexivity.
Qed.

(** The flow-locked bench with a condenser limit of 40 C: the record with
    the outlets at 6.67 C and 33 C, and a part-load ratio that the
    evaluator left at 0.6, is inside every range. *)
Lemma validator_silent_in_range_witness :
  exists st' ds,
    CheckMinMaxCurveBoundaries (Bench.env 1 1 25 0)
      (Bench.spec ConstantFlow 40 false 0 0)
      (set_ChillerPartLoadRatio 0.6 UpdateBench.st_run) false = Ok (st', ds)
    /\ ds = [].
Proof.
  destruct (CheckMinMaxCurveBoundaries (Bench.env 1 1 25 0)
              (Bench.spec ConstantFlow 40 false 0 0)
              (set_ChillerPartLoadRatio 0.6 UpdateBench.st_run) false)
    as [[st' ds] | ] eqn:E; [ | vm_compute in E; discriminate E].
  exists st', ds. split; [reflexivity | ].
  pose proof E as E'. vm_compute in E'. injection E' as Es _.
  refine (proj1 (validator_silent_in_range _ _ _ _ _ _ E _ _ _ _ (fun _ => _) _ _ _ _));
    try rewrite <- Es;
    try (split; vm_compute; discriminate); vm_compute; discriminate.
Defined.


(** * The solver *)

(** X17.  The residual that the root finder evaluates, on the parameter array
    that the solver builds: the load, the run flag and the first-iteration
    flag come back from the array unchanged, the flow-control mode comes
    back as 0 or 1 only, and the residual is the assumed condenser outlet
    temperature minus the one that the evaluator leaves in the record.  For
    a call with negative load and the run flag on, which reads neither the
    first-iteration flag nor the flow-control mode, the residual is that of
    the evaluation with the solver's own arguments. *)
Theorem residual_round_trip env sp num MyLoad (RunFlag FirstIteration : bool)
    EquipFlowCtrl T st ds :
  let Par := [ inject_Z num; MyLoad; (if RunFlag then 1 else 0);
               (if FirstIteration then 1 else 0); 0; inject_Z EquipFlowCtrl ] in
  let residual (ctrl : Z) : Res (Q * Prog) :=
    bind (CalcReformEIRChillerModel env sp st MyLoad RunFlag FirstIteration ctrl T)
      (fun o => Ok (T - CondOutletTemp (state o), (state o, ds ++ diags o))) in
  CondOutTempResidual env sp T Par (st, ds)
  = residual (if (EquipFlowCtrl =? 0)%Z then 0%Z else 1%Z)
  /\ (MyLoad < 0 -> RunFlag = true ->
      CondOutTempResidual env sp T Par (st, ds) = residual EquipFlowCtrl).
Proof.
  cbv zeta.
  assert (E : CondOutTempResidual env sp T
                [ inject_Z num; MyLoad; (if RunFlag then 1 else 0);
                  (if FirstIteration then 1 else 0); 0; inject_Z EquipFlowCtrl ]
                (st, ds)
              = (o <- CalcReformEIRChillerModel env sp st MyLoad RunFlag
                        FirstIteration
                        (if (EquipFlowCtrl =? 0)%Z then 0%Z else 1%Z) T ;;
                 Ok (T - CondOutletTemp (state o), (state o, ds ++ diags o)))).
  { unfold CondOutTempResidual, Par_at. cbn [nth Nat.sub fst snd].
    rewrite !Real64_to_int_flag, Real64_to_int_inject. reflexivity. }
  split; [exact E | ].
  intros Hload Hrun. rewrite E.
  rewrite (calc_running_ignores env sp st MyLoad RunFlag FirstIteration
             FirstIteration (if (EquipFlowCtrl =? 0)%Z then 0%Z else 1%Z)
             EquipFlowCtrl T (running_test _ _ Hload Hrun)).
  reflexivity.
Qed.

(** The bench with flow-control mode 3 (series active on the bench). *)
Lemma residual_round_trip_witness :
  CondOutTempResidual (Bench.env 1 1 25 0) (Bench.spec ConstantFlow 40 false 0 0) 30
    [inject_Z 1; -(300000); 1; 0; 0; inject_Z 3] (Bench.st0, [])
  = (o <- CalcReformEIRChillerModel (Bench.env 1 1 25 0)
            (Bench.spec ConstantFlow 40 false 0 0) Bench.st0 (-(300000)) true false
            3 30 ;;
     Ok (30 - CondOutletTemp (state o), (state o, [] ++ diags o))).
Proof.
  exact (proj2 (residual_round_trip (Bench.env 1 1 25 0)
                  (Bench.spec ConstantFlow 40 false 0 0) 1 (-(300000)) true false 3
                  30 Bench.st0 [])
               (eq_refl : -(300000) < 0) eq_refl).
Defined.

Lemma min3_spec a b c :
  Real64.min3 a b c <= a /\ Real64.min3 a b c <= b /\ Real64.min3 a b c <= c
  /\ (Real64.min3 a b c = a \/ Real64.min3 a b c = b \/ Real64.min3 a b c = c).
Proof.
  unfold Real64.min3.
  destruct (Real64.ltb b a) eqn:E1;
    [destruct (Real64.ltb c b) eqn:E2 | destruct (Real64.ltb c a) eqn:E2];
    reflect_tests; repeat split; try lra; auto.
Qed.

Lemma max3_spec a b c :
  a <= Real64.max3 a b c /\ b <= Real64.max3 a b c /\ c <= Real64.max3 a b c
  /\ (Real64.max3 a b c = a \/ Real64.max3 a b c = b \/ Real64.max3 a b c = c).
Proof.
  unfold Real64.max3.
  destruct (Real64.ltb a b) eqn:E1;
    [destruct (Real64.ltb b c) eqn:E2 | destruct (Real64.ltb a c) eqn:E2];
    reflect_tests; repeat split; try lra; auto.
Qed.

(** X18.  The interval [Tmin, Tmax] on which the solver looks for the condenser
    outlet temperature is the hull of the condenser-temperature ranges of
    the curves: every temperature inside the range of the capacity curve or
    of the EIR-temperature curve (and, for a part-load curve of the
    leaving-condenser-water type, of that curve) is inside the interval,
    and each end of the interval is an end of one of these ranges.  For a
    part-load curve of neither type both ends are -99. *)
Theorem bracket_is_hull_of_curve_ranges sp :
  (PartLoadCurveType sp = PLR_LeavingCondenserWaterTemperature
   \/ PartLoadCurveType sp = PLR_Lift ->
   (forall T,
       ChillerCAPFTYTempMin sp <= T /\ T <= ChillerCAPFTYTempMax sp
       \/ ChillerEIRFTYTempMin sp <= T /\ T <= ChillerEIRFTYTempMax sp
       \/ (PartLoadCurveType sp = PLR_LeavingCondenserWaterTemperature
           /\ ChillerEIRFPLRTempMin sp <= T /\ T <= ChillerEIRFPLRTempMax sp) ->
       bracket_Tmin sp <= T /\ T <= bracket_Tmax sp)
   /\ (bracket_Tmin sp = ChillerCAPFTYTempMin sp
       \/ bracket_Tmin sp = ChillerEIRFTYTempMin sp
       \/ (PartLoadCurveType sp = PLR_LeavingCondenserWaterTemperature
           /\ bracket_Tmin sp = ChillerEIRFPLRTempMin sp))
   /\ (bracket_Tmax sp = ChillerCAPFTYTempMax sp
       \/ bracket_Tmax sp = ChillerEIRFTYTempMax sp
       \/ (PartLoadCurveType sp = PLR_LeavingCondenserWaterTemperature
           /\ bracket_Tmax sp = ChillerEIRFPLRTempMax sp)))
  /\ (PartLoadCurveType sp <> PLR_LeavingCondenserWaterTemperature ->
      PartLoadCurveType sp <> PLR_Lift ->
      bracket_Tmin sp = -(99) /\ bracket_Tmax sp = -(99)).
Proof.
  unfold bracket_Tmin, bracket_Tmax. split.
  - intros [HT | HT]; rewrite HT; cbn [Z.eqb Pos.eqb PLR_LeavingCondenserWaterTemperature PLR_Lift].
    + destruct (min3_spec (ChillerCAPFTYTempMin sp) (ChillerEIRFTYTempMin sp)
                  (ChillerEIRFPLRTempMin sp)) as (A1 & A2 & A3 & A4).
      destruct (max3_spec (ChillerCAPFTYTempMax sp) (ChillerEIRFTYTempMax sp)
                  (ChillerEIRFPLRTempMax sp)) as (B1 & B2 & B3 & B4).
      split; [intros T [H | [H | (_ & H)]]; lra | ].
      split; tauto.
    + pose proof (Real64Facts.min_ub_l (ChillerCAPFTYTempMin sp) (ChillerEIRFTYTempMin sp)).
      pose proof (Real64Facts.min_ub_r (ChillerCAPFTYTempMin sp) (ChillerEIRFTYTempMin sp)).
      pose proof (Real64Facts.max_lb_l (ChillerCAPFTYTempMax sp) (ChillerEIRFTYTempMax sp)).
      pose proof (Real64Facts.max_lb_r (ChillerCAPFTYTempMax sp) (ChillerEIRFTYTempMax sp)).
      split; [intros T [Hr | [Hr | (Hr & _)]]; first [discriminate Hr | lra] | ].
      unfold Real64.min, Real64.max.
      destruct (Real64.ltb _ _); destruct (Real64.ltb _ _); split; auto.
  - intros H1 H2. apply Z.eqb_neq in H1, H2. rewrite H1, H2. split; reflexivity.
Qed.

(** The bench chiller: all ranges are 15 C to 40 C. *)
Lemma bracket_is_hull_of_curve_ranges_witness :
  bracket_Tmin (Bench.spec ConstantFlow 40 false 0 0) <= 30
  /\ 30 <= bracket_Tmax (Bench.spec ConstantFlow 40 false 0 0).
Proof.
  destruct (bracket_is_hull_of_curve_ranges (Bench.spec ConstantFlow 40 false 0 0))
    as (H & _).
  destruct H as (H & _); [left; reflexivity | ].
  apply H. left. split; vm_compute; discriminate.
Defined.


(** * The counters *)

Ltac counters_done :=
  unfold frame_counters; goal_tests; fields;
  repeat split; first [reflexivity | lia | assumption].

Lemma same_counters_refl st : same_counters st st.
Proof. unfold same_counters. counters_done. Qed.

Lemma same_counters_trans st1 st2 st3 :
  same_counters st1 st2 -> same_counters st2 st3 -> same_counters st1 st3.
Proof.
  unfold same_counters, frame_counters. intros H1 H2.
  repeat match goal with H : _ /\ _ |- _ => destruct H end.
  repeat split; congruence.
Qed.

Lemma calc_power_condenser_counters env sp st A C P F T st' ds :
  calc_power_condenser env sp st A C P F T = Ok (st', ds) ->
  same_counters st st'.
Proof.
  unfold calc_power_condenser, same_counters. intros H.
  run_all; frame_heat_recovery; counters_done.
Qed.

Lemma clamp_outlet_low_counters env Cp limit st :
  same_counters st (clamp_outlet_low env Cp limit st).
Proof. unfold clamp_outlet_low, same_counters. counters_done. Qed.

Lemma clamp_load_counters env Cp cap st st' :
  clamp_load env Cp cap st = Ok st' -> same_counters st st'.
Proof.
  unfold clamp_load, same_counters. intros H. run_all; counters_done.
Qed.

Lemma apply_swt_fault_counters env sp v Cp st :
  same_counters st (apply_swt_fault env sp v Cp st).
Proof.
  unfold apply_swt_fault, same_counters.
  destruct (CalFaultChillerSWT _ _ _ _ _ _ _ _ _) as [[t m] q]. counters_done.
Qed.

Lemma locked_evaporator_counters env sp st SP Cp L st' :
  locked_evaporator env sp st SP Cp L = Ok st' -> same_counters st st'.
Proof.
  unfold locked_evaporator. intros H. bind_split H s Hs.
  apply clamp_load_counters in H.
  refine (same_counters_trans _ _ _ _ H).
  refine (same_counters_trans _ _ _ _ (clamp_outlet_low_counters _ _ _ _)).
  refine (same_counters_trans _ _ _ _ (clamp_outlet_low_counters _ _ _ _)).
  unfold same_counters. run_all; counters_done.
Qed.

Lemma locked_part_load_counters env sp st A F st' P' F' :
  locked_part_load env sp st A F = Ok (st', P', F') -> same_counters st st'.
Proof.
  unfold locked_part_load, same_counters. intros H. run_all; counters_done.
Qed.

Lemma calc_flow_locked_counters env sp st SP A Cp L F st' P' F' :
  calc_flow_locked env sp st SP A Cp L F = Ok (st', P', F') ->
  same_counters st st'.
Proof.
  unfold calc_flow_locked. intros H.
  bind_split H s1 H1. bind_split H s2 H2.
  apply locked_evaporator_counters in H1. apply clamp_load_counters in H2.
  apply locked_part_load_counters in H.
  refine (same_counters_trans _ _ _ H1 _).
  refine (same_counters_trans _ _ _ _ (same_counters_trans _ _ _ H2 H)).
  destruct (_ && _); [apply apply_swt_fault_counters | apply same_counters_refl].
Qed.

Lemma calc_flow_unlocked_counters env sp st A Cp P st' P' ds :
  calc_flow_unlocked env sp st A Cp P = Ok (st', P', ds) ->
  frame_counters st st'
  /\ ((DeltaTErrCount st' = DeltaTErrCount st
       /\ ChillerCapFTError st' = ChillerCapFTError st)
      \/ ((DeltaTErrCount st < 1)%Z
          /\ DeltaTErrCount st' = int_succ (DeltaTErrCount st)
          /\ ChillerCapFTError st' = ChillerCapFTError st)
      \/ ((1 <= DeltaTErrCount st)%Z
          /\ DeltaTErrCount st' = DeltaTErrCount st
          /\ ChillerCapFTError st' = int_succ (ChillerCapFTError st)))
  /\ (FlowMode sp <> LeavingSetPointModulated \/ WarmupFlag env = true ->
      DeltaTErrCount st' = DeltaTErrCount st
      /\ ChillerCapFTError st' = ChillerCapFTError st).
Proof.
  unfold calc_flow_unlocked, apply_swt_fault. intros H.
  destruct (CurOpSchemeType env =? CompSetPtBasedSchemeType env)%Z;
    destruct (LoopDemandCalcScheme env CWLoop);
    fields;
    destruct (WarmupFlag env) eqn:EW;
    destruct (DeltaTErrCount st <? 1)%Z eqn:EC;
    cbn [andb negb] in H;
    run_all; goal_tests; unfold frame_counters; fields;
    (split; [repeat split; reflexivity | ]);
    (split;
     [ first [ left; split; reflexivity
             | right; left;
               split; [apply Z.ltb_lt; exact EC | split; reflexivity]
             | right; right;
               split; [apply Z.ltb_ge; exact EC | split; reflexivity] ]
     | intros [Hm | Hw];
       first [ split; reflexivity
             | exfalso; apply Hm; apply Z.eqb_eq; assumption
             | discriminate Hw ] ]).
Qed.

(** The counters across a call: every block other than the flow-unlocked
    one leaves them alone. *)
Lemma calc_counter_blocks env sp st MyLoad RunFlag FirstIteration EquipFlowCtrl T o :
  CalcReformEIRChillerModel env sp st MyLoad RunFlag FirstIteration EquipFlowCtrl T
  = Ok o ->
  same_counters st (state o)
  \/ (FlowLock env = 0%Z
      /\ exists s1 A Cp P s2 P' ds,
           same_counters st s1
           /\ calc_flow_unlocked env sp s1 A Cp P = Ok (s2, P', ds)
           /\ same_counters s2 (state o)).
Proof.
  unfold CalcReformEIRChillerModel. intros H.
  destruct (Real64.geb MyLoad 0 || negb RunFlag).
  - injection H as <-. cbn [state]. left. unfold calc_idle, calc_reset, same_counters.
    counters_done.
  - unfold calc_fouling, calc_setpoint, calc_cond_avg_temp, calc_reset in H.
    destruct (FaultyChillerFoulingFlag sp && faults_active env);
    destruct (CondenserType sp =? WaterCooled)%Z;
    destruct (FaultyChillerSWTFlag sp && faults_active env);
    destruct (HeatRecActive sp);
    cbn [andb] in H; run_all.
    all: repeat match goal with
           | H : calc_power_condenser _ _ _ _ _ _ _ _ = Ok _ |- _ =>
               apply calc_power_condenser_counters in H
           | H : calc_flow_locked _ _ _ _ _ _ _ _ = Ok _ |- _ =>
               apply calc_flow_locked_counters in H
           end.
    all: fields.
    all: try match goal with
           | H : calc_flow_unlocked _ _ ?s ?a ?c ?p = Ok (?s2, ?p', ?d),
             HL : (FlowLock _ =? 0)%Z = true |- _ =>
               right; split; [apply Z.eqb_eq; exact HL | ];
               exists s, a, c, p, s2, p', d;
               split; [unfold same_counters; counters_done | ];
               split; [exact H | assumption]
           end.
    all: left.
    all: try match goal with
           | H1 : same_counters ?a ?b, H2 : same_counters ?b ?c |- same_counters _ ?c =>
               refine (same_counters_trans _ _ _ _ (same_counters_trans _ _ _ H1 H2))
           end.
    all: unfold same_counters; counters_done.
Qed.

Lemma calc_frame_counters env sp st MyLoad RunFlag FirstIteration EquipFlowCtrl T o :
  CalcReformEIRChillerModel env sp st MyLoad RunFlag FirstIteration EquipFlowCtrl T
  = Ok o ->
  frame_counters st (state o).
Proof.
  intros H. apply calc_counter_blocks in H.
  destruct H as [H | (_ & s1 & A & Cp & P & s2 & P' & ds & H1 & Hu & H2)].
  - exact (proj1 H).
  - apply calc_flow_unlocked_counters in Hu. destruct Hu as (Hu & _).
    unfold same_counters, frame_counters in *.
    repeat match goal with H : _ /\ _ |- _ => destruct H end.
    repeat split; congruence.
Qed.

(** X19.  The evaluator leaves the counters of the solver and of the boundary
    validator alone, with one exception: a call may increment (as a C++
    int) the counter of the delta-T warning, which it does only when that
    counter is below 1, or else the counter of negative capacity-curve
    outputs, never both, and only when the plant flow is not locked, the
    flow mode is LeavingSetpointModulated and the simulation is not warming
    up.  So a delta-T counter that is an int is not lowered and is raised
    by at most 1, and so is a counter of negative capacity-curve outputs
    that is an int below the largest one. *)
Theorem evaluator_counters env sp st MyLoad RunFlag FirstIteration EquipFlowCtrl T o :
  CalcReformEIRChillerModel env sp st MyLoad RunFlag FirstIteration EquipFlowCtrl T
  = Ok o ->
  frame_counters st (state o)
  /\ ((DeltaTErrCount (state o) = DeltaTErrCount st
       /\ ChillerCapFTError (state o) = ChillerCapFTError st)
      \/ ((DeltaTErrCount st < 1)%Z
          /\ DeltaTErrCount (state o) = int_succ (DeltaTErrCount st)
          /\ ChillerCapFTError (state o) = ChillerCapFTError st)
      \/ ((1 <= DeltaTErrCount st)%Z
          /\ DeltaTErrCount (state o) = DeltaTErrCount st
          /\ ChillerCapFTError (state o) = int_succ (ChillerCapFTError st)))
  /\ ((INT_MIN <= DeltaTErrCount st)%Z ->
      (DeltaTErrCount st <= DeltaTErrCount (state o) <= DeltaTErrCount st + 1)%Z)
  /\ ((INT_MIN <= ChillerCapFTError st < INT_MAX)%Z ->
      (ChillerCapFTError st <= ChillerCapFTError (state o)
       <= ChillerCapFTError st + 1)%Z)
  /\ (FlowLock env <> 0%Z \/ FlowMode sp <> LeavingSetPointModulated
      \/ WarmupFlag env = true ->
      DeltaTErrCount (state o) = DeltaTErrCount st
      /\ ChillerCapFTError (state o) = ChillerCapFTError st).
Proof.
  intros H. split; [exact (calc_frame_counters _ _ _ _ _ _ _ _ _ H) | ].
  assert (K : ((DeltaTErrCount (state o) = DeltaTErrCount st
                /\ ChillerCapFTError (state o) = ChillerCapFTError st)
               \/ ((DeltaTErrCount st < 1)%Z
                   /\ DeltaTErrCount (state o) = int_succ (DeltaTErrCount st)
                   /\ ChillerCapFTError (state o) = ChillerCapFTError st)
               \/ ((1 <= DeltaTErrCount st)%Z
                   /\ DeltaTErrCount (state o) = DeltaTErrCount st
                   /\ ChillerCapFTError (state o) = int_succ (ChillerCapFTError st)))
              /\ (FlowLock env <> 0%Z \/ FlowMode sp <> LeavingSetPointModulated
                  \/ WarmupFlag env = true ->
                  DeltaTErrCount (state o) = DeltaTErrCount st
                  /\ ChillerCapFTError (state o) = ChillerCapFTError st)).
  { apply calc_counter_blocks in H.
    destruct H as [H | (HL & s1 & A & Cp & P & s2 & P' & ds & H1 & Hu & H2)].
    - destruct H as (_ & HD & HE). rewrite HD, HE.
      split; [left; split; reflexivity | intros _; split; reflexivity].
    - apply calc_flow_unlocked_counters in Hu.
      destruct Hu as (_ & U1 & U2).
      destruct H1 as (_ & D1 & E1). destruct H2 as (_ & D2 & E2).
      rewrite D2, E2. rewrite D1, E1 in *.
      split; [exact U1 | ].
      intros [Hc | Hc]; [contradiction | exact (U2 Hc)]. }
  destruct K as (K & Hframe). split; [exact K | ].
  split; [ | split; [ | exact Hframe]].
  - intros HR.
    destruct K as [(-> & _) | [(Hlt & -> & _) | (_ & -> & _)]]; try lia.
    rewrite int_succ_in_range by (unfold INT_MAX; lia). lia.
  - intros HR.
    destruct K as [(_ & ->) | [(_ & _ & ->) | (_ & _ & ->)]]; try lia.
    rewrite int_succ_in_range by exact HR. lia.
Qed.

(** The unlocked bench in LeavingSetpointModulated mode: nothing is
    counted when the set point is below the inlet temperature. *)
Lemma evaluator_counters_witness :
  exists o,
    CalcReformEIRChillerModel (Bench.env 0 1 25 0)
      (Bench.spec LeavingSetPointModulated 40 false 0 0) Bench.st0 (-(300000)) true
      false 1 30 = Ok o
    /\ frame_counters Bench.st0 (state o)
    /\ (DeltaTErrCount Bench.st0 <= DeltaTErrCount (state o)
        <= DeltaTErrCount Bench.st0 + 1)%Z.
Proof.
  bench_run o E. eexists. split; [reflexivity | ].
  destruct (evaluator_counters _ _ _ _ _ _ _ _ _ E) as (H1 & _ & H3 & _).
  split; [exact H1 | ]. apply H3. vm_compute. discriminate.
Defined.


(** * The evaporator side with the plant flow not locked *)

Lemma calc_unlocked_inv env sp st MyLoad RunFlag FirstIteration EquipFlowCtrl T o :
  CalcReformEIRChillerModel env sp st MyLoad RunFlag FirstIteration EquipFlowCtrl T
  = Ok o ->
  Real64.geb MyLoad 0 || negb RunFlag = false ->
  FlowLock env = 0%Z -> exit o = ExitEnd ->
  exists st1 P0 st2 P ds ds',
    let Cp := GetSpecificHeatGlycol env CWLoop (Temp (EvapInletNode env)) in
    let A := fouled_RefCap env sp * ChillerCapFT (state o) in
    QEvaporator st1 = A * P0
    /\ ChillerPartLoadRatio st1 = P0
    /\ 0 <= P0
    /\ DeltaTErrCount st1 = DeltaTErrCount st
    /\ ChillerCapFTError st1 = ChillerCapFTError st
    /\ calc_flow_unlocked env sp st1 A Cp P0 = Ok (st2, P, ds)
    /\ calc_power_condenser env sp st2 A (fouled_RefCOP env sp) P 1
         (Temp (CondInletNode env)) = Ok (state o, ds')
    /\ diags o = ds ++ ds'.
Proof.
  intros H Hidle HL Hx. unfold CalcReformEIRChillerModel in H. rewrite Hidle in H.
  unfold calc_fouling, calc_setpoint, calc_cond_avg_temp, calc_reset in H.
  rewrite HL in H. cbn [Z.eqb] in H.
  assert (ERC : fouled_RefCap env sp =
       if FaultyChillerFoulingFlag sp && faults_active env
       then RefCap sp * CalFoulingFactor env (FaultyChillerFoulingIndex sp)
       else RefCap sp) by reflexivity.
  assert (ECOP : fouled_RefCOP env sp =
       if FaultyChillerFoulingFlag sp && faults_active env
       then RefCOP sp * CalFoulingFactor env (FaultyChillerFoulingIndex sp)
       else RefCOP sp) by reflexivity.
  destruct (FaultyChillerFoulingFlag sp && faults_active env) eqn:HF;
  destruct (CondenserType sp =? WaterCooled)%Z eqn:HW;
  destruct (FaultyChillerSWTFlag sp && faults_active env) eqn:HS;
  destruct (HeatRecActive sp) eqn:HR;
  cbn [andb] in H; run_all.
  all: try discriminate Hx.
  all: try match goal with H : Real64.gtb (0 + 0) 0 = true |- _ => discriminate H end.
  all: try match goal with H : Real64.gtb (_ + _) 0 = true |- _ => fields; discriminate H end.
  all: fields; rewrite <- ?ERC, <- ?ECOP in *.
  all: match goal with
       | H : calc_flow_unlocked _ _ ?s _ _ ?p0 = Ok (?s2, ?p, ?d),
         H' : calc_power_condenser _ _ _ _ _ _ _ _ = Ok (_, ?d'),
         H'' : part_load_ratio _ _ _ = Ok _ |- _ =>
           pose proof (calc_power_condenser_frame _ _ _ _ _ _ _ _ _ _ H') as Fc;
           pose proof (calc_flow_unlocked_frame _ _ _ _ _ _ _ _ _ H) as (Fu & _);
           pose proof (proj1 (part_load_ratio_range _ _ _ _ H'')) as Hp0;
           exists s, p0, s2, p, d, d'
       end.
  all: cbv zeta; fields.
  all: unfold frame_cond, frame_evap in Fc, Fu; fields.
  all: repeat match goal with H : _ /\ _ |- _ => destruct H end.
  all: match goal with
       | H : ChillerCapFT ?s3 = ChillerCapFT ?s2, H' : ChillerCapFT ?s2 = _ |- _ =>
           rewrite H, H'
       end.
  all: repeat split; try reflexivity; try assumption.
Qed.

Lemma calc_flow_unlocked_constant env sp st A Cp P st' P' ds :
  calc_flow_unlocked env sp st A Cp P = Ok (st', P', ds) ->
  FaultyChillerSWTFlag sp && faults_active env = false ->
  FlowMode sp = ConstantFlow \/ FlowMode sp = NotModulated ->
  EvapMassFlowRate st' = SetComponentFlowRate env CWLoop (EvapMassFlowRateMax sp)
  /\ QEvaporator st' = QEvaporator st /\ P' = P /\ ds = []
  /\ (~ EvapMassFlowRate st' == 0 -> evap_balance env Cp st')
  /\ (EvapMassFlowRate st' == 0 -> EvapOutletTemp st' == Temp (EvapInletNode env)).
Proof.
  unfold calc_flow_unlocked, evap_balance. intros H HS HM. rewrite HS in H.
  cbn [andb] in H.
  assert (E : (FlowMode sp =? ConstantFlow)%Z || (FlowMode sp =? NotModulated)%Z = true).
  { destruct HM as [-> | ->]; reflexivity. }
  rewrite E in H.
  destruct (CurOpSchemeType env =? CompSetPtBasedSchemeType env)%Z;
    run_all; fields; reflect_tests;
    repeat match goal with
      | H : div _ _ = Ok _ |- _ => apply div_inv in H; destruct H as (? & ->)
      end;
    repeat split; try reflexivity;
    try (intros Hz; first [contradiction | ring]);
    intros _;
    match goal with
    | |- ?q == ?m * ?c * (?t - (?t - ?q / ?m / ?c)) =>
        setoid_replace (t - (t - q / m / c)) with (q / m / c) by ring;
        apply flow_heat; assumption
    end.
Qed.

Lemma calc_flow_unlocked_modulated env sp st A Cp P st' P' ds :
  calc_flow_unlocked env sp st A Cp P = Ok (st', P', ds) ->
  FaultyChillerSWTFlag sp && faults_active env = false ->
  FlowMode sp = LeavingSetPointModulated ->
  let dT := Temp (EvapInletNode env) - outlet_node_setpoint env in
  ~ dT == 0 ->
  EvapMassFlowRate st'
  = SetComponentFlowRate env CWLoop
      (Real64.min (EvapMassFlowRateMax sp) (Real64.max 0 (QEvaporator st / Cp / dT)))
  /\ EvapOutletTemp st' = outlet_node_setpoint env
  /\ QEvaporator st' = Real64.max 0 (EvapMassFlowRate st' * Cp * dT)
  /\ P' = P /\ ds = [].
Proof.
  unfold calc_flow_unlocked, outlet_node_setpoint. intros H HS HM. rewrite HS in H.
  cbn [andb] in H. rewrite HM in H.
  cbn [Z.eqb Pos.eqb LeavingSetPointModulated ConstantFlow NotModulated orb] in H.
  cbv zeta. intros HdT. apply Real64Facts.neb_true in HdT.
  destruct (CurOpSchemeType env =? CompSetPtBasedSchemeType env)%Z;
    destruct (LoopDemandCalcScheme env CWLoop);
    rewrite HdT in H; run_all; fields;
    repeat match goal with
      | H : div _ _ = Ok _ |- _ => apply div_inv in H; destruct H as (? & ->)
      end;
    goal_tests; fields; repeat split; reflexivity.
Qed.

Lemma calc_flow_unlocked_no_delta env sp st A Cp P st' P' ds :
  calc_flow_unlocked env sp st A Cp P = Ok (st', P', ds) ->
  FaultyChillerSWTFlag sp && faults_active env = false ->
  FlowMode sp = LeavingSetPointModulated ->
  let dT := Temp (EvapInletNode env) - outlet_node_setpoint env in
  dT == 0 ->
  EvapMassFlowRate st' = SetComponentFlowRate env CWLoop 0
  /\ EvapOutletTemp st' = Temp (EvapInletNode env)
  /\ QEvaporator st' = 0 /\ P' = 0 /\ ChillerPartLoadRatio st' = 0
  /\ (WarmupFlag env = true ->
      ds = [] /\ DeltaTErrCount st' = DeltaTErrCount st
      /\ ChillerCapFTError st' = ChillerCapFTError st)
  /\ (WarmupFlag env = false -> (DeltaTErrCount st < 1)%Z ->
      ds = [ShowWarningError CkDeltaT []; ShowContinueErrorTimeStamp CkDeltaT []]
      /\ DeltaTErrCount st' = int_succ (DeltaTErrCount st)
      /\ ChillerCapFTError st' = ChillerCapFTError st)
  /\ (WarmupFlag env = false -> (1 <= DeltaTErrCount st)%Z ->
      ds = [ShowRecurringWarningErrorAtEnd CkDeltaT dT dT]
      /\ DeltaTErrCount st' = DeltaTErrCount st
      /\ ChillerCapFTError st' = int_succ (ChillerCapFTError st)).
Proof.
  unfold calc_flow_unlocked, outlet_node_setpoint. intros H HS HM. rewrite HS in H.
  cbn [andb] in H. rewrite HM in H.
  cbn [Z.eqb Pos.eqb LeavingSetPointModulated ConstantFlow NotModulated orb] in H.
  cbv zeta. intros HdT. apply Real64Facts.neb_false in HdT.
  destruct (CurOpSchemeType env =? CompSetPtBasedSchemeType env)%Z;
    destruct (LoopDemandCalcScheme env CWLoop);
    rewrite HdT in H; fields;
    destruct (WarmupFlag env) eqn:EW;
    destruct (DeltaTErrCount st <? 1)%Z eqn:EC;
    cbn [andb negb] in H; injection H as <- <- <-; fields;
    repeat split; try reflexivity; try discriminate;
    try (intros; exfalso; first [apply Z.ltb_lt in EC | apply Z.ltb_ge in EC]; lia).
Qed.


(** X20.  After a call with the plant flow not locked that reached the end of
    the body, with the sensor fault model not in play.  In the constant
    flow modes the evaporator flow is what the plant grants of the design
    flow, the evaporator heat flow is available capacity x part-load ratio
    of the record, and it is what the flow gives up between inlet and
    outlet temperature of the record unless the granted flow is zero.  In
    the LeavingSetpointModulated mode with a set point different from the
    inlet temperature, the outlet temperature is the set point of the
    outlet node, the evaporator heat flow is never negative, and it is
    what the flow gives up between inlet and outlet when that is not
    negative. *)
Theorem evaporator_heat_flow_unlocked env sp st MyLoad RunFlag FirstIteration
    EquipFlowCtrl T o :
  MyLoad < 0 -> RunFlag = true ->
  CalcReformEIRChillerModel env sp st MyLoad RunFlag FirstIteration EquipFlowCtrl T
  = Ok o ->
  FlowLock env = 0%Z -> exit o = ExitEnd ->
  FaultyChillerSWTFlag sp && faults_active env = false ->
  let Cp := GetSpecificHeatGlycol env CWLoop (Temp (EvapInletNode env)) in
  let dT := Temp (EvapInletNode env) - outlet_node_setpoint env in
  (FlowMode sp = ConstantFlow \/ FlowMode sp = NotModulated ->
   EvapMassFlowRate (state o)
   = SetComponentFlowRate env CWLoop (EvapMassFlowRateMax sp)
   /\ QEvaporator (state o)
      = fouled_RefCap env sp * ChillerCapFT (state o) * ChillerPartLoadRatio (state o)
   /\ (~ EvapMassFlowRate (state o) == 0 -> evap_balance env Cp (state o)))
  /\ (FlowMode sp = LeavingSetPointModulated -> ~ dT == 0 ->
      EvapOutletTemp (state o) = outlet_node_setpoint env
      /\ 0 <= QEvaporator (state o)
      /\ (0 <= EvapMassFlowRate (state o) * Cp * dT -> evap_balance env Cp (state o))).
Proof.
  intros Hload Hrun H HL Hx HS. cbv zeta.
  destruct (calc_unlocked_inv _ _ _ _ _ _ _ _ _ H (running_test _ _ Hload Hrun) HL Hx)
    as (st1 & P0 & st2 & P & ds & ds' & HQ & HP & Hp0 & _ & _ & Hu & Hc & _).
  apply calc_power_condenser_frame in Hc. unfold frame_cond in Hc.
  repeat match goal with H : _ /\ _ |- _ => destruct H end.
  unfold evap_balance.
  replace (QEvaporator (state o)) with (QEvaporator st2) by congruence.
  replace (EvapMassFlowRate (state o)) with (EvapMassFlowRate st2) by congruence.
  replace (EvapOutletTemp (state o)) with (EvapOutletTemp st2) by congruence.
  replace (ChillerPartLoadRatio (state o)) with (ChillerPartLoadRatio st2)
    by congruence.
  split.
  - intros HM.
    destruct (calc_flow_unlocked_plr _ _ _ _ _ _ _ _ _ Hu HP Hp0) as (EP & _).
    destruct (calc_flow_unlocked_constant _ _ _ _ _ _ _ _ _ Hu HS HM)
      as (Em & Eq & EPP & _ & Hb & _).
    split; [exact Em | ]. split; [ | exact Hb].
    rewrite Eq, HQ, EP, EPP. reflexivity.
  - intros HM HdT.
    destruct (calc_flow_unlocked_modulated _ _ _ _ _ _ _ _ _ Hu HS HM HdT)
      as (Em & Et & Eq & _).
    split; [exact Et | ]. rewrite Eq, Et.
    split; [apply Real64Facts.max_lb_l | ].
    intros Hpos. unfold Real64.max.
    destruct (Real64.ltb 0 _) eqn:E; reflect_tests; [reflexivity | lra].
Qed.

(** The unlocked bench in LeavingSetpointModulated mode. *)
Lemma evaporator_heat_flow_unlocked_witness :
  exists o,
    CalcReformEIRChillerModel (Bench.env 0 1 25 0)
      (Bench.spec LeavingSetPointModulated 40 false 0 0) Bench.st0 (-(300000)) true
      false 1 30 = Ok o
    /\ EvapOutletTemp (state o) = 6.67
    /\ 0 <= QEvaporator (state o).
Proof.
  bench_run o E. eexists. split; [reflexivity | ].
  destruct (evaporator_heat_flow_unlocked _ _ _ _ _ _ _ _ _
              (eq_refl : -(300000) < 0) eq_refl E eq_refl eq_refl eq_refl)
    as (_ & H2).
  destruct H2 as (H2 & H3 & _); [reflexivity | vm_compute; discriminate | ].
  split; assumption.
Defined.

(** X21.  The delta-T edge of the LeavingSetpointModulated mode.  When the set
    point of the evaporator outlet node equals the inlet temperature, a
    call with the plant flow not locked requests zero flow, leaves the
    outlet at the inlet temperature and the evaporator heat flow and the
    part-load ratio at 0.  Outside warm-up the first such call (delta-T
    counter below 1) writes the delta-T warning and increments that
    counter; every later one writes the recurring message and increments,
    not the delta-T counter, but the counter of negative capacity-curve
    outputs.  The increments are those of a C++ int. *)
Theorem delta_t_zero_path env sp st MyLoad RunFlag FirstIteration EquipFlowCtrl T o :
  MyLoad < 0 -> RunFlag = true ->
  CalcReformEIRChillerModel env sp st MyLoad RunFlag FirstIteration EquipFlowCtrl T
  = Ok o ->
  FlowLock env = 0%Z -> exit o = ExitEnd ->
  FaultyChillerSWTFlag sp && faults_active env = false ->
  FlowMode sp = LeavingSetPointModulated ->
  let dT := Temp (EvapInletNode env) - outlet_node_setpoint env in
  dT == 0 ->
  EvapMassFlowRate (state o) = SetComponentFlowRate env CWLoop 0
  /\ EvapOutletTemp (state o) = Temp (EvapInletNode env)
  /\ QEvaporator (state o) = 0 /\ ChillerPartLoadRatio (state o) = 0
  /\ (WarmupFlag env = false -> (DeltaTErrCount st < 1)%Z ->
      In (ShowWarningError CkDeltaT []) (diags o)
      /\ DeltaTErrCount (state o) = int_succ (DeltaTErrCount st)
      /\ ChillerCapFTError (state o) = ChillerCapFTError st)
  /\ (WarmupFlag env = false -> (1 <= DeltaTErrCount st)%Z ->
      In (ShowRecurringWarningErrorAtEnd CkDeltaT dT dT) (diags o)
      /\ DeltaTErrCount (state o) = DeltaTErrCount st
      /\ ChillerCapFTError (state o) = int_succ (ChillerCapFTError st)).
Proof.
  intros Hload Hrun H HL Hx HS HM. cbv zeta. intros HdT.
  destruct (calc_unlocked_inv _ _ _ _ _ _ _ _ _ H (running_test _ _ Hload Hrun) HL Hx)
    as (st1 & P0 & st2 & P & ds & ds' & HQ & HP & Hp0 & HD & HE & Hu & Hc & Hds).
  pose proof (calc_power_condenser_frame _ _ _ _ _ _ _ _ _ _ Hc) as Fc.
  apply calc_power_condenser_counters in Hc. destruct Hc as (_ & CD & CE).
  unfold frame_cond in Fc.
  repeat match goal with H : _ /\ _ |- _ => destruct H end.
  destruct (calc_flow_unlocked_no_delta _ _ _ _ _ _ _ _ _ Hu HS HM HdT)
    as (Em & Et & Eq & _ & Ep & _ & Hfirst & Hlater).
  rewrite Hds, CD, CE, <- HD, <- HE.
  split; [congruence | ]. split; [congruence | ].
  split; [congruence | ]. split; [congruence | ].
  split.
  - intros HW Hn. destruct (Hfirst HW Hn) as (-> & -> & ->).
    split; [left; reflexivity | split; reflexivity].
  - intros HW Hn. destruct (Hlater HW Hn) as (-> & -> & ->).
    split; [left; reflexivity | split; reflexivity].
Qed.

(** The bench with the evaporator inlet at the set point: the first call
    warns, and with one warning already counted the next call raises the
    counter of negative capacity-curve outputs. *)
Lemma delta_t_zero_path_witness :
  exists o,
    CalcReformEIRChillerModel EdgeBench.env_no_delta
      (Bench.spec LeavingSetPointModulated 40 false 0 0)
      (set_DeltaTErrCount 1 Bench.st0) (-(300000)) true false 1 30 = Ok o
    /\ QEvaporator (state o) = 0
    /\ DeltaTErrCount (state o) = 1%Z
    /\ ChillerCapFTError (state o) = 1%Z.
Proof.
  bench_run o E. eexists. split; [reflexivity | ].
  destruct (delta_t_zero_path _ _ _ _ _ _ _ _ _
              (eq_refl : -(300000) < 0) eq_refl E eq_refl eq_refl eq_refl eq_refl
              (eq_refl : 6.67 - 6.67 == 0))
    as (_ & _ & H3 & _ & _ & H6).
  destruct H6 as (_ & H7 & H8); [reflexivity | discriminate | ].
  split; [exact H3 | ]. split; [exact H7 | exact H8].
Defined.


(** X22.  When the root finder gives up.  For a call with negative load and the
    run flag on whose probes bracket the interval, so that the root finder
    is called and returns a flag and the record that its last evaluation
    left.  On flag -2 (the end points do not bracket a root) the solver
    increments the failure counter (a C++ int; not during warm-up),
    evaluates once more, on that record, at the condenser inlet
    temperature and with the load that the probes left, and ends with the
    boundary validator on the record of that evaluation, handing back the
    load of that evaluation.  On flag -1 (iteration limit reached) it
    increments the iteration-limit counter (not during warm-up) and ends
    with the boundary validator on that record, handing back the load that
    the probes left.  The evaluator and the validator leave both counters
    alone, so on return they are as the solver set them. *)
Theorem solver_root_finder_failure env sp num st MyLoad (FirstIteration : bool)
    EquipFlowCtrl o1 o2 SolFla X st1 ds1 r :
  let Tmin := bracket_Tmin sp in
  let Tmax := bracket_Tmax sp in
  let Tin := Temp (CondInletNode env) in
  let Par := [ inject_Z num; load o2; 1; (if FirstIteration then 1 else 0); 0;
               inject_Z EquipFlowCtrl ] in
  let bump (n : Z) := if WarmupFlag env then n else int_succ n in
  MyLoad < 0 ->
  CalcReformEIRChillerModel env sp st MyLoad true FirstIteration EquipFlowCtrl Tmin
  = Ok o1 ->
  CalcReformEIRChillerModel env sp (state o1) (load o1) true FirstIteration
    EquipFlowCtrl Tmax = Ok o2 ->
  Tmin < CondOutletTemp (state o1) /\ CondOutletTemp (state o2) < Tmax ->
  SolveRoot env Prog 0.0001 500%Z
    (fun x s => CondOutTempResidual env sp x Par s) Tmin Tmax
    (state o2, diags o1 ++ diags o2) = Ok (SolFla, X, (st1, ds1)) ->
  ControlReformEIRChillerModel env sp num st MyLoad true FirstIteration EquipFlowCtrl
  = Ok r ->
  (SolFla = (-2)%Z ->
   exists o dv,
     CalcReformEIRChillerModel env sp
       (if WarmupFlag env then st1
        else set_IterFailed (int_succ (IterFailed st1)) st1)
       (load o2) true FirstIteration EquipFlowCtrl Tin = Ok o
     /\ CheckMinMaxCurveBoundaries env sp (state o) FirstIteration
        = Ok (final_state r, dv)
     /\ final_load r = load o
     /\ steps r = [StepCalc Tmin; StepCalc Tmax; StepSolveRoot 0.0001 500 Tmin Tmax;
                   StepCalc Tin; StepCheckBoundaries]
     /\ IterFailed (final_state r) = bump (IterFailed st1)
     /\ IterLimitExceededNum (final_state r) = IterLimitExceededNum st1)
  /\ (SolFla = (-1)%Z ->
      exists dv,
        CheckMinMaxCurveBoundaries env sp
          (if WarmupFlag env then st1
           else set_IterLimitExceededNum (int_succ (IterLimitExceededNum st1)) st1)
          FirstIteration
        = Ok (final_state r, dv)
        /\ final_load r = load o2
        /\ steps r = [StepCalc Tmin; StepCalc Tmax;
                      StepSolveRoot 0.0001 500 Tmin Tmax; StepCheckBoundaries]
        /\ IterLimitExceededNum (final_state r) = bump (IterLimitExceededNum st1)
        /\ IterFailed (final_state r) = IterFailed st1).
Proof.
  cbv zeta. intros Hload H1 H2 (Hc1 & Hc2) HS H.
  unfold ControlReformEIRChillerModel in H.
  rewrite (running_test _ _ Hload eq_refl) in H.
  cbv zeta in H. rewrite H1 in H. cbn [bind] in H. rewrite H2 in H. cbn [bind] in H.
  apply Real64Facts.gtb_true in Hc1. apply Real64Facts.ltb_true in Hc2.
  rewrite Hc1, Hc2 in H. cbn [andb] in H.
  bind_split H x Hx. destruct x as [[[called s] d] L].
  bind_split H y Hy. destruct y as [s' dv]. injection H as <-.
  cbn [steps final_state final_load].
  destruct (validator_run _ _ _ _ _ _ Hy) as (Fv & _).
  apply solve_branch_spec in Hx.
  destruct Hx as (F' & X' & st1' & ds1' & HS' & Hm1 & Hm2 & _).
  rewrite HS in HS'. injection HS' as <- <- <- <-.
  unfold validator_frame in Fv.
  split.
  - intros E. destruct (Hm2 E) as (o & Ho & -> & -> & -> & _).
    exists o, dv. split; [exact Ho | ]. split; [exact Hy | ].
    split; [reflexivity | ]. split; [reflexivity | ].
    apply calc_frame_counters in Ho. unfold frame_counters in Ho.
    repeat match goal with H : _ /\ _ |- _ => destruct H end.
    destruct (WarmupFlag env); fields; split; congruence.
  - intros E. destruct (Hm1 E) as (-> & -> & -> & _).
    exists dv. split; [exact Hy | ].
    split; [reflexivity | ]. split; [reflexivity | ].
    repeat match goal with H : _ /\ _ |- _ => destruct H end.
    destruct (WarmupFlag env); fields; split; congruence.
Qed.

(** The flow-locked bench with curves valid up to 40 C and a root finder
    that ends with flag -2: the failure is counted and the last evaluation
    is at the condenser inlet temperature, 29.4 C.  With a root finder that
    ends with flag -1 the iteration limit is counted and there is no
    further evaluation. *)
Lemma solver_root_finder_failure_witness :
  (exists r,
      ControlReformEIRChillerModel (SolverBench.env (-2))
        (Bench.spec ConstantFlow 40 false 0 0) 1 Bench.st0 (-(300000)) true false 1
      = Ok r
      /\ steps r
         = [StepCalc (bracket_Tmin (Bench.spec ConstantFlow 40 false 0 0));
            StepCalc (bracket_Tmax (Bench.spec ConstantFlow 40 false 0 0));
            StepSolveRoot 0.0001 500
              (bracket_Tmin (Bench.spec ConstantFlow 40 false 0 0))
              (bracket_Tmax (Bench.spec ConstantFlow 40 false 0 0));
            StepCalc (Temp (CondInletNode (SolverBench.env (-2))));
            StepCheckBoundaries]
      /\ IterFailed (final_state r) = 1%Z)
  /\ (exists r,
      ControlReformEIRChillerModel (SolverBench.env (-1))
        (Bench.spec ConstantFlow 40 false 0 0) 1 Bench.st0 (-(300000)) true false 1
      = Ok r
      /\ steps r
         = [StepCalc (bracket_Tmin (Bench.spec ConstantFlow 40 false 0 0));
            StepCalc (bracket_Tmax (Bench.spec ConstantFlow 40 false 0 0));
            StepSolveRoot 0.0001 500
              (bracket_Tmin (Bench.spec ConstantFlow 40 false 0 0))
              (bracket_Tmax (Bench.spec ConstantFlow 40 false 0 0));
            StepCheckBoundaries]
      /\ IterLimitExceededNum (final_state r) = 1%Z).
Proof.
  split.
  - destruct (CalcReformEIRChillerModel (SolverBench.env (-2))
                (Bench.spec ConstantFlow 40 false 0 0) Bench.st0 (-(300000)) true
                false 1 (bracket_Tmin (Bench.spec ConstantFlow 40 false 0 0)))
      as [o1 | ] eqn:E1; [ | vm_compute in E1; discriminate E1].
    pose proof E1 as E1'. vm_compute in E1'. injection E1' as <-.
    match type of E1 with
    | _ = Ok ?o =>
        destruct (CalcReformEIRChillerModel (SolverBench.env (-2))
                    (Bench.spec ConstantFlow 40 false 0 0) (state o) (load o) true
                    false 1 (bracket_Tmax (Bench.spec ConstantFlow 40 false 0 0)))
          as [o2 | ] eqn:E2; [ | vm_compute in E2; discriminate E2]
    end.
    pose proof E2 as E2'. vm_compute in E2'. injection E2' as <-.
    match type of E1 with
    | _ = Ok ?oa =>
    match type of E2 with
    | _ = Ok ?ob =>
        destruct (SolveRoot (SolverBench.env (-2)) Prog 0.0001 500%Z
                    (fun x s =>
                       CondOutTempResidual (SolverBench.env (-2))
                         (Bench.spec ConstantFlow 40 false 0 0) x
                         [inject_Z 1; load ob; 1; 0; 0; inject_Z 1] s)
                    (bracket_Tmin (Bench.spec ConstantFlow 40 false 0 0))
                    (bracket_Tmax (Bench.spec ConstantFlow 40 false 0 0))
                    (state ob, diags oa ++ diags ob))
          as [[[SolFla X] [st1 ds1]] | ] eqn:HS;
          [ | vm_compute in HS; discriminate HS];
        assert (Hb : bracket_Tmin (Bench.spec ConstantFlow 40 false 0 0)
                     < CondOutletTemp (state oa)
                     /\ CondOutletTemp (state ob)
                        < bracket_Tmax (Bench.spec ConstantFlow 40 false 0 0))
          by (split; vm_compute; reflexivity)
    end end.
    pose proof HS as HS'. vm_compute in HS'. injection HS' as <- <- <- <-.
    destruct (ControlReformEIRChillerModel (SolverBench.env (-2))
                (Bench.spec ConstantFlow 40 false 0 0) 1 Bench.st0 (-(300000)) true
                false 1) as [r | ] eqn:E3; [ | vm_compute in E3; discriminate E3].
    exists r. split; [reflexivity | ].
    destruct (solver_root_finder_failure _ _ _ _ _ _ _ _ _ _ _ _ _ _
                (eq_refl : -(300000) < 0) E1 E2 Hb HS E3) as (H & _).
    destruct (H eq_refl) as (o & dv & _ & _ & _ & Hs & Hf & _).
    split; [exact Hs | exact Hf].
  - destruct (CalcReformEIRChillerModel (SolverBench.env (-1))
                (Bench.spec ConstantFlow 40 false 0 0) Bench.st0 (-(300000)) true
                false 1 (bracket_Tmin (Bench.spec ConstantFlow 40 false 0 0)))
      as [o1 | ] eqn:E1; [ | vm_compute in E1; discriminate E1].
    pose proof E1 as E1'. vm_compute in E1'. injection E1' as <-.
    match type of E1 with
    | _ = Ok ?o =>
        destruct (CalcReformEIRChillerModel (SolverBench.env (-1))
                    (Bench.spec ConstantFlow 40 false 0 0) (state o) (load o) true
                    false 1 (bracket_Tmax (Bench.spec ConstantFlow 40 false 0 0)))
          as [o2 | ] eqn:E2; [ | vm_compute in E2; discriminate E2]
    end.
    pose proof E2 as E2'. vm_compute in E2'. injection E2' as <-.
    match type of E1 with
    | _ = Ok ?oa =>
    match type of E2 with
    | _ = Ok ?ob =>
        destruct (SolveRoot (SolverBench.env (-1)) Prog 0.0001 500%Z
                    (fun x s =>
                       CondOutTempResidual (SolverBench.env (-1))
                         (Bench.spec ConstantFlow 40 false 0 0) x
                         [inject_Z 1; load ob; 1; 0; 0; inject_Z 1] s)
                    (bracket_Tmin (Bench.spec ConstantFlow 40 false 0 0))
                    (bracket_Tmax (Bench.spec ConstantFlow 40 false 0 0))
                    (state ob, diags oa ++ diags ob))
          as [[[SolFla X] [st1 ds1]] | ] eqn:HS;
          [ | vm_compute in HS; discriminate HS];
        assert (Hb : bracket_Tmin (Bench.spec ConstantFlow 40 false 0 0)
                     < CondOutletTemp (state oa)
                     /\ CondOutletTemp (state ob)
                        < bracket_Tmax (Bench.spec ConstantFlow 40 false 0 0))
          by (split; vm_compute; reflexivity)
    end end.
    pose proof HS as HS'. vm_compute in HS'. injection HS' as <- <- <- <-.
    destruct (ControlReformEIRChillerModel (SolverBench.env (-1))
                (Bench.spec ConstantFlow 40 false 0 0) 1 Bench.st0 (-(300000)) true
                false 1) as [r | ] eqn:E3; [ | vm_compute in E3; discriminate E3].
    exists r. split; [reflexivity | ].
    destruct (solver_root_finder_failure _ _ _ _ _ _ _ _ _ _ _ _ _ _
                (eq_refl : -(300000) < 0) E1 E2 Hb HS E3) as (_ & H).
    destruct (H eq_refl) as (dv & _ & _ & Hs & Hf & _).
    split; [exact Hs | exact Hf].
Defined.

